(** * A shallow embedding of the BYD Seal RAG service

    The development follows the Python sources module by module:

    - [PyStr]       the [str] operations the program relies on
                    ([lower], [strip], [in], [str.replace], [re.findall]
                    for the one pattern in use, [float] on the tokens that
                    pattern yields, [str(int)]);
    - [Config]      [src/config.py];
    - [Guardrails]  [src/guardrails/checker.py];
    - [Processing]  [src/processing/document_processor.py];
    - [Pipeline]    [src/pipeline/rag_pipeline.py].

    The predicates the statements are written with and the sample inputs
    come next, and the properties last, grouped by component.

    Text is modelled as [string], i.e. as the sequence of bytes of its
    UTF-8 encoding.  Case mapping, whitespace and digit classes are the
    ASCII ones; bytes above 127 are left alone by [lower] and are neither
    whitespace nor digits.  Substring tests are exact on any text. *)

From Stdlib Require Import String Ascii List ZArith QArith Lia Bool Arith.
From Stdlib Require Import DecimalString.
From Stdlib Require DecimalNat DecimalFacts.
Import ListNotations.
Close Scope Q_scope.
Local Open Scope list_scope.
Local Open Scope string_scope.
Local Open Scope nat_scope.

(* ================================================================== *)
(** ** Python [str] *)
(* ================================================================== *)

Module PyStr.

(** [str.lower], ASCII letters. *)
Definition lower_ascii (c : ascii) : ascii :=
  let n := nat_of_ascii c in
  if (65 <=? n) && (n <=? 90) then ascii_of_nat (n + 32) else c.

Fixpoint lower (s : string) : string :=
  match s with
  | EmptyString => EmptyString
  | String c t => String (lower_ascii c) (lower t)
  end.

(** [needle in hay]. *)
Fixpoint contains (needle hay : string) : bool :=
  prefix needle hay ||
  match hay with
  | EmptyString => false
  | String _ t => contains needle t
  end.

(** [str.isspace] on one character: TAB, LF, VT, FF, CR, the four
    separators FS, GS, RS, US, and SPACE. *)
Definition is_space (c : ascii) : bool :=
  let n := nat_of_ascii c in
  ((9 <=? n) && (n <=? 13)) || ((28 <=? n) && (n <=? 32)).

Fixpoint lstrip (s : string) : string :=
  match s with
  | EmptyString => EmptyString
  | String c t => if is_space c then lstrip t else s
  end.

Fixpoint rstrip (s : string) : string :=
  match s with
  | EmptyString => EmptyString
  | String c t =>
      match rstrip t with
      | EmptyString => if is_space c then EmptyString else String c EmptyString
      | t' => String c t'
      end
  end.

(** [s.strip()]. *)
Definition strip (s : string) : string := rstrip (lstrip s).

(** [len(s)]. *)
Definition len (s : string) : nat := String.length s.

(** The class [\d] and the class [[\d,]] of the number pattern. *)
Definition is_digit (c : ascii) : bool :=
  let n := nat_of_ascii c in (48 <=? n) && (n <=? 57).

Definition is_comma (c : ascii) : bool := Ascii.eqb c ","%char.
Definition is_dot (c : ascii) : bool := Ascii.eqb c "."%char.
Definition is_digit_or_comma (c : ascii) : bool := is_digit c || is_comma c.

(** [s.replace(',', '')]. *)
Fixpoint remove_commas (s : string) : string :=
  match s with
  | EmptyString => EmptyString
  | String c t => if is_comma c then remove_commas t else String c (remove_commas t)
  end.

(** [str(n)] and the f-string field [{n}] for a non-negative [int]. *)
Definition str_of_nat (n : nat) : string :=
  NilZero.string_of_uint (Nat.to_uint n).

(** String reversal, used by the scanner below to keep the characters of
    the current match in an accumulator. *)
Fixpoint rev_onto (acc s : string) : string :=
  match s with
  | EmptyString => acc
  | String c t => rev_onto (String c acc) t
  end.
Definition rev (s : string) : string := rev_onto EmptyString s.

(** *** [re.findall(r'[\d,]+(?:\.\d+)?', s)]

    The scanner reads the text once, left to right.  A match starts at
    the first character of class [[\d,]], takes the longest run of that
    class, and then takes [.] followed by a longest non-empty run of
    digits when that is what comes next; a [.] that no digit follows is
    given back, and the search resumes right after the match.  The
    states record where in the pattern the current match is; the
    accumulator holds the match so far, last character first. *)
Inductive scan_state : Type :=
| Outside                       (* no match in progress *)
| InRun (acc : string)          (* inside [\d,]+ *)
| AfterDot (acc : string)       (* [\d,]+ read, then a '.', digit pending *)
| InFrac (acc : string).        (* inside \.\d+ *)

(** Reading [c] with no match in progress. *)
Definition start_at (c : ascii) : scan_state :=
  if is_digit_or_comma c then InRun (String c EmptyString) else Outside.

(** One character: the matches completed by it (at most one), and the
    next state. *)
Definition scan_step (st : scan_state) (c : ascii) : list string * scan_state :=
  match st with
  | Outside => ([], start_at c)
  | InRun acc =>
      if is_digit_or_comma c then ([], InRun (String c acc))
      else if is_dot c then ([], AfterDot acc)
      else ([rev acc], Outside)
  | AfterDot acc =>
      if is_digit c then ([], InFrac (String c (String "."%char acc)))
      else ([rev acc], start_at c)
  | InFrac acc =>
      if is_digit c then ([], InFrac (String c acc))
      else ([rev acc], start_at c)
  end.

(** End of text: the match in progress, if any, is complete. *)
Definition scan_end (st : scan_state) : list string :=
  match st with
  | Outside => []
  | InRun acc | AfterDot acc | InFrac acc => [rev acc]
  end.

Fixpoint scan (st : scan_state) (s : string) : list string :=
  match s with
  | EmptyString => scan_end st
  | String c t => let '(out, st') := scan_step st c in (out ++ scan st' t)%list
  end.

Definition findall_numbers (s : string) : list string := scan Outside s.

(** *** [float(tok)] on strings of digits with at most one [.]

    The value of a decimal literal is kept exactly, as [mant / 10^scale].
    [float] raises [ValueError] ([None] here) on the empty string and on
    a lone dot; every other string over digits and one dot is a float
    literal.  Strings outside that alphabet do not reach [float] in this
    program, and are mapped to [None]. *)
Record decimal : Type := { mant : Z; scale : nat }.

Definition digit_value (c : ascii) : Z := Z.of_nat (nat_of_ascii c - 48).

(** Digits read so far as an integer, and how many of them there were. *)
Fixpoint read_digits (acc : Z) (n : nat) (s : string) : Z * nat * string :=
  match s with
  | String c t =>
      if is_digit c then read_digits (10 * acc + digit_value c) (S n) t
      else (acc, n, s)
  | EmptyString => (acc, n, s)
  end.

Definition float_of_str (s : string) : option decimal :=
  let '(ip, ni, rest) := read_digits 0 0 s in
  match rest with
  | EmptyString =>
      if ni =? 0 then None else Some {| mant := ip; scale := 0 |}
  | String c t =>
      if is_dot c then
        let '(m, n, rest') := read_digits ip ni t in
        match rest' with
        | EmptyString =>
            if n =? 0 then None else Some {| mant := m; scale := n - ni |}
        | _ => None
        end
      else None
  end.

(** Comparisons of the resulting double with the integer constants of
    the program.  [float] rounds to the nearest double, ties to even.
    Doubles next to 100 are 2^-46 apart below it, and 100 has an even
    significand, so the result is below 100.0 exactly when the literal
    is below [100 - 2^-47].  Doubles next to 2030 are 2^-42 apart, and
    2030 has an even significand, so the result is above 2030.0 exactly
    when the literal is above [2030 + 2^-43].  Literals too large for a
    double become [inf], which is above 2030. *)
Definition float_lt_100 (d : decimal) : bool :=
  (mant d * 2 ^ 47 <? (100 * 2 ^ 47 - 1) * 10 ^ Z.of_nat (scale d))%Z.

Definition float_gt_2030 (d : decimal) : bool :=
  ((2030 * 2 ^ 43 + 1) * 10 ^ Z.of_nat (scale d) <? mant d * 2 ^ 43)%Z.

End PyStr.

(* ================================================================== *)
(** ** [src/config.py] *)
(* ================================================================== *)

Module Config.

Record t : Type := {
  max_retries : nat;
  retry_delay : Q;
  chunk_size : nat;
  chunk_overlap : nat;
  batch_size : nat;
  top_k_retrieval : nat;
  facts_file : string;
  external_file : string;
  cache_dir : string;
  sensitive_topics : list string
}.

(** The topics [__post_init__] installs when none are given. *)
Definition default_sensitive_topics : list string :=
  [ "price"; "pricing"; "cost"; "warranty"; "guarantee";
    "availability"; "stock"; "delivery"; "shipping";
    "technical specifications"; "performance numbers" ].

(** The global instance [config = Config()]. *)
Definition config : t := {|
  max_retries := 3;
  retry_delay := 2 # 1;
  chunk_size := 800;
  chunk_overlap := 100;
  batch_size := 20;
  top_k_retrieval := 3;
  facts_file := "data/byd_seal_facts.md";
  external_file := "data/byd_seal_external.json";
  cache_dir := "cache";
  sensitive_topics := default_sensitive_topics
|}.

End Config.

(* ================================================================== *)
(** ** [langchain.schema.Document] *)
(* ================================================================== *)

(** Metadata is a [dict] from keys to text; insertion order is kept. *)
Definition metadata_t : Type := list (string * string).

Fixpoint dict_get (k : string) (d : metadata_t) : option string :=
  match d with
  | [] => None
  | (k', v) :: r => if String.eqb k k' then Some v else dict_get k r
  end.

(** [d[k] = v]: replaces the value in place, appends a new key. *)
Fixpoint dict_set (k v : string) (d : metadata_t) : metadata_t :=
  match d with
  | [] => [(k, v)]
  | (k', v') :: r =>
      if String.eqb k k' then (k', v) :: r else (k', v') :: dict_set k v r
  end.

Record Document : Type := {
  page_content : string;
  metadata : metadata_t
}.

(* ================================================================== *)
(** ** [src/guardrails/checker.py] *)
(* ================================================================== *)

Module Guardrails.
Import PyStr.

(** The rupee sign U+20B9, as its three UTF-8 bytes. *)
Definition rupee_sign : string :=
  String "226"%char (String "130"%char (String "185"%char EmptyString)).

Definition fabrication_indicators : list string :=
  [ "approximately"; "around"; "roughly"; "about $"; rupee_sign;
    "starting from"; "priced at"; "costs"; "estimated";
    "likely"; "probably"; "might be"; "could be" ].

(** [GuardrailsChecker.is_sensitive_question], for a checker built over
    the topic list [topics]. *)
Definition is_sensitive_question (topics : list string) (question : string) : bool :=
  let question_lower := lower question in
  existsb (fun topic => contains topic question_lower) topics.

(** The loop of [_contains_specific_numbers] over the tokens found.
    [None] from [float_of_str] is the [ValueError] branch. *)
Fixpoint check_numbers (answer_numbers : list string) (source_content : string) : bool :=
  match answer_numbers with
  | [] => false
  | number :: rest =>
      if negb (contains number source_content) then
        match float_of_str (remove_commas number) with
        | Some num_val =>
            if float_lt_100 num_val || float_gt_2030 num_val
            then check_numbers rest source_content
            else true
        | None => check_numbers rest source_content
        end
      else check_numbers rest source_content
  end.

(** [GuardrailsChecker._contains_specific_numbers]. *)
Definition contains_specific_numbers (answer source_content : string) : bool :=
  let answer_numbers := findall_numbers answer in
  match answer_numbers with
  | [] => false
  | _ => check_numbers answer_numbers source_content
  end.

(** [GuardrailsChecker.validate_answer]. *)
Definition validate_answer (answer : string) (sources : list Document) : bool :=
  match sources with
  | [] => false
  | _ =>
      let source_content := lower (String.concat " " (map page_content sources)) in
      let answer_lower := lower answer in
      let fabrication_found :=
        filter (fun indicator =>
                  contains indicator answer_lower
                  && negb (contains indicator source_content))
               fabrication_indicators in
      match fabrication_found with
      | _ :: _ => false
      | [] =>
          if contains_specific_numbers answer source_content then false
          else true
      end
  end.

(** [GuardrailsChecker.should_refuse_sensitive]. *)
Definition should_refuse_sensitive (is_sensitive has_facts : bool) : bool :=
  is_sensitive && negb has_facts.

(** [GuardrailsChecker.get_refusal_message]. *)
Definition get_refusal_message (question_type : string) : string :=
  if String.eqb question_type "sensitive" then
    "I cannot provide information about pricing, warranty, or technical "
    ++ "specifications as this information is not available in my reliable sources."
  else if String.eqb question_type "insufficient_info" then
    "I don't have enough information to answer this question safely."
  else if String.eqb question_type "validation_failed" then
    "I cannot provide a reliable answer based on the available sources. "
    ++ "Please try rephrasing your question or ask about topics covered in "
    ++ "the reliable documentation."
  else "I cannot provide information on this topic.".

End Guardrails.

(* ================================================================== *)
(** ** Python lists *)
(* ================================================================== *)

(** [enumerate(l)]. *)
Definition enumerate {A : Type} (l : list A) : list (nat * A) :=
  combine (seq 0 (length l)) l.

(** [l[i:j]] for [0 <= i <= j]. *)
Definition slice {A : Type} (i j : nat) (l : list A) : list A :=
  firstn (j - i) (skipn i l).

(** [range(start, stop, step)] for a positive [step]; at most [stop]
    values are produced, which bounds the recursion. *)
Fixpoint range_from (fuel start stop step : nat) : list nat :=
  match fuel with
  | 0 => []
  | S fuel' =>
      if start <? stop then start :: range_from fuel' (start + step) stop step
      else []
  end.

Definition py_range (start stop step : nat) : list nat :=
  range_from stop start stop step.

(* ================================================================== *)
(** ** [src/processing/document_processor.py] *)
(* ================================================================== *)

Module Processing.
Import PyStr.

(** A FAISS store is known to this program through what was put into
    it: the documents it holds, in insertion order. *)
Definition VectorStore : Type := list Document.

(** A record of the external JSON file, with the keys the loader reads.
    [None] is an absent key. *)
Record Item : Type := {
  transcriptText : option metadata_t;
  transcript : option string;
  video_id : option string;
  title : option string;
  brand : option string;
  product : option string
}.

(** What is found at [config.external_file]. *)
Inductive JsonFile : Type :=
| FileMissing
| FileInvalid
| FileData (data : list Item).

(** What is found at a cache location.  [CacheBroken] stands for a
    directory that exists and that [FAISS.load_local] cannot read. *)
Inductive CacheFile : Type :=
| CacheAbsent
| CacheSaved (vs : VectorStore)
| CacheBroken.

(** How one call of [save_local] ends. *)
Inductive SaveOutcome : Type :=
| SaveDone
| SaveFailedClean      (* raises, nothing written *)
| SaveFailedPartial.   (* raises, leaves an unreadable directory *)

(** Everything outside the process that the builder reads or changes. *)
Record World : Type := {
  facts_source : option string;     (* text of [config.facts_file] *)
  external_source : JsonFile;
  facts_cache : CacheFile;
  external_cache : CacheFile;
  embed_calls : nat;                (* requests sent to the embedding service *)
  save_calls : nat;                 (* calls of [save_local] *)
  slept : list Q                    (* arguments of [time.sleep], oldest first *)
}.

Definition set_facts_cache (c : CacheFile) (w : World) : World :=
  {| facts_source := facts_source w; external_source := external_source w;
     facts_cache := c; external_cache := external_cache w;
     embed_calls := embed_calls w; save_calls := save_calls w; slept := slept w |}.

Definition set_external_cache (c : CacheFile) (w : World) : World :=
  {| facts_source := facts_source w; external_source := external_source w;
     facts_cache := facts_cache w; external_cache := c;
     embed_calls := embed_calls w; save_calls := save_calls w; slept := slept w |}.

Definition count_embed (w : World) : World :=
  {| facts_source := facts_source w; external_source := external_source w;
     facts_cache := facts_cache w; external_cache := external_cache w;
     embed_calls := S (embed_calls w); save_calls := save_calls w; slept := slept w |}.

Definition count_save (w : World) : World :=
  {| facts_source := facts_source w; external_source := external_source w;
     facts_cache := facts_cache w; external_cache := external_cache w;
     embed_calls := embed_calls w; save_calls := S (save_calls w); slept := slept w |}.

(** [time.sleep(d)]. *)
Definition sleep (d : Q) (w : World) : World :=
  {| facts_source := facts_source w; external_source := external_source w;
     facts_cache := facts_cache w; external_cache := external_cache w;
     embed_calls := embed_calls w; save_calls := save_calls w;
     slept := (slept w ++ [d])%list |}.

(** The two attributes of a [DocumentProcessor] that change. *)
Record DocumentProcessor : Type := {
  facts_vectorstore : option VectorStore;
  external_vectorstore : option VectorStore
}.

Definition set_facts (v : option VectorStore) (dp : DocumentProcessor) :=
  {| facts_vectorstore := v; external_vectorstore := external_vectorstore dp |}.
Definition set_external (v : option VectorStore) (dp : DocumentProcessor) :=
  {| facts_vectorstore := facts_vectorstore dp; external_vectorstore := v |}.

(** How a method ends. *)
Inductive completion : Type := Returned | Raised.

Section WithEnvironment.

Variable cfg : Config.t.

(** [self.text_splitter.split_text], the token-based splitter of
    [langchain_text_splitters]. *)
Variable split_text : string -> list string.

(** Whether the n-th request to the embedding service succeeds. *)
Variable embed_ok : nat -> bool.

(** How the n-th call of [save_local] ends. *)
Variable save_outcome : nat -> SaveOutcome.

(** [DocumentProcessor.load_facts]; [content] is what reading the file
    gives, [None] when reading raises. *)
Definition load_facts (file_path : string) (content : option string) : list Document :=
  match content with
  | None => []
  | Some content =>
      map (fun '(i, text) =>
             {| page_content := text;
                metadata := [ ("source", "facts");
                              ("doc_id", "F" ++ str_of_nat (i + 1));
                              ("chunk_id", "c" ++ str_of_nat (i + 1));
                              ("file_path", file_path) ] |})
          (enumerate (split_text content))
  end.

(** [DocumentProcessor._extract_transcript_content]. *)
Definition extract_transcript_content (item : Item) : string :=
  match transcriptText item with
  | Some inner =>
      match dict_get "content" inner with
      | Some content => content
      | None => match transcript item with Some t => t | None => "" end
      end
  | None => match transcript item with Some t => t | None => "" end
  end.

(** [DocumentProcessor._create_document_chunks]. *)
Definition create_document_chunks (content : string) (base_metadata : metadata_t)
  : list Document :=
  if Config.chunk_size cfg <? len content then
    let texts := split_text content in
    flat_map (fun '(j, text) =>
                if 20 <? len (strip text) then
                  [ {| page_content := text;
                       metadata := dict_set "chunk_id" ("c" ++ str_of_nat (j + 1))
                                            base_metadata |} ]
                else [])
             (enumerate texts)
  else [ {| page_content := content; metadata := base_metadata |} ].

Definition get_or_empty (v : option string) : string :=
  match v with Some x => x | None => "" end.

(** The body of the loop of [load_external] for the record at index [i]. *)
Definition load_external_item (file_path : string) (i : nat) (item : Item)
  : list Document :=
  let transcript_content := extract_transcript_content item in
  if (len transcript_content =? 0) || (len (strip transcript_content) <? 20) then []
  else
    let metadata := [ ("source", "external");
                      ("doc_id", "E" ++ str_of_nat (i + 1));
                      ("chunk_id", "c1");
                      ("file_path", file_path);
                      ("video_id", get_or_empty (video_id item));
                      ("title", get_or_empty (title item));
                      ("brand", get_or_empty (brand item));
                      ("product", get_or_empty (product item)) ] in
    create_document_chunks transcript_content metadata.

(** [DocumentProcessor.load_external]. *)
Definition load_external (file_path : string) (file : JsonFile) : list Document :=
  match file with
  | FileMissing | FileInvalid => []
  | FileData data =>
      flat_map (fun '(i, item) => load_external_item file_path i item)
               (enumerate data)
  end.

(** [FAISS.from_documents(docs, embeddings)]: one request to the
    embedding service; [None] when it raises. *)
Definition from_documents (docs : list Document) (w : World)
  : option VectorStore * World :=
  (if embed_ok (embed_calls w) then Some docs else None, count_embed w).

(** The documents [add_texts] builds from its two arguments. *)
Fixpoint documents_of (texts : list string) (metadatas : list metadata_t)
  : list Document :=
  match texts, metadatas with
  | t :: ts, m :: ms => {| page_content := t; metadata := m |} :: documents_of ts ms
  | _, _ => []
  end.

(** [vectorstore.add_texts(texts, metadatas)]: one request to the
    embedding service, then the store grows; [None] when it raises,
    and the store is then as before. *)
Definition add_texts (vs : VectorStore) (texts : list string)
           (metadatas : list metadata_t) (w : World)
  : option VectorStore * World :=
  (if embed_ok (embed_calls w) then Some (vs ++ documents_of texts metadatas)%list
   else None,
   count_embed w).

(** The body of the batch loop of [_create_vectorstore_batched] at
    index [i]. *)
Definition add_batch (remaining_docs : list Document) (batch_size : nat)
           (st : VectorStore * World) (i : nat) : VectorStore * World :=
  let '(vectorstore, w) := st in
  let batch := slice i (i + batch_size) remaining_docs in
  let batch_texts := map page_content batch in
  let batch_metadatas := map metadata batch in
  match add_texts vectorstore batch_texts batch_metadatas w with
  | (Some vectorstore', w') =>
      if i + batch_size <? length remaining_docs
      then (vectorstore', sleep (Config.retry_delay cfg) w')
      else (vectorstore', w')
  | (None, w') =>
      (vectorstore, sleep (Config.retry_delay cfg * 2)%Q w')
  end.

(** [DocumentProcessor._create_vectorstore_batched].  A zero step makes
    [range] raise, which the outer handler turns into [None]. *)
Definition create_vectorstore_batched (documents : list Document) (w : World)
  : option VectorStore * World :=
  match documents with
  | [] => (None, w)
  | _ =>
      let batch_size := Nat.min (Config.batch_size cfg) (length documents) in
      let first_batch := slice 0 batch_size documents in
      match from_documents first_batch w with
      | (None, w1) => (None, w1)
      | (Some vectorstore, w1) =>
          let remaining_docs := skipn batch_size documents in
          if batch_size =? 0 then (None, w1)
          else
            let '(vectorstore', w2) :=
              fold_left (add_batch remaining_docs batch_size)
                        (py_range 0 (length remaining_docs) batch_size)
                        (vectorstore, w1) in
            (Some vectorstore', w2)
      end
  end.

(** [Path.exists] on a cache location, and [FAISS.load_local]. *)
Definition cache_exists (c : CacheFile) : bool :=
  match c with CacheAbsent => false | _ => true end.

Definition load_local (c : CacheFile) : option VectorStore :=
  match c with CacheSaved vs => Some vs | _ => None end.

(** [DocumentProcessor._load_from_cache]. *)
Definition load_from_cache (dp : DocumentProcessor) (w : World) : DocumentProcessor :=
  let dp1 :=
    if cache_exists (facts_cache w)
    then set_facts (load_local (facts_cache w)) dp
    else dp in
  if cache_exists (external_cache w)
  then set_external (load_local (external_cache w)) dp1
  else dp1.

(** [vectorstore.save_local(path)] on one of the two locations. *)
Definition save_local (set_cache : CacheFile -> World -> World)
           (vs : VectorStore) (w : World) : completion * World :=
  match save_outcome (save_calls w) with
  | SaveDone => (Returned, set_cache (CacheSaved vs) (count_save w))
  | SaveFailedClean => (Raised, count_save w)
  | SaveFailedPartial => (Raised, set_cache CacheBroken (count_save w))
  end.

(** [DocumentProcessor._save_to_cache]: one handler around both saves. *)
Definition save_to_cache (dp : DocumentProcessor) (w : World) : World :=
  let '(c, w1) :=
    match facts_vectorstore dp with
    | Some vs => save_local set_facts_cache vs w
    | None => (Returned, w)
    end in
  match c with
  | Raised => w1
  | Returned =>
      match external_vectorstore dp with
      | Some vs => snd (save_local set_external_cache vs w1)
      | None => w1
      end
  end.

(** [DocumentProcessor._create_vectorstores_from_scratch]. *)
Definition create_vectorstores_from_scratch (dp : DocumentProcessor) (w : World)
  : completion * DocumentProcessor * World :=
  let facts_docs := load_facts (Config.facts_file cfg) (facts_source w) in
  let external_docs := load_external (Config.external_file cfg) (external_source w) in
  match facts_docs with
  | [] => (Raised, dp, w)
  | _ =>
      match from_documents facts_docs w with
      | (None, w1) => (Raised, dp, w1)
      | (Some vs, w1) =>
          let dp1 := set_facts (Some vs) dp in
          match external_docs with
          | [] => (Returned, dp1, w1)
          | _ =>
              let '(r, w2) := create_vectorstore_batched external_docs w1 in
              (Returned, set_external r dp1, w2)
          end
      end
  end.

Definition file_exists (f : JsonFile) : bool :=
  match f with FileMissing => false | _ => true end.

Definition is_none {A : Type} (o : option A) : bool :=
  match o with None => true | Some _ => false end.

(** [DocumentProcessor.create_vectorstores]. *)
Definition create_vectorstores (dp : DocumentProcessor) (w : World)
  : completion * DocumentProcessor * World :=
  let dp1 := load_from_cache dp w in
  let '(c, dp2, w2) :=
    if is_none (facts_vectorstore dp1) then
      create_vectorstores_from_scratch dp1 w
    else if is_none (external_vectorstore dp1) && file_exists (external_source w) then
      let external_docs := load_external (Config.external_file cfg) (external_source w) in
      match external_docs with
      | [] => (Returned, dp1, w)
      | _ =>
          let '(r, w') := create_vectorstore_batched external_docs w in
          (Returned, set_external r dp1, w')
      end
    else (Returned, dp1, w) in
  match c with
  | Raised => (Raised, dp2, w2)
  | Returned => (Returned, dp2, save_to_cache dp2 w2)
  end.

End WithEnvironment.

End Processing.

(* ================================================================== *)
(** ** [src/models/api_models.py], [src/models/graph_state.py] *)
(* ================================================================== *)

Record Citation : Type := {
  source : string;
  doc_id : string;
  chunk_id : string
}.

Record AnswerResponse : Type := {
  answer : string;
  status : string;
  citations : list Citation
}.

Record RAGState : Type := {
  st_question : string;
  st_retrieved_facts : list Document;
  st_retrieved_external : list Document;
  st_answer : string;
  st_citations : list Citation;
  st_status : string;
  st_needs_external : bool;
  st_is_sensitive : bool
}.

(* ================================================================== *)
(** ** [src/pipeline/rag_pipeline.py] *)
(* ================================================================== *)

Module Pipeline.
Import PyStr.
Import Processing.

(** The blocking calls a question can make. *)
Inductive Call : Type :=
| SearchFacts (query : string) (k : nat)
| SearchExternal (query : string) (k : nat)
| Generate (prompt : string).

(** A computation makes calls, oldest first, and then returns a value
    or lets an exception escape ([None]). *)
Definition M (A : Type) : Type := list Call * option A.

Definition ret {A : Type} (a : A) : M A := ([], Some a).

Definition bind {A B : Type} (m : M A) (f : A -> M B) : M B :=
  match m with
  | (l, Some a) => let '(l', r) := f a in ((l ++ l')%list, r)
  | (l, None) => (l, None)
  end.

(** [try: m except Exception: h]. *)
Definition try_except {A : Type} (m : M A) (h : M A) : M A :=
  match m with
  | (l, Some a) => (l, Some a)
  | (l, None) => let '(l', r) := h in ((l ++ l')%list, r)
  end.

(** A call to a collaborator whose outcome is [r]. *)
Definition call {A : Type} (c : Call) (r : option A) : M A := ([c], r).

Definition lift {A : Type} (r : option A) : M A := ([], r).

Notation "x <- m ;; k" := (bind m (fun x => k))
  (at level 61, m at next level, right associativity).

Definition calls {A : Type} (m : M A) : list Call := fst m.
Definition outcome {A : Type} (m : M A) : option A := snd m.

Definition set_facts_result (docs : list Document) (needs : bool) (st : RAGState) :=
  {| st_question := st_question st; st_retrieved_facts := docs;
     st_retrieved_external := st_retrieved_external st; st_answer := st_answer st;
     st_citations := st_citations st; st_status := st_status st;
     st_needs_external := needs; st_is_sensitive := st_is_sensitive st |}.

Definition set_is_sensitive (b : bool) (st : RAGState) :=
  {| st_question := st_question st; st_retrieved_facts := st_retrieved_facts st;
     st_retrieved_external := st_retrieved_external st; st_answer := st_answer st;
     st_citations := st_citations st; st_status := st_status st;
     st_needs_external := st_needs_external st; st_is_sensitive := b |}.

Definition set_retrieved_external (docs : list Document) (st : RAGState) :=
  {| st_question := st_question st; st_retrieved_facts := st_retrieved_facts st;
     st_retrieved_external := docs; st_answer := st_answer st;
     st_citations := st_citations st; st_status := st_status st;
     st_needs_external := st_needs_external st; st_is_sensitive := st_is_sensitive st |}.

(** The three assignments every branch of [_generate_answer] makes. *)
Definition set_result (a s : string) (cs : list Citation) (st : RAGState) :=
  {| st_question := st_question st; st_retrieved_facts := st_retrieved_facts st;
     st_retrieved_external := st_retrieved_external st; st_answer := a;
     st_citations := cs; st_status := s;
     st_needs_external := st_needs_external st; st_is_sensitive := st_is_sensitive st |}.

Definition nl : string := String "010"%char EmptyString.

(** The template of [_generate_llm_response], filled in. *)
Definition prompt_format (context question : string) : string :=
  "You are a helpful assistant answering questions about BYD Seal vehicles. "
  ++ nl ++ nl
  ++ "STRICT RULES:" ++ nl
  ++ "1. Only use the provided context to answer" ++ nl
  ++ "2. Never make up or hallucinate information" ++ nl
  ++ "3. If context doesn't contain the answer, say so" ++ nl
  ++ "4. Cite sources for each claim using [source:doc_id:chunk_id] format" ++ nl
  ++ "5. Be concise and accurate" ++ nl ++ nl
  ++ "Context:" ++ nl
  ++ context ++ nl ++ nl
  ++ "Question: " ++ question ++ nl ++ nl
  ++ "Answer:".

(** All of [l] when every element is there, as a comprehension that
    stops at the first [KeyError]. *)
Fixpoint all_some {A : Type} (l : list (option A)) : option (list A) :=
  match l with
  | [] => Some []
  | None :: _ => None
  | Some a :: r => match all_some r with Some r' => Some (a :: r') | None => None end
  end.

(** One entry of the context; [None] is the [KeyError] of a missing
    metadata key. *)
Definition context_entry (doc : Document) : option string :=
  match dict_get "source" (metadata doc),
        dict_get "doc_id" (metadata doc),
        dict_get "chunk_id" (metadata doc) with
  | Some s, Some d, Some c =>
      Some ("Source: " ++ s ++ " | Doc: " ++ d ++ " | Chunk: " ++ c ++ nl
            ++ page_content doc)
  | _, _, _ => None
  end.

Definition citation_of (doc : Document) : option Citation :=
  match dict_get "source" (metadata doc),
        dict_get "doc_id" (metadata doc),
        dict_get "chunk_id" (metadata doc) with
  | Some s, Some d, Some c => Some {| source := s; doc_id := d; chunk_id := c |}
  | _, _, _ => None
  end.

(** [RAGPipeline._extract_citations]. *)
Definition extract_citations (sources : list Document) : M (list Citation) :=
  lift (all_some (map citation_of sources)).

Section WithCollaborators.

Variable cfg : Config.t.

(** [vectorstore.similarity_search(query, k=...)]; [None] when it raises. *)
Variable similarity_search : VectorStore -> string -> nat -> option (list Document).

(** [self.llm.invoke(prompt).content]; [None] when it raises. *)
Variable llm_invoke : string -> option string.

(** The processor the pipeline holds. *)
Variable doc_processor : DocumentProcessor.

(** [RAGPipeline._retrieve_facts]. *)
Definition retrieve_facts (state : RAGState) : M RAGState :=
  let question := st_question state in
  match facts_vectorstore doc_processor with
  | Some vs =>
      docs <- call (SearchFacts question (Config.top_k_retrieval cfg))
                   (similarity_search vs question (Config.top_k_retrieval cfg)) ;;
      if negb (length docs =? 0)
         && existsb (fun doc => 50 <? len (strip (page_content doc))) docs
      then ret (set_facts_result docs false state)
      else ret (set_facts_result docs true state)
  | None => ret (set_facts_result [] true state)
  end.

(** [RAGPipeline._check_sensitivity]. *)
Definition check_sensitivity (state : RAGState) : M RAGState :=
  ret (set_is_sensitive
         (Guardrails.is_sensitive_question (Config.sensitive_topics cfg)
                                           (st_question state))
         state).

(** [RAGPipeline._retrieve_external]. *)
Definition retrieve_external (state : RAGState) : M RAGState :=
  if st_needs_external state && negb (st_is_sensitive state) then
    match external_vectorstore doc_processor with
    | Some vs =>
        docs <- call (SearchExternal (st_question state) (Config.top_k_retrieval cfg))
                     (similarity_search vs (st_question state)
                                        (Config.top_k_retrieval cfg)) ;;
        ret (set_retrieved_external docs state)
    | None => ret (set_retrieved_external [] state)
    end
  else ret (set_retrieved_external [] state).

(** [RAGPipeline._generate_llm_response]. *)
Definition generate_llm_response (question : string) (sources : list Document)
  : M string :=
  entries <- lift (all_some (map context_entry sources)) ;;
  let context := String.concat (nl ++ nl) entries in
  call (Generate (prompt_format context question))
       (llm_invoke (prompt_format context question)).

(** [RAGPipeline._generate_answer]. *)
Definition generate_answer (state : RAGState) : M RAGState :=
  let question := st_question state in
  let facts := st_retrieved_facts state in
  let external := st_retrieved_external state in
  let all_sources := (facts ++ external)%list in
  if length all_sources =? 0 then
    ret (set_result (Guardrails.get_refusal_message "insufficient_info")
                    "insufficient_info" [] state)
  else if Guardrails.should_refuse_sensitive (st_is_sensitive state)
                                             (negb (length facts =? 0)) then
    ret (set_result (Guardrails.get_refusal_message "sensitive")
                    "refused_sensitive" [] state)
  else
    try_except
      (answer <- generate_llm_response question all_sources ;;
       if Guardrails.validate_answer answer all_sources then
         cs <- extract_citations all_sources ;;
         ret (set_result answer "answered" cs state)
       else
         ret (set_result (Guardrails.get_refusal_message "validation_failed")
                         "validation_failed" [] state))
      (ret (set_result "I encountered an error while processing your question."
                       "error" [] state)).

(** The compiled graph: the four nodes in a line. *)
Definition graph_invoke (initial_state : RAGState) : M RAGState :=
  s1 <- retrieve_facts initial_state ;;
  s2 <- check_sensitivity s1 ;;
  s3 <- retrieve_external s2 ;;
  generate_answer s3.

Definition initial_state (question : string) : RAGState :=
  {| st_question := question; st_retrieved_facts := [];
     st_retrieved_external := []; st_answer := ""; st_citations := [];
     st_status := "processing"; st_needs_external := false;
     st_is_sensitive := false |}.

(** [RAGPipeline.ask], for a pipeline whose readiness flag is
    [vectorstores_ready]. *)
Definition ask (vectorstores_ready : bool) (question : string) : M AnswerResponse :=
  if negb vectorstores_ready then
    ret {| answer := "Vectorstores not initialized. Please call /embed endpoint first.";
           status := "not_ready";
           citations := [] |}
  else
    final_state <- graph_invoke (initial_state question) ;;
    ret {| answer := st_answer final_state;
           status := st_status final_state;
           citations := st_citations final_state |}.

End WithCollaborators.

(** The attributes of a [RAGPipeline] that change. *)
Record RAGPipeline : Type := {
  pl_doc_processor : DocumentProcessor;
  vectorstores_ready : bool
}.

(** [RAGPipeline.__init__]. *)
Definition new_pipeline : RAGPipeline :=
  {| pl_doc_processor := {| facts_vectorstore := None; external_vectorstore := None |};
     vectorstores_ready := false |}.

(** [RAGPipeline.initialize_vectorstores]: the flag is set only when the
    build returns. *)
Definition initialize_vectorstores
           (cfg : Config.t) (split_text : string -> list string)
           (embed_ok : nat -> bool) (save_outcome : nat -> SaveOutcome)
           (p : RAGPipeline) (w : World) : completion * RAGPipeline * World :=
  match create_vectorstores cfg split_text embed_ok save_outcome
                            (pl_doc_processor p) w with
  | (Raised, dp, w') =>
      (Raised, {| pl_doc_processor := dp; vectorstores_ready := vectorstores_ready p |}, w')
  | (Returned, dp, w') =>
      (Returned, {| pl_doc_processor := dp; vectorstores_ready := true |}, w')
  end.

End Pipeline.

(* ================================================================== *)
(** ** [src/llm/factory.py] *)
(* ================================================================== *)

Module Factory.

(** [os.getenv(name)]: [None] for a variable that is not set. *)
Definition Env : Type := string -> option string.

(** [os.getenv(name, default)]. *)
Definition getenv_or (getenv : Env) (name default : string) : string :=
  match getenv name with Some v => v | None => default end.

(** The truth value of [os.getenv(name)]: set, and not to the empty
    string. *)
Definition truthy (v : option string) : bool :=
  match v with
  | Some s => negb (String.eqb s "")
  | None => false
  end.

(** The fields of [Config] that describe the providers, read from the
    environment with their defaults. *)
Record ApiConfig : Type := {
  azure_deployment : string;
  api_version : string;
  embedding_model : string;
  temperature : Q
}.

Definition api_config (getenv : Env) : ApiConfig :=
  {| azure_deployment := getenv_or getenv "AZURE_OPENAI_CHAT_DEPLOYMENT" "gpt-35-turbo";
     api_version := getenv_or getenv "AZURE_OPENAI_API_VERSION" "2024-05-01-preview";
     embedding_model :=
       getenv_or getenv "AZURE_OPENAI_EMBEDDING_DEPLOYMENT" "text-embedding-3-large";
     temperature := 0 |}.

(** [LLMProvider.GOOGLE] and [LLMProvider.AZURE]. *)
Definition GOOGLE : string := "google".
Definition AZURE : string := "azure".

(** [get_llm_provider]. *)
Definition get_llm_provider (getenv : Env) : string :=
  if truthy (getenv "GOOGLE_API_KEY") then GOOGLE
  else if truthy (getenv "AZURE_OPENAI_API_KEY") then AZURE
  else GOOGLE.

(** The chat models, as the arguments they are constructed with. *)
Inductive ChatModel : Type :=
| ChatGoogleGenerativeAI (model : string) (temperature : Q)
                         (max_tokens timeout : option nat) (max_retries : nat)
| AzureChatOpenAI (deployment_name api_version : string) (temperature : Q)
                  (max_retries : nat).

(** The embedding models, as the arguments they are constructed with. *)
Inductive EmbeddingModel : Type :=
| GoogleGenerativeAIEmbeddings (model : string)
| AzureOpenAIEmbeddings (deployment api_version : string).

(** [initialize_llm]; [None] is the [ValueError] of an unsupported
    provider. *)
Definition initialize_llm (cfg : Config.t) (getenv : Env) (provider : option string)
  : option ChatModel :=
  let provider :=
    match provider with Some p => p | None => get_llm_provider getenv end in
  if String.eqb provider GOOGLE then
    Some (ChatGoogleGenerativeAI "gemini-2.5-flash" (temperature (api_config getenv))
                                 None None (Config.max_retries cfg))
  else if String.eqb provider AZURE then
    Some (AzureChatOpenAI (azure_deployment (api_config getenv))
                          (api_version (api_config getenv))
                          (temperature (api_config getenv))
                          (Config.max_retries cfg))
  else None.

(** [initialize_embeddings]; [None] is the [ValueError] of an
    unsupported provider. *)
Definition initialize_embeddings (getenv : Env) (provider : option string)
  : option EmbeddingModel :=
  let provider :=
    match provider with Some p => p | None => get_llm_provider getenv end in
  if String.eqb provider GOOGLE then
    Some (GoogleGenerativeAIEmbeddings "models/gemini-embedding-001")
  else if String.eqb provider AZURE then
    Some (AzureOpenAIEmbeddings (embedding_model (api_config getenv))
                                (api_version (api_config getenv)))
  else None.

End Factory.

(* ================================================================== *)
(** ** [main.py] *)
(* ================================================================== *)

Module Main.
Import Processing Pipeline.

(** What a route hands back: a body, or an [HTTPException]. *)
Inductive HttpResult (A : Type) : Type :=
| Ok (body : A)
| HTTPException (status_code : nat) (detail : string).
Arguments Ok {A} body.
Arguments HTTPException {A} status_code detail.

(** [POST /ask], for the global [pipeline]; [None] is a pipeline that was
    never created.  The calls made are kept with the result. *)
Definition ask_question
           (cfg : Config.t)
           (similarity_search : VectorStore -> string -> nat -> option (list Document))
           (llm_invoke : string -> option string)
           (pipeline : option RAGPipeline) (question : string)
  : list Call * HttpResult AnswerResponse :=
  match pipeline with
  | None => ([], HTTPException 500 "Pipeline not initialized")
  | Some p =>
      if negb (vectorstores_ready p) then
        ([], HTTPException 400 "Vectorstores not ready. Please call /embed first.")
      else
        match ask cfg similarity_search llm_invoke (pl_doc_processor p)
                  (vectorstores_ready p) question with
        | (l, Some response) => (l, Ok response)
        | (l, None) => (l, HTTPException 500 "Error processing question")
        end
  end.

(** [POST /embed]: the result, the global [pipeline] and the world
    afterwards. *)
Definition embed_documents
           (cfg : Config.t) (split_text : string -> list string)
           (embed_ok : nat -> bool) (save_outcome : nat -> SaveOutcome)
           (pipeline : option RAGPipeline) (w : World)
  : HttpResult (list (string * string)) * option RAGPipeline * World :=
  match pipeline with
  | None => (HTTPException 500 "Pipeline not initialized", None, w)
  | Some p =>
      match initialize_vectorstores cfg split_text embed_ok save_outcome p w with
      | (Returned, p', w') =>
          (Ok [ ("status", "success");
                ("message", "Documents embedded successfully") ],
           Some p', w')
      | (Raised, p', w') =>
          (HTTPException 500 "Error embedding documents", Some p', w')
      end
  end.

(** The body of [GET /health]. *)
Record Health : Type := {
  health_status : string;
  health_pipeline_ready : bool;
  health_vectorstores_ready : bool
}.

Definition health_check (pipeline : option RAGPipeline) : Health :=
  {| health_status := "healthy";
     health_pipeline_ready := match pipeline with Some _ => true | None => false end;
     health_vectorstores_ready :=
       match pipeline with Some p => vectorstores_ready p | None => false end |}.

(** The body of [GET /status]. *)
Inductive Status : Type :=
| PipelineNotInitialized
| StatusOf (pipeline_ready vectorstores_ready facts_vectorstore external_vectorstore : bool).

Definition status (pipeline : option RAGPipeline) : Status :=
  match pipeline with
  | None => PipelineNotInitialized
  | Some p =>
      StatusOf true (vectorstores_ready p)
               (negb (is_none (facts_vectorstore (pl_doc_processor p))))
               (negb (is_none (external_vectorstore (pl_doc_processor p))))
  end.

End Main.

(* ================================================================== *)
(** * The vocabulary of the properties *)
(* ================================================================== *)

Module Vocabulary.
Import PyStr Processing Pipeline.

(** A token is exempt from the numeric check when it occurs in the
    source text, when [float] rejects it, or when its value is below
    100 or above 2030. *)
Definition exempt (source_content number : string) : Prop :=
  contains number source_content = true
  \/ float_of_str (remove_commas number) = None
  \/ exists d, float_of_str (remove_commas number) = Some d
               /\ (float_lt_100 d = true \/ float_gt_2030 d = true).

(** What makes the loop answer [True] at a token. *)
Definition offending (source_content number : string) : Prop :=
  contains number source_content = false
  /\ exists d, float_of_str (remove_commas number) = Some d
               /\ float_lt_100 d = false /\ float_gt_2030 d = false.

(** The ways [_generate_answer] can end, with what led there. *)
Inductive answer_case (st : RAGState) : RAGState -> Prop :=
| case_insufficient :
    (st_retrieved_facts st ++ st_retrieved_external st)%list = [] ->
    answer_case st (set_result (Guardrails.get_refusal_message "insufficient_info")
                               "insufficient_info" [] st)
| case_refused :
    (st_retrieved_facts st ++ st_retrieved_external st)%list <> [] ->
    st_is_sensitive st = true ->
    st_retrieved_facts st = [] ->
    answer_case st (set_result (Guardrails.get_refusal_message "sensitive")
                               "refused_sensitive" [] st)
| case_answered a cs :
    Guardrails.validate_answer
      a (st_retrieved_facts st ++ st_retrieved_external st)%list = true ->
    answer_case st (set_result a "answered" cs st)
| case_validation_failed :
    answer_case st (set_result (Guardrails.get_refusal_message "validation_failed")
                               "validation_failed" [] st)
| case_error :
    answer_case st (set_result "I encountered an error while processing your question."
                               "error" [] st).

(** The guarded part of [_generate_answer], over any source list. *)
Definition attempt (llm_invoke : string -> option string)
           (st : RAGState) (all_sources : list Document) : M RAGState :=
  try_except
    (answer <- generate_llm_response llm_invoke (st_question st) all_sources ;;
     if Guardrails.validate_answer answer all_sources then
       cs <- extract_citations all_sources ;;
       ret (set_result answer "answered" cs st)
     else
       ret (set_result (Guardrails.get_refusal_message "validation_failed")
                       "validation_failed" [] st))
    (ret (set_result "I encountered an error while processing your question."
                     "error" [] st)).

(** The statuses a response can carry. *)
Definition terminal_statuses : list string :=
  [ "answered"; "refused_sensitive"; "insufficient_info";
    "validation_failed"; "error"; "not_ready" ].

(** The document [_create_document_chunks] makes of the sub-chunk
    [text] found at position [j] of the splitter's output. *)
Definition chunk_at (base_metadata : metadata_t) (j : nat) (text : string) : Document :=
  {| page_content := text;
     metadata := dict_set "chunk_id" ("c" ++ str_of_nat (j + 1)) base_metadata |}.

(** What the loop of [_create_document_chunks] appends for one entry of
    [enumerate(texts)]. *)
Definition keep_chunk (base_metadata : metadata_t) (p : nat * string) : list Document :=
  let '(j, text) := p in
  if 20 <? len (strip text) then [chunk_at base_metadata j text] else [].

(** The world after [n] more embedding requests and the pauses [ds]. *)
Definition advance (n : nat) (ds : list Q) (w : World) : World :=
  {| facts_source := facts_source w; external_source := external_source w;
     facts_cache := facts_cache w; external_cache := external_cache w;
     embed_calls := embed_calls w + n; save_calls := save_calls w;
     slept := (slept w ++ ds)%list |}.

(** [l1] is [l2] with some elements left out: nothing is added and
    nothing occurs more often than in [l2]. *)
Inductive subseq {A : Type} : list A -> list A -> Prop :=
| subseq_nil : subseq [] []
| subseq_skip x l1 l2 : subseq l1 l2 -> subseq l1 (x :: l2)
| subseq_keep x l1 l2 : subseq l1 l2 -> subseq (x :: l1) (x :: l2).

(** What [_load_from_cache] leaves in an attribute: the restored copy
    when the location exists and can be read, nothing when it exists
    and cannot be read, the previous value when it does not exist. *)
Definition after_load (c : CacheFile) (v : option VectorStore) : option VectorStore :=
  match c with
  | CacheAbsent => v
  | CacheSaved vs => Some vs
  | CacheBroken => None
  end.

End Vocabulary.

Module MoreVocabulary.
Import PyStr Processing Pipeline.

(** The text a scanner state has already read of the match in progress. *)
Definition consumed (st : scan_state) : string :=
  match st with
  | Outside => ""
  | InRun acc | InFrac acc => rev acc
  | AfterDot acc => rev acc ++ "."
  end.

(** A match in progress has read at least one character. *)
Definition started (st : scan_state) : Prop :=
  match st with
  | Outside => True
  | InRun acc | AfterDot acc | InFrac acc => acc <> ""
  end.

(** A document has what a citation needs. *)
Definition citable (doc : Document) : Prop :=
  dict_get "source" (metadata doc) <> None
  /\ dict_get "doc_id" (metadata doc) <> None
  /\ dict_get "chunk_id" (metadata doc) <> None.

(** What the facts stage retrieves: the answer of the facts index, or
    nothing when there is no facts index. *)
Definition facts_found (cfg : Config.t)
           (similarity_search : VectorStore -> string -> nat -> option (list Document))
           (dp : DocumentProcessor) (question : string) (docs : list Document) : Prop :=
  match facts_vectorstore dp with
  | Some vs => similarity_search vs question (Config.top_k_retrieval cfg) = Some docs
  | None => docs = []
  end.

(** The flag [needs_external] that goes with retrieved facts. *)
Definition needs_external_for (facts : list Document) : bool :=
  negb (existsb (fun doc => 50 <? len (strip (page_content doc))) facts).

(** What the external stage retrieves for a question with the given
    flags: the answer of the external index when the gate is open and
    there is such an index, nothing otherwise. *)
Definition external_found (cfg : Config.t)
           (similarity_search : VectorStore -> string -> nat -> option (list Document))
           (dp : DocumentProcessor) (question : string)
           (needs_external is_sensitive : bool) (docs : list Document) : Prop :=
  if needs_external && negb is_sensitive then
    match external_vectorstore dp with
    | Some vs => similarity_search vs question (Config.top_k_retrieval cfg) = Some docs
    | None => docs = []
    end
  else docs = [].

(** The state that reaches [_generate_answer]. *)
Definition state_after_retrieval (cfg : Config.t) (question : string)
           (facts external : list Document) : RAGState :=
  set_retrieved_external external
    (set_is_sensitive
       (Guardrails.is_sensitive_question (Config.sensitive_topics cfg) question)
       (set_facts_result facts (needs_external_for facts) (initial_state question))).

(** The state [_generate_answer] returns when something went wrong in
    its guarded part. *)
Definition error_state (st : RAGState) : RAGState :=
  set_result "I encountered an error while processing your question." "error" [] st.

(** The call the facts stage makes, if any. *)
Definition facts_calls (cfg : Config.t) (dp : DocumentProcessor) (question : string)
  : list Call :=
  match facts_vectorstore dp with
  | Some _ => [SearchFacts question (Config.top_k_retrieval cfg)]
  | None => []
  end.

(** The call the external stage makes, if any. *)
Definition external_calls (cfg : Config.t) (dp : DocumentProcessor) (question : string)
           (needs_external is_sensitive : bool) : list Call :=
  if needs_external && negb is_sensitive then
    match external_vectorstore dp with
    | Some _ => [SearchExternal question (Config.top_k_retrieval cfg)]
    | None => []
    end
  else [].

(** The response [ask] makes of the final state. *)
Definition response_of (final_state : RAGState) : AnswerResponse :=
  {| answer := st_answer final_state;
     status := st_status final_state;
     citations := st_citations final_state |}.

(** What a citation identifies a passage by. *)
Definition citation_key (doc : Document) : option string * option string :=
  (dict_get "doc_id" (metadata doc), dict_get "chunk_id" (metadata doc)).

End MoreVocabulary.

(** A passage with the given text and no metadata. *)
Definition doc_of (text : string) : Document :=
  {| page_content := text; metadata := [] |}.

(* ================================================================== *)
(** * Sample inputs *)
(* ================================================================== *)

(** Concrete collaborators for the runs below: a facts index with one
    passage, a search that returns what the store holds, and a generation
    service that answers from that passage. *)
Module Sample.
Import Processing Pipeline.

Definition fact : Document :=
  {| page_content := "The BYD Seal is a battery electric sedan built on the e-Platform.";
     metadata := [ ("source", "facts"); ("doc_id", "F1"); ("chunk_id", "c1");
                   ("file_path", "data/byd_seal_facts.md") ] |}.

Definition search_all : VectorStore -> string -> nat -> option (list Document) :=
  fun vs _ k => Some (firstn k vs).

Definition llm : string -> option string :=
  fun _ => Some "The BYD Seal is a battery electric sedan [facts:F1:c1].".

Definition with_facts : DocumentProcessor :=
  {| facts_vectorstore := Some [fact]; external_vectorstore := Some [] |}.

Definition empty_facts : DocumentProcessor :=
  {| facts_vectorstore := Some []; external_vectorstore := Some [fact] |}.

End Sample.

(** A record whose transcript has a paragraph of exactly 20 characters in
    front of a long one, and a splitter that cuts at blank lines, which is
    where the splitter of the program cuts when the paragraphs do not fit
    into one chunk together. *)
Module SampleRecord.
Import PyStr Processing.

Definition blank_line : string := Pipeline.nl ++ Pipeline.nl.

Definition sentence : string :=
  "The BYD Seal was shown to the press on a closed track near the factory. ".

Definition short_paragraph : string := "12345678901234567890".

Definition long_paragraph : string :=
  String.concat "" (repeat sentence 60).

Definition transcript_text : string :=
  short_paragraph ++ blank_line ++ long_paragraph.

(** Cuts at every pair of line feeds. *)
Fixpoint split_paragraphs_from (acc s : string) : list string :=
  match s with
  | EmptyString => [rev acc]
  | String c t =>
      match t with
      | String c' t' =>
          if Ascii.eqb c "010"%char && Ascii.eqb c' "010"%char
          then rev acc :: split_paragraphs_from EmptyString t'
          else split_paragraphs_from (String c acc) t
      | EmptyString => [rev (String c acc)]
      end
  end.

Definition split_paragraphs (s : string) : list string :=
  split_paragraphs_from EmptyString s.

Definition base : metadata_t :=
  [ ("source", "external"); ("doc_id", "E1"); ("chunk_id", "c1") ].

End SampleRecord.

(** Seventy passages: one initial batch of twenty and three inserts. *)
Module SampleBatches.
Import PyStr Processing.

Definition passage (i : nat) : Document :=
  {| page_content := "Review passage number " ++ str_of_nat i ++ " about the BYD Seal.";
     metadata := [ ("source", "external"); ("doc_id", "E" ++ str_of_nat i);
                   ("chunk_id", "c1") ] |}.

Definition documents : list Document := map passage (seq 1 70).

(** The embedding service fails on its third request only, which is the
    second insert. *)
Definition third_request_fails (n : nat) : bool := negb (n =? 2).

Definition world : World :=
  {| facts_source := None; external_source := FileMissing;
     facts_cache := CacheAbsent; external_cache := CacheAbsent;
     embed_calls := 0; save_calls := 0; slept := [] |}.

End SampleBatches.

(** A facts file, one external record, a splitter that keeps each text
    whole, an embedding service that always answers, and a disk on which
    the first [save_local] breaks off after creating its directory. *)
Module SampleBuild.
Import Processing Pipeline.

Definition item : Item :=
  {| transcriptText := None;
     transcript := Some "A long review of the BYD Seal recorded on a test drive.";
     video_id := Some "v1"; title := Some "BYD Seal review";
     brand := Some "BYD"; product := Some "Seal" |}.

Definition world : World :=
  {| facts_source := Some "The BYD Seal is a battery electric sedan.";
     external_source := FileData [item];
     facts_cache := CacheAbsent; external_cache := CacheAbsent;
     embed_calls := 0; save_calls := 0; slept := [] |}.

Definition split_whole (s : string) : list string := [s].
Definition embed_always (n : nat) : bool := true.
Definition save_always (n : nat) : SaveOutcome := SaveDone.
Definition first_save_breaks (n : nat) : SaveOutcome :=
  if n =? 0 then SaveFailedPartial else SaveDone.

Definition build (save : nat -> SaveOutcome) (p : RAGPipeline) (w : World) :=
  initialize_vectorstores Config.config split_whole embed_always save p w.

(** The pipeline and the world after a first build. *)
Definition pipeline_after (save : nat -> SaveOutcome) : RAGPipeline :=
  snd (fst (build save new_pipeline world)).
Definition world_after (save : nat -> SaveOutcome) : World :=
  snd (build save new_pipeline world).

End SampleBuild.

(** Further collaborators for the runs: a processor whose facts index is
    empty and which has no external index, a search and a generation
    service that raise, and environments for the provider factory. *)
Module SampleMore.
Import Processing Pipeline.

Definition nothing_indexed : DocumentProcessor :=
  {| facts_vectorstore := Some []; external_vectorstore := None |}.

Definition search_raises : VectorStore -> string -> nat -> option (list Document) :=
  fun _ _ _ => None.

Definition llm_down : string -> option string := fun _ => None.

Definition embed_never (n : nat) : bool := false.

Definition azure_only : Factory.Env :=
  fun name => if String.eqb name "AZURE_OPENAI_API_KEY" then Some "secret" else None.

Definition two_paragraphs : string :=
  "The BYD Seal is a sedan." ++ SampleRecord.blank_line ++ "It is built by BYD.".

End SampleMore.

(* ================================================================== *)
(** * Properties *)
(* ================================================================== *)

(** ** Facts about the string operations *)

Module PyStrFacts.
Import PyStr.

Lemma append_nil_r (s : string) : s ++ "" = s.
Proof. induction s as [|c s IH]; simpl; [reflexivity | now rewrite IH]. Qed.

Lemma append_assoc (a b c : string) : (a ++ b) ++ c = a ++ (b ++ c).
Proof. induction a as [|x a IH]; simpl; [reflexivity | now rewrite IH]. Qed.

Lemma lower_ascii_idem (c : ascii) : lower_ascii (lower_ascii c) = lower_ascii c.
Proof. destruct c as [[] [] [] [] [] [] [] []]; reflexivity. Qed.

Lemma lower_idem (s : string) : lower (lower s) = lower s.
Proof.
  induction s as [|c s IH]; simpl; [reflexivity|].
  now rewrite lower_ascii_idem, IH.
Qed.

Lemma lower_append (a b : string) : lower (a ++ b) = lower a ++ lower b.
Proof. induction a as [|c a IH]; simpl; [reflexivity | now rewrite IH]. Qed.

Lemma prefix_iff (p s : string) :
  prefix p s = true <-> exists post, s = p ++ post.
Proof.
  revert s; induction p as [|a p IH]; intros s.
  - split; [intros _; now exists s | now destruct s].
  - destruct s as [|b s]; simpl.
    + split; [discriminate | intros [post H]; discriminate].
    + destruct (ascii_dec a b) as [->|Hab].
      * rewrite IH. split; intros [post H]; exists post.
        -- now rewrite H.
        -- now injection H.
      * split; [discriminate|].
        intros [post H]. injection H as H1 _. now elim Hab.
Qed.

(** [needle in hay] holds exactly when [hay] can be cut around a copy
    of [needle]. *)
Lemma contains_iff (needle hay : string) :
  contains needle hay = true <-> exists pre post, hay = pre ++ needle ++ post.
Proof.
  induction hay as [|c hay IH].
  - cbn [contains]. rewrite orb_false_r, prefix_iff. split.
    + intros [post H]. now exists "", post.
    + intros [[|x pre] [post H]]; simpl in H; [now exists post | discriminate].
  - cbn [contains]. rewrite orb_true_iff, prefix_iff, IH. split.
    + intros [[post H] | [pre [post H]]].
      * now exists "", post.
      * exists (String c pre), post. simpl. now rewrite H.
    + intros [[|x pre] [post H]]; simpl in H.
      * left. now exists post.
      * right. injection H as _ H. now exists pre, post.
Qed.

Lemma contains_middle (a t b : string) : contains t (a ++ t ++ b) = true.
Proof. apply contains_iff. now exists a, b. Qed.

End PyStrFacts.

(** ** The guardrail engine *)

Module GuardrailsFacts.
Import PyStr PyStrFacts Guardrails Vocabulary.

Lemma check_numbers_true (toks : list string) (src : string) :
  check_numbers toks src = true ->
  exists tok, In tok toks /\ offending src tok.
Proof.
  induction toks as [|tok toks IH]; simpl; [discriminate|].
  destruct (contains tok src) eqn:Hc; simpl.
  - intros H. destruct (IH H) as [t [Hin Ht]]. exists t. auto.
  - destruct (float_of_str (remove_commas tok)) as [d|] eqn:Hf.
    + destruct (float_lt_100 d) eqn:Hlo; simpl.
      * intros H. destruct (IH H) as [t [Hin Ht]]. exists t. auto.
      * destruct (float_gt_2030 d) eqn:Hhi.
        -- intros H. destruct (IH H) as [t [Hin Ht]]. exists t. auto.
        -- intros _. exists tok. split; [now left|].
           split; [assumption|]. exists d. auto.
    + intros H. destruct (IH H) as [t [Hin Ht]]. exists t. auto.
Qed.

Lemma check_numbers_of_offending (toks : list string) (src tok : string) :
  In tok toks -> offending src tok -> check_numbers toks src = true.
Proof.
  intros Hin [Hc [d [Hf [Hlo Hhi]]]].
  induction toks as [|t toks IH]; [destruct Hin|].
  cbn [check_numbers].
  destruct Hin as [-> | Hin].
  - now rewrite Hc, Hf, Hlo, Hhi.
  - rewrite (IH Hin).
    destruct (negb (contains t src)); [|reflexivity].
    destruct (float_of_str (remove_commas t)) as [d'|]; [|reflexivity].
    now destruct (float_lt_100 d' || float_gt_2030 d').
Qed.

Lemma offending_not_exempt (src tok : string) :
  offending src tok -> exempt src tok -> False.
Proof.
  intros [Hc [d [Hf [Hlo Hhi]]]] [H | [H | [d' [Hf' [H | H]]]]];
    try congruence.
Qed.

Lemma contains_specific_numbers_true (answer src : string) :
  contains_specific_numbers answer src = true ->
  exists tok, In tok (findall_numbers answer) /\ offending src tok.
Proof.
  unfold contains_specific_numbers.
  destruct (findall_numbers answer) as [|t ts] eqn:E; [discriminate|].
  apply check_numbers_true.
Qed.

Lemma validate_answer_flagged (answer : string) (sources : list Document) :
  contains_specific_numbers
    answer (lower (String.concat " " (map page_content sources))) = true ->
  validate_answer answer sources = false.
Proof.
  intros H. unfold validate_answer.
  destruct sources as [|d ds]; [reflexivity|].
  match goal with |- context [filter ?f ?l] => destruct (filter f l) end;
    [|reflexivity].
  now rewrite H.
Qed.

Lemma topics_lowercase :
  Forall (fun t => lower t = t) Config.default_sensitive_topics.
Proof.
  apply Forall_forall. intros t Ht.
  assert (H : forallb (fun t => String.eqb (lower t) t)
                      Config.default_sensitive_topics = true) by reflexivity.
  rewrite forallb_forall in H. apply String.eqb_eq. now apply H.
Qed.

Lemma is_sensitive_iff (topics : list string) (q : string) :
  is_sensitive_question topics q = true <->
  exists topic, In topic topics /\ contains topic (lower q) = true.
Proof. unfold is_sensitive_question. apply existsb_exists. Qed.

(** A question that carries a lower-case topic is sensitive. *)
Lemma is_sensitive_of_occurrence (topics : list string) (t a b : string) :
  In t topics -> lower t = t ->
  is_sensitive_question topics (a ++ t ++ b) = true.
Proof.
  intros Hin Hl. apply is_sensitive_iff. exists t. split; [assumption|].
  rewrite !lower_append, Hl. apply contains_middle.
Qed.

End GuardrailsFacts.

Section GuardrailClaims.
Import PyStr PyStrFacts Guardrails Vocabulary GuardrailsFacts.

Example findall_numbers_sample :
  findall_numbers "costs 1,500.75 in 2021. Or 3.x and ,5 1.2.3"
  = ["1,500.75"; "2021"; "3"; ",5"; "1.2"; "3"].
Proof. reflexivity. Qed.

Example float_of_str_sample :
  float_of_str (remove_commas "1,500.75") = Some {| mant := 150075; scale := 2 |}
  /\ float_of_str (remove_commas ",") = None.
Proof. split; reflexivity. Qed.

Example strip_sample : strip "  a b  " = "a b" /\ str_of_nat 12 = "12".
Proof. split; reflexivity. Qed.



(** On whole numbers the two comparisons are the plain ones. *)
Lemma float_compare_whole (n : Z) :
  float_lt_100 {| mant := n; scale := 0 |} = (n <? 100)%Z
  /\ float_gt_2030 {| mant := n; scale := 0 |} = (2030 <? n)%Z.
Proof.
  unfold float_lt_100, float_gt_2030. cbn [mant scale].
  change (10 ^ Z.of_nat 0)%Z with 1%Z.
  change (2 ^ 47)%Z with 140737488355328%Z.
  change (2 ^ 43)%Z with 8796093022208%Z.
  split.
  - destruct (n <? 100)%Z eqn:E.
    + apply Z.ltb_lt. apply Z.ltb_lt in E. lia.
    + apply Z.ltb_ge. apply Z.ltb_ge in E. lia.
  - destruct (2030 <? n)%Z eqn:E.
    + apply Z.ltb_lt. apply Z.ltb_lt in E. lia.
    + apply Z.ltb_ge. apply Z.ltb_ge in E. lia.
Qed.




(** C4, at the inputs of the claim.  For sources that mention neither
    number, an answer with the token "1500" fails the validation, and so
    does an answer whose only number is the year "2021". *)
Theorem validate_answer_rejects_1500_and_2021 (sources : list Document) :
  sources <> [] ->
  contains "1500" (lower (String.concat " " (map page_content sources))) = false ->
  contains "2021" (lower (String.concat " " (map page_content sources))) = false ->
  validate_answer "The battery lasts 1500 cycles." sources = false
  /\ validate_answer "The BYD Seal was launched in 2021." sources = false.
Proof.
  intros Hne H1500 H2021.
  split; apply validate_answer_flagged;
    set (src := lower (String.concat " " (map page_content sources))) in *;
    clearbody src; unfold contains_specific_numbers.
  - change (findall_numbers "The battery lasts 1500 cycles.") with ["1500"].
    cbn [check_numbers]. rewrite H1500. reflexivity.
  - change (findall_numbers "The BYD Seal was launched in 2021.") with ["2021"].
    cbn [check_numbers]. rewrite H2021. reflexivity.
Qed.

Lemma validate_answer_rejects_1500_and_2021_witness :
  let sources := [doc_of "The BYD Seal is an electric sedan."] in
  sources <> []
  /\ contains "1500" (lower (String.concat " " (map page_content sources))) = false
  /\ contains "2021" (lower (String.concat " " (map page_content sources))) = false
  /\ validate_answer "The battery lasts 1500 cycles." sources = false
  /\ validate_answer "The BYD Seal was launched in 2021." sources = false.
Proof.
  cbn zeta.
  pose (sources := [doc_of "The BYD Seal is an electric sedan."]).
  assert (Hne : sources <> []) by discriminate.
  assert (H1 : contains "1500" (lower (String.concat " " (map page_content sources)))
               = false) by reflexivity.
  assert (H2 : contains "2021" (lower (String.concat " " (map page_content sources)))
               = false) by reflexivity.
  split; [exact Hne | split; [exact H1 | split; [exact H2|]]].
  exact (validate_answer_rejects_1500_and_2021 sources Hne H1 H2).
Defined.

End GuardrailClaims.

(** ** The orchestrator *)

Module PipelineFacts.
Import PyStr PyStrFacts Processing Pipeline Vocabulary.

Lemma outcome_bind {A B : Type} (m : M A) (f : A -> M B) (b : B) :
  outcome (bind m f) = Some b ->
  exists a, outcome m = Some a /\ outcome (f a) = Some b.
Proof.
  destruct m as [l [a|]]; simpl; [|discriminate].
  destruct (f a) as [l' r] eqn:E. simpl. intros ->.
  exists a. now rewrite E.
Qed.

Lemma bind_ret {A B : Type} (a : A) (f : A -> M B) : bind (ret a) f = f a.
Proof. unfold bind, ret. now destruct (f a). Qed.

Lemma bind_call_some {A B : Type} (c : Call) (a : A) (f : A -> M B) :
  bind (call c (Some a)) f = (c :: calls (f a), outcome (f a)).
Proof. unfold bind, call. now destruct (f a). Qed.

Lemma bind_call_none {A B : Type} (c : Call) (f : A -> M B) :
  bind (call c None) f = ([c], None).
Proof. reflexivity. Qed.

Lemma calls_bind {A B : Type} (m : M A) (f : A -> M B) :
  calls (bind m f)
  = (calls m ++ match outcome m with Some a => calls (f a) | None => [] end)%list.
Proof.
  destruct m as [l [a|]]; simpl.
  - now destruct (f a).
  - now rewrite app_nil_r.
Qed.

Lemma outcome_bind_some {A B : Type} (m : M A) (f : A -> M B) (a : A) :
  outcome m = Some a -> outcome (bind m f) = outcome (f a).
Proof.
  destruct m as [l r]. simpl. intros ->. now destruct (f a).
Qed.

Lemma bind_some {A B : Type} (l : list Call) (a : A) (f : A -> M B) :
  bind (l, Some a) f = ((l ++ calls (f a))%list, outcome (f a)).
Proof. unfold bind. now destruct (f a). Qed.

Lemma calls_bind_ret {A B : Type} (m : M A) (g : A -> B) :
  calls (bind m (fun a => ret (g a))) = calls m.
Proof. destruct m as [l [a|]]; simpl; [apply app_nil_r | reflexivity]. Qed.

Lemma bind_lift_some {A B : Type} (a : A) (f : A -> M B) :
  bind (lift (Some a)) f = f a.
Proof. unfold bind, lift. now destruct (f a). Qed.

Lemma bind_lift_none {A B : Type} (f : A -> M B) :
  bind (lift None) f = ([], None).
Proof. reflexivity. Qed.

Section WithCollaborators.
Variable cfg : Config.t.
Variable similarity_search : VectorStore -> string -> nat -> option (list Document).
Variable llm_invoke : string -> option string.
Variable dp : DocumentProcessor.

Lemma attempt_cases (st : RAGState) (srcs : list Document) :
  exists r, outcome (attempt llm_invoke st srcs) = Some r
            /\ ((exists a cs, Guardrails.validate_answer a srcs = true
                              /\ r = set_result a "answered" cs st)
                \/ r = set_result (Guardrails.get_refusal_message "validation_failed")
                                  "validation_failed" [] st
                \/ r = set_result
                         "I encountered an error while processing your question."
                         "error" [] st)
            /\ forall c, In c (calls (attempt llm_invoke st srcs)) -> exists p, c = Generate p.
Proof.
  unfold attempt, generate_llm_response, extract_citations.
  destruct (all_some (map context_entry srcs)) as [entries|].
  - rewrite bind_lift_some.
    destruct (llm_invoke (prompt_format (String.concat (nl ++ nl) entries)
                                        (st_question st))) as [a|].
    + rewrite bind_call_some.
      destruct (Guardrails.validate_answer a srcs) eqn:Ev.
      * destruct (all_some (map citation_of srcs)) as [cs|].
        -- rewrite bind_lift_some. cbn. eexists. split; [reflexivity|].
           split; [left; now exists a, cs | intros c [<- | []]; eauto].
        -- rewrite bind_lift_none. cbn. eexists. split; [reflexivity|].
           split; [auto | intros c [<- | []]; eauto].
      * cbn. eexists. split; [reflexivity|].
        split; [auto | intros c [<- | []]; eauto].
    + rewrite bind_call_none. cbn. eexists. split; [reflexivity|].
      split; [auto | intros c [<- | []]; eauto].
  - rewrite bind_lift_none. cbn. eexists. split; [reflexivity|].
    split; [auto | intros c []].
Qed.

(** [_generate_answer] always returns, in one of the five ways, and
    calls nothing but the generation service. *)
Lemma generate_answer_cases (st : RAGState) :
  exists r, outcome (generate_answer llm_invoke st) = Some r
            /\ answer_case st r
            /\ forall c, In c (calls (generate_answer llm_invoke st)) ->
                         exists p, c = Generate p.
Proof.
  unfold generate_answer.
  fold (attempt llm_invoke st (st_retrieved_facts st ++ st_retrieved_external st)%list).
  destruct (st_retrieved_facts st ++ st_retrieved_external st)%list
    as [|d0 ds] eqn:Eall.
  - eexists. split; [reflexivity|]. split; [now constructor | intros c []].
  - cbn [length Nat.eqb].
    destruct (Guardrails.should_refuse_sensitive
                (st_is_sensitive st)
                (negb (length (st_retrieved_facts st) =? 0))) eqn:Er.
    + eexists. split; [reflexivity|]. split; [|intros c []].
      unfold Guardrails.should_refuse_sensitive in Er.
      apply andb_true_iff in Er as [Es Ef].
      apply case_refused; [rewrite Eall; discriminate | assumption |].
      destruct (st_retrieved_facts st); [reflexivity | discriminate].
    + destruct (attempt_cases st (d0 :: ds)) as [r [Hr [Hc Hcalls]]].
      exists r. split; [assumption|]. split; [|assumption].
      destruct Hc as [[a [cs [Hv ->]]] | [-> | ->]].
      * apply case_answered. now rewrite Eall.
      * apply case_validation_failed.
      * apply case_error.
Qed.

Lemma retrieve_facts_spec (st r : RAGState) :
  outcome (retrieve_facts cfg similarity_search dp st) = Some r ->
  exists docs needs,
    r = set_facts_result docs needs st
    /\ match facts_vectorstore dp with
       | Some vs =>
           similarity_search vs (st_question st) (Config.top_k_retrieval cfg)
           = Some docs
       | None => docs = []
       end
    /\ needs = negb (existsb (fun doc => 50 <? len (strip (page_content doc))) docs).
Proof.
  unfold retrieve_facts.
  destruct (facts_vectorstore dp) as [vs|].
  - destruct (similarity_search vs (st_question st) (Config.top_k_retrieval cfg))
      as [docs|] eqn:Es; [|discriminate].
    rewrite bind_call_some.
    destruct docs as [|d ds].
    + cbn. intros [= <-]. now exists [], true.
    + cbn [length Nat.eqb negb andb].
      destruct (existsb _ (d :: ds)) eqn:E; cbn [outcome ret snd]; intros [= <-].
      * exists (d :: ds), false. now rewrite E.
      * exists (d :: ds), true. now rewrite E.
  - cbn. intros [= <-]. now exists [], true.
Qed.

Lemma retrieve_external_spec (st r : RAGState) :
  outcome (retrieve_external cfg similarity_search dp st) = Some r ->
  exists docs,
    r = set_retrieved_external docs st
    /\ (st_needs_external st && negb (st_is_sensitive st) = false -> docs = []).
Proof.
  unfold retrieve_external.
  destruct (st_needs_external st && negb (st_is_sensitive st)).
  - destruct (external_vectorstore dp) as [vs|].
    + destruct (similarity_search vs (st_question st) (Config.top_k_retrieval cfg))
        as [docs|]; [|discriminate].
      rewrite bind_call_some. cbn. intros [= <-].
      exists docs. split; [reflexivity | discriminate].
    + cbn. intros [= <-]. now exists [].
  - cbn. intros [= <-]. now exists [].
Qed.

(** A run of the graph that returns went through the three retrieval
    stages and ended in one of the five ways of [_generate_answer]. *)
Lemma graph_invoke_spec (q : string) (r : RAGState) :
  outcome (graph_invoke cfg similarity_search llm_invoke dp (initial_state q))
  = Some r ->
  exists facts needs external,
    let s3 :=
      set_retrieved_external external
        (set_is_sensitive
           (Guardrails.is_sensitive_question (Config.sensitive_topics cfg) q)
           (set_facts_result facts needs (initial_state q))) in
    answer_case s3 r
    /\ (needs && negb (Guardrails.is_sensitive_question
                         (Config.sensitive_topics cfg) q) = false ->
        external = []).
Proof.
  unfold graph_invoke. intros H.
  apply outcome_bind in H as [s1 [H1 H]].
  apply outcome_bind in H as [s2 [H2 H]].
  apply outcome_bind in H as [s3 [H3 H]].
  apply retrieve_facts_spec in H1 as [facts [needs [-> _]]].
  cbn in H2. injection H2 as <-.
  apply retrieve_external_spec in H3 as [external [-> Hgate]].
  destruct (generate_answer_cases (set_retrieved_external external
              (set_is_sensitive
                 (Guardrails.is_sensitive_question (Config.sensitive_topics cfg) q)
                 (set_facts_result facts needs (initial_state q)))))
    as [r' [Hr [Hcase _]]].
  cbn [st_question set_facts_result initial_state] in H.
  rewrite Hr in H. injection H as <-.
  exists facts, needs, external. cbn zeta. split; [exact Hcase | exact Hgate].
Qed.

End WithCollaborators.

End PipelineFacts.

Section PipelineClaims.
Import PyStr PyStrFacts Processing Pipeline Vocabulary PipelineFacts.

Variable cfg : Config.t.
Variable similarity_search : VectorStore -> string -> nat -> option (list Document).
Variable llm_invoke : string -> option string.
Variable doc_processor : DocumentProcessor.

(** C2.  Whatever the two retrieval steps and the generation service
    do, a response of the pipeline never has status [refused_sensitive]:
    that branch needs a non-empty combined list with an empty facts
    list, hence external passages, and those are retrieved only for a
    question that is not sensitive. *)
Theorem ask_never_refused_sensitive
  (vectorstores_ready : bool) (question : string) (response : AnswerResponse) :
  outcome (ask cfg similarity_search llm_invoke doc_processor
               vectorstores_ready question) = Some response ->
  status response <> "refused_sensitive".
Proof.
  unfold ask. destruct vectorstores_ready; cbn [negb].
  - intros H. apply outcome_bind in H as [final [Hg H]].
    cbn in H. injection H as <-. cbn [status].
    apply graph_invoke_spec in Hg as [facts [needs [external [Hcase Hgate]]]].
    cbn zeta in Hcase.
    inversion Hcase as [ | Hne Hs Hf | | | ]; cbn; try discriminate.
    cbn in Hne, Hs, Hf. subst facts. rewrite Hs in Hgate.
    rewrite andb_false_r in Hgate. rewrite (Hgate eq_refl) in Hne.
    now elim Hne.
  - cbn. intros [= <-]. discriminate.
Qed.

(** C10.  The status of every response of [ask] is one of the six
    terminal ones, so never the placeholder [processing], and a response
    whose status is not [answered] carries no citation. *)
Theorem ask_status_terminal_citations_only_when_answered
  (vectorstores_ready : bool) (question : string) (response : AnswerResponse) :
  outcome (ask cfg similarity_search llm_invoke doc_processor
               vectorstores_ready question) = Some response ->
  In (status response) terminal_statuses
  /\ status response <> "processing"
  /\ (status response <> "answered" -> citations response = []).
Proof.
  unfold ask, terminal_statuses. destruct vectorstores_ready; cbn [negb].
  - intros H. apply outcome_bind in H as [final [Hg H]].
    cbn in H. injection H as <-. cbn [status citations].
    apply graph_invoke_spec in Hg as [facts [needs [external [Hcase _]]]].
    cbn zeta in Hcase.
    inversion Hcase; cbn [st_status st_citations set_result];
      (split; [simpl; tauto | split; [discriminate | ]]);
      first [ reflexivity | intros Hn; now elim Hn ].
  - cbn. intros [= <-]. cbn.
    split; [tauto | split; [discriminate | reflexivity]].
Qed.

(** C1, as the code runs.  For a question that contains "price", with
    "price" among the configured topics and no passage coming back from
    the facts index (or no facts index at all), [ask] returns, and its
    response has status [insufficient_info] and no citation. *)
Theorem ask_price_without_facts_is_insufficient_info (question : string) :
  contains "price" question = true ->
  In "price" (Config.sensitive_topics cfg) ->
  (forall vs, facts_vectorstore doc_processor = Some vs ->
              similarity_search vs question (Config.top_k_retrieval cfg) = Some []) ->
  outcome (ask cfg similarity_search llm_invoke doc_processor true question)
  = Some {| answer := Guardrails.get_refusal_message "insufficient_info";
            status := "insufficient_info";
            citations := [] |}.
Proof.
  intros Hq Hin Hempty.
  assert (Hs : Guardrails.is_sensitive_question (Config.sensitive_topics cfg) question
               = true).
  { apply GuardrailsFacts.is_sensitive_iff. exists "price". split; [assumption|].
    apply contains_iff in Hq as [pre [post ->]].
    rewrite !lower_append. apply contains_middle. }
  unfold ask, graph_invoke. cbn [negb].
  assert (Hf : outcome (retrieve_facts cfg similarity_search doc_processor
                                       (initial_state question))
               = Some (set_facts_result [] true (initial_state question))).
  { unfold retrieve_facts.
    destruct (facts_vectorstore doc_processor) as [vs|] eqn:E; [|reflexivity].
    cbn [st_question initial_state]. now rewrite (Hempty vs eq_refl). }
  assert (Hg : outcome (graph_invoke cfg similarity_search llm_invoke doc_processor
                                     (initial_state question))
               = Some (set_result (Guardrails.get_refusal_message "insufficient_info")
                                  "insufficient_info" []
                                  (set_retrieved_external []
                                     (set_is_sensitive true
                                        (set_facts_result [] true
                                           (initial_state question)))))).
  { unfold graph_invoke. rewrite (outcome_bind_some _ _ _ Hf).
    unfold check_sensitivity. rewrite bind_ret.
    cbn [st_question set_facts_result initial_state]. rewrite Hs.
    unfold retrieve_external.
    cbn [st_needs_external st_is_sensitive set_is_sensitive
         set_facts_result negb andb].
    rewrite bind_ret. reflexivity. }
  rewrite (outcome_bind_some _ _ _ Hg). reflexivity.
Qed.


End PipelineClaims.


Section PipelineRuns.
Import PyStr Processing Pipeline Vocabulary.

Lemma ask_never_refused_sensitive_witness :
  let response :=
    {| answer := Guardrails.get_refusal_message "insufficient_info";
       status := "insufficient_info"; citations := [] |} in
  outcome (ask Config.config Sample.search_all Sample.llm Sample.empty_facts
               true "What is the price of the BYD Seal?") = Some response
  /\ status response <> "refused_sensitive".
Proof.
  cbn zeta.
  assert (H : outcome (ask Config.config Sample.search_all Sample.llm
                           Sample.empty_facts true
                           "What is the price of the BYD Seal?")
              = Some {| answer := Guardrails.get_refusal_message "insufficient_info";
                        status := "insufficient_info"; citations := [] |})
    by reflexivity.
  split; [exact H|].
  exact (ask_never_refused_sensitive Config.config Sample.search_all Sample.llm
           Sample.empty_facts true _ _ H).
Defined.

Lemma ask_status_terminal_citations_only_when_answered_witness :
  let response :=
    {| answer := "The BYD Seal is a battery electric sedan [facts:F1:c1].";
       status := "answered";
       citations := [ {| source := "facts"; doc_id := "F1"; chunk_id := "c1" |} ] |} in
  outcome (ask Config.config Sample.search_all Sample.llm Sample.with_facts
               true "What kind of car is the BYD Seal?") = Some response
  /\ In (status response) terminal_statuses
  /\ status response <> "processing"
  /\ (status response <> "answered" -> citations response = []).
Proof.
  cbn zeta.
  assert (H : outcome (ask Config.config Sample.search_all Sample.llm
                           Sample.with_facts true
                           "What kind of car is the BYD Seal?")
              = Some {| answer := "The BYD Seal is a battery electric sedan [facts:F1:c1].";
                        status := "answered";
                        citations := [ {| source := "facts"; doc_id := "F1";
                                          chunk_id := "c1" |} ] |})
    by reflexivity.
  split; [exact H|].
  exact (ask_status_terminal_citations_only_when_answered
           Config.config Sample.search_all Sample.llm Sample.with_facts true _ _ H).
Defined.

Lemma ask_price_without_facts_is_insufficient_info_witness :
  let question := "What is the price of the BYD Seal?" in
  contains "price" question = true
  /\ In "price" (Config.sensitive_topics Config.config)
  /\ (forall vs, facts_vectorstore Sample.empty_facts = Some vs ->
                 Sample.search_all vs question
                                   (Config.top_k_retrieval Config.config) = Some [])
  /\ outcome (ask Config.config Sample.search_all Sample.llm Sample.empty_facts
                  true question)
     = Some {| answer := Guardrails.get_refusal_message "insufficient_info";
               status := "insufficient_info";
               citations := [] |}.
Proof.
  cbn zeta.
  assert (H1 : contains "price" "What is the price of the BYD Seal?" = true)
    by reflexivity.
  assert (H2 : In "price" (Config.sensitive_topics Config.config))
    by (simpl; auto).
  assert (H3 : forall vs, facts_vectorstore Sample.empty_facts = Some vs ->
                 Sample.search_all vs "What is the price of the BYD Seal?"
                                   (Config.top_k_retrieval Config.config) = Some []).
  { intros vs [= <-]. reflexivity. }
  split; [exact H1 | split; [exact H2 | split; [exact H3|]]].
  exact (ask_price_without_facts_is_insufficient_info
           Config.config Sample.search_all Sample.llm Sample.empty_facts _ H1 H2 H3).
Defined.


(** The run of the claim C1: a question about the price, a facts index
    that returns nothing, an external index that holds a passage.  The
    external index is not searched, and the answer is the
    [insufficient_info] refusal. *)
Example ask_price_run :
  ask Config.config Sample.search_all Sample.llm Sample.empty_facts true
      "What is the price of the BYD Seal?"
  = ([SearchFacts "What is the price of the BYD Seal?" 3],
     Some {| answer := "I don't have enough information to answer this question safely.";
             status := "insufficient_info";
             citations := [] |}).
Proof. reflexivity. Qed.

End PipelineRuns.

(** ** Document ingestion *)

Module ProcessingFacts.
Import PyStr Processing Vocabulary.

Lemma dict_get_set (k v : string) (d : metadata_t) :
  dict_get k (dict_set k v d) = Some v.
Proof.
  induction d as [|[k' v'] d IH]; simpl.
  - now rewrite String.eqb_refl.
  - destruct (String.eqb k k') eqn:E; simpl; rewrite E; [reflexivity | exact IH].
Qed.

(** [enumerate] pairs every element with its position. *)
Lemma in_combine_seq {A : Type} (l : list A) (s j : nat) (x : A) :
  In (j, x) (combine (seq s (length l)) l) <->
  s <= j /\ nth_error l (j - s) = Some x.
Proof.
  revert s; induction l as [|a l IH]; intros s; simpl.
  - split; [intros [] | intros [_ H]; now destruct (j - s)].
  - rewrite IH. split.
    + intros [[= <- <-] | [Hle H]].
      * rewrite Nat.sub_diag. split; [lia | reflexivity].
      * split; [lia|]. replace (j - s) with (S (j - S s)) by lia. exact H.
    + intros [Hle H]. destruct (j - s) as [|n] eqn:E.
      * left. injection H as <-. f_equal. lia.
      * right. split; [lia|]. replace (j - S s) with n by lia. exact H.
Qed.

Lemma in_enumerate {A : Type} (l : list A) (j : nat) (x : A) :
  In (j, x) (enumerate l) <-> nth_error l j = Some x.
Proof.
  unfold enumerate. rewrite in_combine_seq, Nat.sub_0_r.
  split; [now intros [_ H] | intros H; split; [lia | exact H]].
Qed.

Lemma map_snd_combine_seq {A : Type} (l : list A) (s : nat) :
  map snd (combine (seq s (length l)) l) = l.
Proof.
  revert s; induction l as [|a l IH]; intros s; simpl; [reflexivity|].
  now rewrite IH.
Qed.

Lemma contents_of_kept (md : metadata_t) (ps : list (nat * string)) :
  map page_content (flat_map (keep_chunk md) ps)
  = filter (fun text => 20 <? len (strip text)) (map snd ps).
Proof.
  induction ps as [|[j text] ps IH]; simpl; [reflexivity|].
  destruct (20 <? len (strip text)); simpl; now rewrite IH.
Qed.

Lemma in_kept (md : metadata_t) (texts : list string) (doc : Document) :
  In doc (flat_map (keep_chunk md) (enumerate texts)) <->
  exists j text, nth_error texts j = Some text
                 /\ 20 < len (strip text)
                 /\ doc = chunk_at md j text.
Proof.
  rewrite in_flat_map. split.
  - intros [[j text] [Hin Hd]]. apply in_enumerate in Hin.
    unfold keep_chunk in Hd.
    destruct (20 <? len (strip text)) eqn:E; [|destruct Hd].
    destruct Hd as [<- | []]. exists j, text.
    apply Nat.ltb_lt in E. auto.
  - intros [j [text [Hn [Hlen ->]]]]. exists (j, text).
    split; [now apply in_enumerate|].
    unfold keep_chunk. apply Nat.ltb_lt in Hlen. rewrite Hlen. now left.
Qed.

End ProcessingFacts.

Section IngestionClaims.
Import PyStr Processing Vocabulary ProcessingFacts.

Variable cfg : Config.t.
Variable split_text : string -> list string.

Lemma create_document_chunks_split (content : string) (md : metadata_t) :
  Config.chunk_size cfg < len content ->
  create_document_chunks cfg split_text content md
  = flat_map (keep_chunk md) (enumerate (split_text content)).
Proof.
  intros H. unfold create_document_chunks.
  apply Nat.ltb_lt in H. now rewrite H.
Qed.


End IngestionClaims.


Section IngestionRuns.
Import PyStr Processing Vocabulary ProcessingFacts.



End IngestionRuns.

(** ** Index construction *)

Module BuilderFacts.
Import Processing Vocabulary.
Local Open Scope list_scope.

Lemma advance_nothing (w : World) : advance 0 [] w = w.
Proof.
  destruct w. unfold advance. cbn. now rewrite Nat.add_0_r, app_nil_r.
Qed.

Lemma count_embed_advance (w : World) : count_embed w = advance 1 [] w.
Proof.
  destruct w. unfold advance, count_embed. cbn.
  now rewrite Nat.add_1_r, app_nil_r.
Qed.

Lemma sleep_advance (d : Q) (w : World) : sleep d w = advance 0 [d] w.
Proof. destruct w. unfold advance, sleep. cbn. now rewrite Nat.add_0_r. Qed.

Lemma advance_advance (n1 n2 : nat) (d1 d2 : list Q) (w : World) :
  advance n2 d2 (advance n1 d1 w) = advance (n1 + n2) (d1 ++ d2) w.
Proof.
  unfold advance. cbn. now rewrite Nat.add_assoc, app_assoc.
Qed.

Lemma documents_of_map (b : list Document) :
  documents_of (map page_content b) (map metadata b) = b.
Proof.
  induction b as [|[t m] b IH]; simpl; [reflexivity | now rewrite IH].
Qed.

Lemma slice_batch {A : Type} (i bs : nat) (l : list A) :
  slice i (i + bs) l = firstn bs (skipn i l).
Proof. unfold slice. f_equal. lia. Qed.

Lemma firstn_add {A : Type} (a b : nat) (l : list A) :
  firstn (a + b) l = firstn a l ++ firstn b (skipn a l).
Proof.
  revert l; induction a as [|a IH]; intros l; [reflexivity|].
  destruct l as [|x l]; simpl.
  - now rewrite firstn_nil.
  - now rewrite IH.
Qed.

Lemma skipn_split {A : Type} (i bs : nat) (l : list A) :
  skipn i l = firstn bs (skipn i l) ++ skipn (i + bs) l.
Proof.
  rewrite (Nat.add_comm i bs), <- skipn_skipn. symmetry. apply firstn_skipn.
Qed.

Section Loop.
Variable cfg : Config.t.
Variable embed_ok : nat -> bool.
Variable remaining_docs : list Document.
Variable batch_size : nat.
Hypothesis batch_size_pos : 0 < batch_size.

Local Abbreviation n := (length remaining_docs).
Local Abbreviation rd := (Config.retry_delay cfg).
Local Abbreviation step := (add_batch cfg embed_ok remaining_docs batch_size).

Lemma add_batch_ok (i : nat) (vs : VectorStore) (w : World) :
  embed_ok (embed_calls w) = true ->
  step (vs, w) i
  = (vs ++ firstn batch_size (skipn i remaining_docs),
     advance 1 (if i + batch_size <? n then [rd] else []) w).
Proof.
  intros H. unfold step, add_batch, add_texts. rewrite H.
  rewrite documents_of_map, slice_batch. fold n.
  destruct (i + batch_size <? n).
  - now rewrite sleep_advance, count_embed_advance, advance_advance.
  - now rewrite count_embed_advance.
Qed.

Lemma add_batch_failed (i : nat) (vs : VectorStore) (w : World) :
  embed_ok (embed_calls w) = false ->
  step (vs, w) i = (vs, advance 1 [(rd * 2)%Q] w).
Proof.
  intros H. unfold step, add_batch, add_texts. rewrite H.
  now rewrite sleep_advance, count_embed_advance, advance_advance.
Qed.

(** With fuel to reach [n], the range is empty from [n] on and starts
    with [i] below [n]. *)
Lemma range_from_unfold (fuel i : nat) :
  n <= i + fuel * batch_size ->
  range_from fuel i n batch_size
  = if i <? n then i :: range_from (fuel - 1) (i + batch_size) n batch_size
    else [].
Proof.
  intros H. destruct fuel as [|fuel]; simpl.
  - replace (i <? n) with false; [reflexivity|].
    symmetry. apply Nat.ltb_ge. lia.
  - now rewrite Nat.sub_0_r.
Qed.

Lemma fuel_step (fuel i : nat) :
  n <= i + S fuel * batch_size -> n <= (i + batch_size) + fuel * batch_size.
Proof. simpl. lia. Qed.

(** Every insert succeeds: the rest of the documents is added, with a
    pause after each batch but the last. *)
Lemma loop_all_inserted (fuel i : nat) (vs : VectorStore) (w : World) :
  n <= i + fuel * batch_size ->
  let batches := range_from fuel i n batch_size in
  (forall j, j < length batches -> embed_ok (embed_calls w + j) = true) ->
  fold_left step batches (vs, w)
  = (vs ++ skipn i remaining_docs,
     advance (length batches) (repeat rd (length batches - 1)) w).
Proof.
  revert i vs w; induction fuel as [|fuel IH]; intros i vs w Hfuel.
  - cbn. intros _. rewrite skipn_all2 by (fold n; lia).
    now rewrite app_nil_r, advance_nothing.
  - cbn zeta. cbn [range_from].
    destruct (i <? n) eqn:Ei.
    + intros Hok. cbn [fold_left length].
      rewrite add_batch_ok by (rewrite <- (Nat.add_0_r (embed_calls w));
                               apply Hok; cbn; lia).
      pose proof (fuel_step _ _ Hfuel) as Hfuel'.
      rewrite IH; [|exact Hfuel'|].
      * rewrite advance_advance, <- app_assoc, <- skipn_split.
        f_equal. f_equal.
        rewrite (range_from_unfold _ _ Hfuel').
        destruct (i + batch_size <? n); cbn [length]; [|reflexivity].
        cbn. now rewrite Nat.sub_0_r.
      * intros j Hj. cbn [embed_calls advance].
        rewrite <- Nat.add_assoc. apply Hok. cbn. lia.
    + intros _. cbn. apply Nat.ltb_ge in Ei.
      rewrite skipn_all2 by (fold n; lia).
      now rewrite app_nil_r, advance_nothing.
Qed.

(** Exactly the insert number [k] fails: the documents of the other
    batches are added, all batches are attempted, and the pause after
    the failed one is twice the retry delay. *)
Lemma loop_one_failed (fuel i k : nat) (vs : VectorStore) (w : World) :
  n <= i + fuel * batch_size ->
  let batches := range_from fuel i n batch_size in
  k < length batches ->
  (forall j, j < length batches ->
             embed_ok (embed_calls w + j) = negb (j =? k)) ->
  fold_left step batches (vs, w)
  = (vs ++ firstn (k * batch_size) (skipn i remaining_docs)
        ++ skipn (i + (k + 1) * batch_size) remaining_docs,
     advance (length batches)
             (repeat rd k ++ [(rd * 2)%Q] ++ repeat rd (length batches - k - 2))
             w).
Proof.
  revert i k vs w; induction fuel as [|fuel IH]; intros i k vs w Hfuel.
  - cbn. intros Hk. lia.
  - cbn zeta. cbn [range_from].
    destruct (i <? n) eqn:Ei; [|cbn; intros Hk; lia].
    intros Hk Hok. cbn [fold_left length] in *.
    pose proof (fuel_step _ _ Hfuel) as Hfuel'.
    destruct k as [|k].
    + rewrite add_batch_failed
        by (rewrite <- (Nat.add_0_r (embed_calls w)); apply Hok; lia).
      rewrite loop_all_inserted; [|exact Hfuel'|].
      * rewrite advance_advance. cbn [Nat.mul firstn app repeat].
        set (L := length (range_from fuel (i + batch_size) n batch_size)).
        replace (i + (0 + 1) * batch_size) with (i + batch_size) by lia.
        replace (S L - 0 - 2) with (L - 1) by lia.
        reflexivity.
      * intros j Hj. cbn [embed_calls advance].
        rewrite <- Nat.add_assoc. rewrite Hok by lia. reflexivity.
    + rewrite add_batch_ok
        by (rewrite <- (Nat.add_0_r (embed_calls w)); apply Hok; lia).
      assert (Hnext : (i + batch_size <? n) = true).
      { rewrite (range_from_unfold _ _ Hfuel') in Hk.
        destruct (i + batch_size <? n); [reflexivity | cbn in Hk; lia]. }
      rewrite Hnext.
      rewrite IH with (k := k); [|exact Hfuel'|lia|].
      * rewrite advance_advance. f_equal.
        rewrite <- !app_assoc. f_equal.
        replace (S k * batch_size) with (batch_size + k * batch_size) by lia.
        rewrite firstn_add, skipn_skipn, <- app_assoc.
        rewrite (Nat.add_comm batch_size i).
        do 3 f_equal. lia.
      * intros j Hj. cbn [embed_calls advance].
        rewrite <- Nat.add_assoc. rewrite Hok by lia. reflexivity.
Qed.

End Loop.

End BuilderFacts.

Section BuilderClaims.
Import Processing Vocabulary BuilderFacts.
Local Open Scope list_scope.

Variable cfg : Config.t.
Variable embed_ok : nat -> bool.

Lemma create_vectorstore_batched_nonempty (documents : list Document) (w : World) :
  documents <> [] ->
  create_vectorstore_batched cfg embed_ok documents w
  = let batch_size := Nat.min (Config.batch_size cfg) (length documents) in
    match from_documents embed_ok (slice 0 batch_size documents) w with
    | (None, w1) => (None, w1)
    | (Some vectorstore, w1) =>
        let remaining_docs := skipn batch_size documents in
        if batch_size =? 0 then (None, w1)
        else
          let '(vectorstore', w2) :=
            fold_left (add_batch cfg embed_ok remaining_docs batch_size)
                      (py_range 0 (length remaining_docs) batch_size)
                      (vectorstore, w1) in
          (Some vectorstore', w2)
    end.
Proof. destruct documents; [congruence | reflexivity]. Qed.

(** When the construction from the first batch fails, the outer handler
    gives up the whole build: no index, no pause, no insert. *)
Lemma batched_build_without_initial_batch (documents : list Document) (w : World) :
  documents <> [] ->
  embed_ok (embed_calls w) = false ->
  create_vectorstore_batched cfg embed_ok documents w = (None, count_embed w).
Proof.
  intros Hne Hinit. rewrite (create_vectorstore_batched_nonempty _ _ Hne).
  cbn zeta. unfold from_documents. now rewrite Hinit.
Qed.

(** X10.  When the construction and every insert succeed, the index
    holds all the documents, in their order, and a retry delay separates
    the inserts: one request for each batch, one pause fewer than there
    are inserts. *)
Lemma batched_build_all_inserted (documents : list Document) (w : World) :
  let batch_size := Nat.min (Config.batch_size cfg) (length documents) in
  let batches := py_range 0 (length (skipn batch_size documents)) batch_size in
  documents <> [] ->
  0 < Config.batch_size cfg ->
  (forall j, j <= length batches -> embed_ok (embed_calls w + j) = true) ->
  create_vectorstore_batched cfg embed_ok documents w
  = (Some documents,
     advance (S (length batches))
             (repeat (Config.retry_delay cfg) (length batches - 1)) w).
Proof.
  intros batch_size batches Hne Hpos Hok.
  assert (Hbs : 0 < batch_size).
  { subst batch_size. destruct documents; [congruence | cbn [length]; lia]. }
  rewrite (create_vectorstore_batched_nonempty _ _ Hne). cbn zeta.
  assert (Hinit : embed_ok (embed_calls w) = true).
  { rewrite <- (Nat.add_0_r (embed_calls w)). apply Hok. lia. }
  fold batch_size. unfold from_documents. rewrite Hinit.
  replace (batch_size =? 0) with false by (symmetry; apply Nat.eqb_neq; lia).
  unfold py_range.
  rewrite (loop_all_inserted cfg embed_ok (skipn batch_size documents) batch_size Hbs
             (length (skipn batch_size documents)) 0).
  - fold (py_range 0 (length (skipn batch_size documents)) batch_size).
    fold batches. rewrite count_embed_advance, advance_advance.
    cbn [app Nat.add]. f_equal. f_equal.
    unfold slice. rewrite Nat.sub_0_r. cbn [skipn]. apply firstn_skipn.
  - nia.
  - intros j Hj. rewrite count_embed_advance. cbn [embed_calls advance].
    rewrite <- Nat.add_assoc. apply Hok.
    fold (py_range 0 (length (skipn batch_size documents)) batch_size) in Hj.
    fold batches in Hj. lia.
Qed.


End BuilderClaims.


Section BuilderRuns.
Import Processing Vocabulary BuilderFacts.
Local Open Scope list_scope.


End BuilderRuns.

(** ** Building twice *)

Module CacheFacts.
Import Processing Vocabulary BuilderFacts.
Local Open Scope list_scope.

Lemma subseq_nil_l {A : Type} (l : list A) : subseq [] l.
Proof. induction l; constructor; assumption. Qed.

Lemma subseq_refl {A : Type} (l : list A) : subseq l l.
Proof. induction l; constructor; assumption. Qed.

Lemma subseq_app {A : Type} (a a' b b' : list A) :
  subseq a a' -> subseq b b' -> subseq (a ++ b) (a' ++ b').
Proof.
  intros Ha Hb. induction Ha; simpl; [assumption | |]; now constructor.
Qed.

Lemma subseq_firstn_app {A : Type} (k : nat) (l kept : list A) :
  subseq kept (skipn k l) -> subseq (firstn k l ++ kept) l.
Proof.
  intros H. rewrite <- (firstn_skipn k l) at 2.
  apply subseq_app; [apply subseq_refl | exact H].
Qed.

Section WithEnvironment.
Variable cfg : Config.t.
Variable split_text : string -> list string.
Variable embed_ok : nat -> bool.
Variable save_outcome : nat -> SaveOutcome.

(** Whatever the embedding service does, the batch loop only adds
    documents of the list it walks, each at most once and in order. *)
Lemma loop_adds_subseq (remaining_docs : list Document) (batch_size fuel i : nat)
      (vs vs' : VectorStore) (w w' : World) :
  fold_left (add_batch cfg embed_ok remaining_docs batch_size)
            (range_from fuel i (length remaining_docs) batch_size) (vs, w)
  = (vs', w') ->
  exists kept, vs' = vs ++ kept /\ subseq kept (skipn i remaining_docs).
Proof.
  revert i vs w; induction fuel as [|fuel IH]; intros i vs w; cbn [range_from].
  - cbn. intros [= <- <-]. exists []. split; [now rewrite app_nil_r|].
    apply subseq_nil_l.
  - destruct (i <? length remaining_docs).
    + cbn [fold_left].
      destruct (embed_ok (embed_calls w)) eqn:E.
      * rewrite (add_batch_ok cfg embed_ok remaining_docs batch_size i vs w E).
        intros H. apply IH in H as [kept [-> Hs]].
        exists (firstn batch_size (skipn i remaining_docs) ++ kept).
        split; [now rewrite app_assoc|].
        rewrite (skipn_split i batch_size remaining_docs) at 2.
        apply subseq_app; [apply subseq_refl | exact Hs].
      * rewrite (add_batch_failed cfg embed_ok remaining_docs batch_size i vs w E).
        intros H. apply IH in H as [kept [-> Hs]].
        exists kept. split; [reflexivity|].
        rewrite (skipn_split i batch_size remaining_docs).
        change kept with ([] ++ kept).
        apply subseq_app; [apply subseq_nil_l | exact Hs].
    + cbn. intros [= <- <-]. exists []. split; [now rewrite app_nil_r|].
      apply subseq_nil_l.
Qed.

Lemma create_vectorstore_batched_subseq
      (documents : list Document) (w w' : World) (vs : VectorStore) :
  create_vectorstore_batched cfg embed_ok documents w = (Some vs, w') ->
  subseq vs documents.
Proof.
  destruct documents as [|d ds] eqn:Ed; [discriminate|]. rewrite <- Ed.
  assert (Hne : documents <> []) by (rewrite Ed; discriminate).
  rewrite (create_vectorstore_batched_nonempty cfg embed_ok _ _ Hne). cbn zeta.
  set (bs := Nat.min (Config.batch_size cfg) (length documents)).
  unfold from_documents.
  destruct (embed_ok (embed_calls w)); [|discriminate].
  destruct (bs =? 0); [discriminate|].
  unfold py_range.
  destruct (fold_left _ _ _) as [vs' w2] eqn:Ef.
  intros [= <- <-].
  apply loop_adds_subseq in Ef as [kept [-> Hs]].
  unfold slice. rewrite Nat.sub_0_r. cbn [skipn] in *.
  now apply subseq_firstn_app.
Qed.

(** Saving asks nothing of the embedding service and never sleeps. *)
Lemma save_local_quiet set_cache vs w :
  (forall c w0, embed_calls (set_cache c w0) = embed_calls w0
                /\ slept (set_cache c w0) = slept w0) ->
  embed_calls (snd (save_local save_outcome set_cache vs w)) = embed_calls w
  /\ slept (snd (save_local save_outcome set_cache vs w)) = slept w.
Proof.
  intros Hset. unfold save_local.
  destruct (save_outcome (save_calls w)); cbn [snd];
    try (destruct (Hset (CacheSaved vs) (count_save w)) as [-> ->]);
    try (destruct (Hset CacheBroken (count_save w)) as [-> ->]);
    now split.
Qed.

Lemma save_to_cache_quiet (dp : DocumentProcessor) (w : World) :
  embed_calls (save_to_cache save_outcome dp w) = embed_calls w
  /\ slept (save_to_cache save_outcome dp w) = slept w.
Proof.
  assert (Hf : forall c w0, embed_calls (set_facts_cache c w0) = embed_calls w0
                            /\ slept (set_facts_cache c w0) = slept w0)
    by (intros; now split).
  assert (He : forall c w0, embed_calls (set_external_cache c w0) = embed_calls w0
                            /\ slept (set_external_cache c w0) = slept w0)
    by (intros; now split).
  unfold save_to_cache.
  destruct (facts_vectorstore dp) as [fvs|].
  - pose proof (save_local_quiet set_facts_cache fvs w Hf) as [H1 H2].
    destruct (save_local save_outcome set_facts_cache fvs w) as [c w1].
    cbn [snd] in H1, H2.
    destruct c; [|now split].
    destruct (external_vectorstore dp) as [evs|]; [|now split].
    pose proof (save_local_quiet set_external_cache evs w1 He) as [H3 H4].
    rewrite H3, H4. now split.
  - destruct (external_vectorstore dp) as [evs|]; [|now split].
    apply (save_local_quiet set_external_cache evs w He).
Qed.

Lemma load_from_cache_spec (dp : DocumentProcessor) (w : World) :
  load_from_cache dp w
  = {| facts_vectorstore := after_load (facts_cache w) (facts_vectorstore dp);
       external_vectorstore :=
         after_load (external_cache w) (external_vectorstore dp) |}.
Proof.
  unfold load_from_cache. destruct dp as [f e].
  destruct (facts_cache w); destruct (external_cache w); reflexivity.
Qed.

End WithEnvironment.

End CacheFacts.

Section RebuildClaims.
Import Processing Vocabulary BuilderFacts CacheFacts.
Local Open Scope list_scope.

Variable cfg : Config.t.
Variable split_text : string -> list string.
Variable embed_ok : nat -> bool.
Variable save_outcome : nat -> SaveOutcome.


End RebuildClaims.


Section RebuildRuns.
Import Processing Pipeline Vocabulary BuilderFacts CacheFacts.
Local Open Scope list_scope.



(** With the embedding service down during that second build, the build
    raises and the facts index is gone, while the flag stays set. *)
Example second_build_can_lose_the_facts_index :
  let save := SampleBuild.first_save_breaks in
  let up_twice := fun n => n <? 2 in
  let first := initialize_vectorstores Config.config SampleBuild.split_whole
                 up_twice save new_pipeline SampleBuild.world in
  let second := initialize_vectorstores Config.config SampleBuild.split_whole
                  up_twice save (snd (fst first)) (snd first) in
  fst (fst first) = Returned
  /\ is_none (facts_vectorstore (pl_doc_processor (snd (fst first)))) = false
  /\ fst (fst second) = Raised
  /\ facts_vectorstore (pl_doc_processor (snd (fst second))) = None
  /\ vectorstores_ready (snd (fst second)) = true.
Proof. cbn zeta. repeat split; reflexivity. Qed.

End RebuildRuns.

(* ================================================================== *)
(** * Further properties of the code *)
(* ================================================================== *)

(** ** Strings and the number pattern *)

Module ScanFacts.
Import PyStr PyStrFacts MoreVocabulary.

Lemma contains_refl (s : string) : contains s s = true.
Proof. apply contains_iff. exists "", "". cbn. now rewrite append_nil_r. Qed.

Lemma contains_trans (a b c : string) :
  contains a b = true -> contains b c = true -> contains a c = true.
Proof.
  rewrite !contains_iff. intros [p1 [q1 ->]] [p2 [q2 ->]].
  exists (p2 ++ p1), (q1 ++ q2). now rewrite !append_assoc.
Qed.

Lemma contains_suffix (needle pre s : string) :
  contains needle s = true -> contains needle (pre ++ s) = true.
Proof.
  rewrite !contains_iff. intros [p [q ->]]. exists (pre ++ p), q.
  now rewrite !append_assoc.
Qed.

Lemma contains_prefix_part (needle rest : string) :
  contains needle (needle ++ rest) = true.
Proof. apply contains_iff. now exists "", rest. Qed.

Lemma rev_onto_spec (acc s : string) : rev_onto acc s = rev s ++ acc.
Proof.
  unfold rev. revert acc; induction s as [|c s IH]; intros acc; cbn [rev_onto].
  - reflexivity.
  - rewrite (IH (String c acc)), (IH (String c "")), append_assoc. reflexivity.
Qed.

Lemma rev_cons (c : ascii) (s : string) : rev (String c s) = rev s ++ String c "".
Proof. unfold rev at 1. cbn [rev_onto]. apply rev_onto_spec. Qed.

Lemma start_at_consumed (c : ascii) (t : string) :
  exists pre, String c t = pre ++ consumed (start_at c) ++ t.
Proof.
  unfold start_at. destruct (is_digit_or_comma c).
  - now exists "".
  - now exists (String c "").
Qed.

(** One step of the scanner: what it emits is a prefix of the text read
    so far, and the text it keeps is the end of that text. *)
Lemma scan_step_consumed (st : scan_state) (c : ascii) (t : string) :
  (forall tok, In tok (fst (scan_step st c)) ->
               exists post, consumed st ++ String c t = tok ++ post)
  /\ exists pre, consumed st ++ String c t
                 = pre ++ consumed (snd (scan_step st c)) ++ t.
Proof.
  destruct st as [|acc|acc|acc]; cbn [scan_step consumed].
  - split; [intros tok []|]. apply start_at_consumed.
  - destruct (is_digit_or_comma c); [|destruct (is_dot c) eqn:Ed]; cbn [fst snd consumed].
    + split; [intros tok []|]. exists "". rewrite rev_cons, append_assoc. reflexivity.
    + split; [intros tok []|]. exists "".
      apply Ascii.eqb_eq in Ed. subst c. rewrite append_assoc. reflexivity.
    + split.
      * intros tok [<- | []]. now exists (String c t).
      * exists (rev acc ++ String c ""). rewrite append_assoc. reflexivity.
  - destruct (is_digit c); cbn [fst snd consumed].
    + split; [intros tok []|]. exists "".
      rewrite !rev_cons, !append_assoc. reflexivity.
    + split.
      * intros tok [<- | []]. exists ("." ++ String c t). now rewrite append_assoc.
      * destruct (start_at_consumed c t) as [pre H].
        exists ((rev acc ++ ".") ++ pre). rewrite H. now rewrite !append_assoc.
  - destruct (is_digit c); cbn [fst snd consumed].
    + split; [intros tok []|]. exists "". rewrite rev_cons, append_assoc. reflexivity.
    + split.
      * intros tok [<- | []]. now exists (String c t).
      * destruct (start_at_consumed c t) as [pre H].
        exists (rev acc ++ pre). rewrite H. now rewrite !append_assoc.
Qed.

Lemma scan_tokens_occur (s : string) (st : scan_state) (tok : string) :
  In tok (scan st s) -> contains tok (consumed st ++ s) = true.
Proof.
  revert st; induction s as [|c t IH]; intros st; cbn [scan].
  - destruct st; cbn; try tauto; intros [<- | []]; rewrite ?append_nil_r;
      try apply contains_refl.
    apply contains_prefix_part.
  - destruct (scan_step st c) as [out st'] eqn:E.
    destruct (scan_step_consumed st c t) as [Hout [pre Hrest]].
    rewrite E in Hout, Hrest. cbn [fst snd] in Hout, Hrest.
    intros Hin. apply in_app_or in Hin as [Hin | Hin].
    + destruct (Hout tok Hin) as [post ->]. apply contains_prefix_part.
    + rewrite Hrest. apply contains_suffix. now apply IH.
Qed.

(** Lower-casing touches no character of the number pattern. *)
Lemma lower_ascii_class (c : ascii) :
  lower_ascii c = c
  \/ (is_digit_or_comma c = false /\ is_dot c = false /\ is_digit c = false
      /\ is_digit_or_comma (lower_ascii c) = false
      /\ is_dot (lower_ascii c) = false /\ is_digit (lower_ascii c) = false).
Proof.
  destruct c as [[] [] [] [] [] [] [] []];
    first [ left; reflexivity | right; repeat split; reflexivity ].
Qed.

Lemma scan_step_lower (st : scan_state) (c : ascii) :
  scan_step st (lower_ascii c) = scan_step st c.
Proof.
  destruct (lower_ascii_class c) as [-> | [H1 [H2 [H3 [H4 [H5 H6]]]]]];
    [reflexivity|].
  destruct st; cbn [scan_step]; unfold start_at;
    now rewrite ?H1, ?H2, ?H3, ?H4, ?H5, ?H6.
Qed.

Lemma scan_lower (s : string) (st : scan_state) : scan st (lower s) = scan st s.
Proof.
  revert st; induction s as [|c t IH]; intros st; cbn [scan lower]; [reflexivity|].
  rewrite scan_step_lower. destruct (scan_step st c) as [out st'].
  now rewrite IH.
Qed.

End ScanFacts.

(** ** More on the guardrail engine *)

Module GuardrailsMore.
Import PyStr PyStrFacts ScanFacts Guardrails Vocabulary GuardrailsFacts.

Lemma filter_nil_iff {A : Type} (f : A -> bool) (l : list A) :
  filter f l = [] <-> forall x, In x l -> f x = false.
Proof.
  induction l as [|a l IH]; cbn [filter].
  - split; [intros _ x [] | reflexivity].
  - destruct (f a) eqn:E.
    + split; [discriminate|]. intros H. specialize (H a (or_introl eq_refl)).
      congruence.
    + rewrite IH. split.
      * intros H x [<- | Hx]; auto.
      * intros H x Hx. apply H. now right.
Qed.

Lemma lower_concat (sep : string) (l : list string) :
  lower (String.concat sep l) = String.concat (lower sep) (map lower l).
Proof.
  induction l as [|x l IH]; [reflexivity|].
  destruct l as [|y l]; [reflexivity|].
  cbn [String.concat map] in *. now rewrite !lower_append, IH.
Qed.

Lemma findall_numbers_lower (s : string) :
  findall_numbers (lower s) = findall_numbers s.
Proof. apply scan_lower. Qed.

Lemma findall_numbers_occur (s tok : string) :
  In tok (findall_numbers s) -> contains tok s = true.
Proof. intros H. exact (scan_tokens_occur s Outside tok H). Qed.

(** What [validate_answer] computes, once the sources are known not to
    be empty. *)
Lemma validate_answer_nonempty (answer : string) (sources : list Document) :
  sources <> [] ->
  validate_answer answer sources
  = match filter (fun indicator =>
                    contains indicator (lower answer)
                    && negb (contains indicator
                               (lower (String.concat " " (map page_content sources)))))
                 fabrication_indicators with
    | _ :: _ => false
    | [] => negb (contains_specific_numbers
                    answer (lower (String.concat " " (map page_content sources))))
    end.
Proof.
  intros Hne. unfold validate_answer. destruct sources; [congruence|].
  destruct (filter _ fabrication_indicators); [|reflexivity].
  now destruct (contains_specific_numbers _ _).
Qed.

End GuardrailsMore.

Section GuardrailExtras.
Import PyStr PyStrFacts ScanFacts Guardrails Vocabulary GuardrailsFacts GuardrailsMore.



(** X2.  [validate_answer] does not look at letter case: lower-casing the
    answer and the content of every source changes nothing. *)
Theorem validate_answer_ignores_letter_case (answer : string) (sources : list Document) :
  validate_answer
    (lower answer)
    (map (fun doc => {| page_content := lower (page_content doc);
                        metadata := metadata doc |}) sources)
  = validate_answer answer sources.
Proof.
  destruct sources as [|d ds]; [reflexivity|].
  set (srcs := d :: ds).
  assert (Hne : srcs <> []) by discriminate.
  assert (Hne' : map (fun doc => {| page_content := lower (page_content doc);
                                    metadata := metadata doc |}) srcs <> [])
    by discriminate.
  rewrite (validate_answer_nonempty _ _ Hne), (validate_answer_nonempty _ _ Hne').
  rewrite map_map. cbn [page_content].
  rewrite !lower_concat, map_map.
  rewrite (map_ext (fun x => lower (lower (page_content x)))
                   (fun x => lower (page_content x)))
    by (intros; apply lower_idem).
  rewrite <- (map_map page_content lower), lower_idem.
  unfold contains_specific_numbers. now rewrite findall_numbers_lower.
Qed.



(** X4.  With sources at hand, an answer whose lower-cased text is found
    in the lower-cased text of the sources passes [validate_answer]:
    quoting the sources is never rejected. *)
Theorem validate_answer_accepts_text_of_the_sources
  (answer : string) (sources : list Document) :
  sources <> [] ->
  contains (lower answer) (lower (String.concat " " (map page_content sources))) = true ->
  validate_answer answer sources = true.
Proof.
  intros Hne Hq. rewrite (validate_answer_nonempty _ _ Hne).
  set (src := lower (String.concat " " (map page_content sources))) in *.
  assert (E : filter (fun indicator => contains indicator (lower answer)
                                       && negb (contains indicator src))
                     fabrication_indicators = []).
  { apply filter_nil_iff. intros ind _.
    destruct (contains ind (lower answer)) eqn:Hc; [|reflexivity].
    now rewrite (contains_trans _ _ _ Hc Hq). }
  rewrite E.
  destruct (contains_specific_numbers answer src) eqn:En; [|reflexivity].
  apply contains_specific_numbers_true in En as [tok [Hin [Habsent _]]].
  rewrite <- findall_numbers_lower in Hin.
  apply findall_numbers_occur in Hin.
  now rewrite (contains_trans _ _ _ Hin Hq) in Habsent.
Qed.

Lemma validate_answer_accepts_text_of_the_sources_witness :
  let sources := [doc_of "The Seal costs roughly 1,500 a month in 2021.";
                  doc_of "It seats 5."] in
  sources <> []
  /\ contains (lower "COSTS ROUGHLY 1,500 A MONTH IN 2021. It seats 5")
              (lower (String.concat " " (map page_content sources))) = true
  /\ validate_answer "COSTS ROUGHLY 1,500 A MONTH IN 2021. It seats 5" sources = true.
Proof.
  cbn zeta.
  pose (sources := [doc_of "The Seal costs roughly 1,500 a month in 2021.";
                    doc_of "It seats 5."]).
  assert (Hne : sources <> []) by discriminate.
  assert (Hq : contains (lower "COSTS ROUGHLY 1,500 A MONTH IN 2021. It seats 5")
                        (lower (String.concat " " (map page_content sources))) = true)
    by reflexivity.
  split; [exact Hne | split; [exact Hq|]].
  exact (validate_answer_accepts_text_of_the_sources _ sources Hne Hq).
Defined.

End GuardrailExtras.

Module ScanShape.
Import PyStr PyStrFacts MoreVocabulary ScanFacts.

Lemma rev_nonempty (s : string) : s <> "" -> rev s <> "".
Proof.
  destruct s as [|c s]; [congruence|]. intros _. rewrite rev_cons.
  now destruct (rev s).
Qed.

Lemma start_at_started (c : ascii) : started (start_at c).
Proof. unfold start_at. destruct (is_digit_or_comma c); cbn; [discriminate | exact I]. Qed.

Lemma scan_step_started (st : scan_state) (c : ascii) :
  started st ->
  (forall tok, In tok (fst (scan_step st c)) -> tok <> "")
  /\ started (snd (scan_step st c)).
Proof.
  destruct st as [|acc|acc|acc]; cbn [scan_step started]; intros Hst.
  - split; [intros tok [] | apply start_at_started].
  - destruct (is_digit_or_comma c); [|destruct (is_dot c)]; cbn [fst snd started].
    + split; [intros tok [] | discriminate].
    + split; [intros tok [] | assumption].
    + split; [intros tok [<- | []]; now apply rev_nonempty | exact I].
  - destruct (is_digit c); cbn [fst snd started].
    + split; [intros tok [] | discriminate].
    + split; [intros tok [<- | []]; now apply rev_nonempty | apply start_at_started].
  - destruct (is_digit c); cbn [fst snd started].
    + split; [intros tok [] | discriminate].
    + split; [intros tok [<- | []]; now apply rev_nonempty | apply start_at_started].
Qed.

Lemma scan_tokens_nonempty (s : string) (st : scan_state) (tok : string) :
  started st -> In tok (scan st s) -> tok <> "".
Proof.
  revert st; induction s as [|c t IH]; intros st Hst; cbn [scan].
  - destruct st; cbn in *; try tauto; intros [<- | []]; now apply rev_nonempty.
  - destruct (scan_step_started st c Hst) as [Hout Hst'].
    destruct (scan_step st c) as [out st']. cbn [fst snd] in *.
    intros Hin. apply in_app_or in Hin as [Hin | Hin]; [now apply Hout|].
    now apply (IH st').
Qed.

End ScanShape.

Section NumberTokens.
Import PyStr PyStrFacts ScanFacts ScanShape GuardrailsMore.



End NumberTokens.

(** ** More on document ingestion *)

Module IngestionMore.
Import PyStr PyStrFacts Processing Pipeline Vocabulary MoreVocabulary ProcessingFacts.

Lemma to_uint_nonnil (n : nat) : Nat.to_uint n <> Decimal.Nil.
Proof.
  rewrite <- (DecimalNat.Unsigned.of_to n) at 1.
  rewrite DecimalNat.Unsigned.to_of. apply DecimalFacts.unorm_nonnil.
Qed.

(** Distinct numbers are written differently. *)
Lemma str_of_nat_inj (n m : nat) : str_of_nat n = str_of_nat m -> n = m.
Proof.
  unfold str_of_nat. intros H.
  apply DecimalNat.Unsigned.to_uint_inj.
  pose proof (NilZero.usu _ (to_uint_nonnil n)) as Hn.
  pose proof (NilZero.usu _ (to_uint_nonnil m)) as Hm.
  rewrite H in Hn. congruence.
Qed.

Lemma numbered_inj (tag : string) (n m : nat) :
  tag ++ str_of_nat (n + 1) = tag ++ str_of_nat (m + 1) -> n = m.
Proof.
  induction tag as [|c p IH]; cbn [append]; intros H.
  - apply str_of_nat_inj in H. lia.
  - injection H as H. now apply IH.
Qed.

Lemma dict_get_set_other (k k' v : string) (d : metadata_t) :
  k <> k' -> dict_get k (dict_set k' v d) = dict_get k d.
Proof.
  intros Hk. induction d as [|[k0 v0] d IH]; cbn [dict_set dict_get].
  - apply String.eqb_neq in Hk. now rewrite Hk.
  - destruct (String.eqb k' k0) eqn:E; cbn [dict_get].
    + apply String.eqb_eq in E. subst k0.
      apply String.eqb_neq in Hk. now rewrite Hk.
    + now rewrite IH.
Qed.

Lemma nth_error_combine_seq {A : Type} (l : list A) (s i : nat) :
  nth_error (combine (seq s (length l)) l) i
  = option_map (fun x => (s + i, x)) (nth_error l i).
Proof.
  revert s i; induction l as [|a l IH]; intros s i; cbn [length seq combine].
  - now destruct i.
  - destruct i as [|i]; cbn [nth_error option_map].
    + now rewrite Nat.add_0_r.
    + rewrite IH. now rewrite Nat.add_succ_r.
Qed.

Lemma map_index_combine_seq {A B : Type} (h : nat -> B) (l : list A) (s : nat) :
  map (fun p => h (fst p)) (combine (seq s (length l)) l) = map h (seq s (length l)).
Proof.
  revert s; induction l as [|a l IH]; intros s; cbn; [reflexivity | now rewrite IH].
Qed.

Lemma NoDup_map_of_inj {A B : Type} (f : A -> B) (l : list A) :
  (forall x y, f x = f y -> x = y) -> NoDup l -> NoDup (map f l).
Proof.
  intros Hinj H. induction H as [|a l Hnot _ IH]; cbn [map]; constructor; [|exact IH].
  intros Hin. apply in_map_iff in Hin as [y [Hy Hin]].
  apply Hinj in Hy. now subst y.
Qed.

(** Lists made for the entries of [enumerate], each marked with the
    position it was made for, have no key in common. *)
Lemma NoDup_flat_map_combine_seq {A B K : Type}
      (key : B -> K) (F : nat -> A -> list B) (owner : K -> nat -> Prop) :
  (forall k i j, owner k i -> owner k j -> i = j) ->
  (forall i x b, In b (F i x) -> owner (key b) i) ->
  (forall i x, NoDup (map key (F i x))) ->
  forall l s,
    NoDup (map key (flat_map (fun p => F (fst p) (snd p))
                             (combine (seq s (length l)) l))).
Proof.
  intros Hfun Hown Hnd l.
  induction l as [|a l IH]; intros s; cbn [length seq combine flat_map map].
  - constructor.
  - cbn [fst snd]. rewrite map_app. apply NoDup_app; [apply Hnd | apply IH |].
    intros k Hk1 Hk2.
    apply in_map_iff in Hk1 as [b1 [<- Hb1]].
    apply in_map_iff in Hk2 as [b2 [Heq Hb2]].
    apply in_flat_map in Hb2 as [[i x] [Hp Hb2]]. cbn [fst snd] in Hb2.
    apply in_combine_l in Hp. apply in_seq in Hp.
    pose proof (Hown _ _ _ Hb1) as H1. pose proof (Hown _ _ _ Hb2) as H2.
    rewrite Heq in H2. pose proof (Hfun _ _ _ H1 H2). lia.
Qed.

End IngestionMore.

Section IngestionExtras.
Import PyStr PyStrFacts Processing Pipeline Vocabulary MoreVocabulary.
Import ProcessingFacts IngestionMore.

Variable cfg : Config.t.
Variable split_text : string -> list string.

(** X6.  [load_facts] makes one document for each chunk the splitter
    returns, in order and with the chunk as content; the document at
    position [i] (from 0) is cited as source "facts", document "F" and
    chunk "c" followed by [i + 1]; no two documents share a document id;
    and a file that cannot be read gives no document. *)
Theorem load_facts_numbers_the_chunks (file_path content : string) :
  let docs := load_facts split_text file_path (Some content) in
  map page_content docs = split_text content
  /\ (forall i doc,
         nth_error docs i = Some doc ->
         citation_of doc
         = Some {| source := "facts";
                   doc_id := "F" ++ str_of_nat (i + 1);
                   chunk_id := "c" ++ str_of_nat (i + 1) |})
  /\ NoDup (map (fun doc => dict_get "doc_id" (metadata doc)) docs)
  /\ load_facts split_text file_path None = [].
Proof.
  cbn zeta. unfold load_facts, enumerate. split; [|split; [|split]].
  - rewrite map_map.
    rewrite (map_ext _ snd) by (now intros [i text]).
    apply map_snd_combine_seq.
  - intros i doc. rewrite nth_error_map, nth_error_combine_seq.
    destruct (nth_error (split_text content) i) as [text|]; [|discriminate].
    cbn. now intros [= <-].
  - rewrite map_map.
    rewrite (map_ext _ (fun p => Some ("F" ++ str_of_nat (fst p + 1))))
      by (now intros [i text]).
    rewrite (map_index_combine_seq (fun i => Some ("F" ++ str_of_nat (i + 1)))).
    apply NoDup_map_of_inj; [|apply seq_NoDup].
    intros i j H. apply (numbered_inj "F"). congruence.
  - reflexivity.
Qed.

(** The keys of the documents [_create_document_chunks] makes. *)
Lemma create_document_chunks_keys (content : string) (md : metadata_t) (doc : Document) :
  In doc (create_document_chunks cfg split_text content md) ->
  dict_get "source" (metadata doc) = dict_get "source" md
  /\ dict_get "doc_id" (metadata doc) = dict_get "doc_id" md
  /\ (dict_get "chunk_id" (metadata doc) = dict_get "chunk_id" md
      \/ exists j, dict_get "chunk_id" (metadata doc) = Some ("c" ++ str_of_nat (j + 1))).
Proof.
  unfold create_document_chunks.
  destruct (Config.chunk_size cfg <? len content).
  - intros H. apply in_flat_map in H as [[j text] [_ H]].
    destruct (20 <? len (strip text)); [|destruct H].
    destruct H as [<- | []]. cbn [metadata].
    rewrite !dict_get_set_other by discriminate.
    split; [reflexivity | split; [reflexivity|]].
    right. exists j. apply dict_get_set.
  - intros [<- | []]. cbn. auto.
Qed.

Lemma create_document_chunks_NoDup (content : string) (md : metadata_t) :
  NoDup (map (fun doc => dict_get "chunk_id" (metadata doc))
             (create_document_chunks cfg split_text content md)).
Proof.
  unfold create_document_chunks.
  destruct (Config.chunk_size cfg <? len content).
  - unfold enumerate.
    rewrite (flat_map_ext _ (fun p => keep_chunk md (fst p, snd p)))
      by (now intros [j text]).
    apply (NoDup_flat_map_combine_seq
             (fun doc => dict_get "chunk_id" (metadata doc))
             (fun j text => keep_chunk md (j, text))
             (fun k j => k = Some ("c" ++ str_of_nat (j + 1)))).
    + intros k i j -> H. apply (numbered_inj "c"). congruence.
    + intros j text b. cbn [keep_chunk].
      destruct (20 <? len (strip text)); [|intros []].
      intros [<- | []]. cbn [metadata chunk_at]. apply dict_get_set.
    + intros j text. cbn [keep_chunk].
      destruct (20 <? len (strip text)); cbn; repeat constructor. tauto.
  - cbn. repeat constructor. tauto.
Qed.

(** The keys of the documents made for the record at position [i]. *)
Lemma load_external_item_keys (file_path : string) (i : nat) (item : Item)
      (doc : Document) :
  In doc (load_external_item cfg split_text file_path i item) ->
  20 <= len (strip (extract_transcript_content item))
  /\ dict_get "source" (metadata doc) = Some "external"
  /\ dict_get "doc_id" (metadata doc) = Some ("E" ++ str_of_nat (i + 1))
  /\ exists j, dict_get "chunk_id" (metadata doc)
               = Some ("c" ++ str_of_nat (j + 1)).
Proof.
  unfold load_external_item.
  destruct (len (extract_transcript_content item) =? 0); [intros []|].
  destruct (len (strip (extract_transcript_content item)) <? 20) eqn:E;
    [intros []|]. cbn [orb].
  intros H. apply create_document_chunks_keys in H as [Hs [Hd Hc]].
  apply Nat.ltb_ge in E. split; [exact E|].
  split; [exact Hs | split; [exact Hd|]].
  destruct Hc as [Hc | Hc]; [|exact Hc]. exists 0. exact Hc.
Qed.

Lemma load_facts_keys (file_path : string) (content : option string) (doc : Document) :
  In doc (load_facts split_text file_path content) ->
  dict_get "source" (metadata doc) = Some "facts"
  /\ exists i, dict_get "doc_id" (metadata doc) = Some ("F" ++ str_of_nat (i + 1))
               /\ dict_get "chunk_id" (metadata doc) = Some ("c" ++ str_of_nat (i + 1)).
Proof.
  unfold load_facts. destruct content as [content|]; [|intros []].
  intros H. apply in_map_iff in H as [[i text] [<- _]]. cbn.
  split; [reflexivity|]. now exists i.
Qed.


End IngestionExtras.

Module CitationFacts.
Import PyStr Processing Pipeline MoreVocabulary.

Lemma all_some_total {A B : Type} (f : A -> option B) (l : list A) :
  (forall x, In x l -> f x <> None) ->
  exists r, all_some (map f l) = Some r /\ length r = length l.
Proof.
  induction l as [|a l IH]; intros H; cbn [map all_some].
  - now exists [].
  - destruct (f a) as [b|] eqn:E; [|elim (H a (or_introl eq_refl) E)].
    destruct IH as [r [-> Hr]]; [intros x Hx; apply H; now right|].
    exists (b :: r). cbn. now rewrite Hr.
Qed.

Lemma all_some_missing {A B : Type} (f : A -> option B) (l : list A) (x : A) :
  In x l -> f x = None -> all_some (map f l) = None.
Proof.
  induction l as [|a l IH]; [intros []|].
  intros [-> | Hin] Hx; cbn [map all_some].
  - now rewrite Hx.
  - destruct (f a); [|reflexivity]. now rewrite (IH Hin Hx).
Qed.

Lemma citable_citation (doc : Document) : citable doc -> citation_of doc <> None.
Proof.
  unfold citable, citation_of. intros [H1 [H2 H3]].
  destruct (dict_get "source" _); [|congruence].
  destruct (dict_get "doc_id" _); [|congruence].
  destruct (dict_get "chunk_id" _); [discriminate | congruence].
Qed.

Lemma citable_context (doc : Document) : citable doc -> context_entry doc <> None.
Proof.
  unfold citable, context_entry. intros [H1 [H2 H3]].
  destruct (dict_get "source" _); [|congruence].
  destruct (dict_get "doc_id" _); [|congruence].
  destruct (dict_get "chunk_id" _); [discriminate | congruence].
Qed.

End CitationFacts.

Section CitationExtras.
Import PyStr Processing Pipeline MoreVocabulary CitationFacts IngestionMore.

Variable cfg : Config.t.
Variable split_text : string -> list string.

(** X8.  Passages that come from [load_facts] or [load_external] can
    always be cited: on a list of such passages [_extract_citations]
    returns one citation for each, and [_generate_llm_response] reaches
    the generation service, with one call, instead of failing on a
    missing key. *)
Theorem ingested_passages_are_always_citable
  (facts_path external_path : string) (content : option string) (file : JsonFile)
  (sources : list Document) :
  (forall doc, In doc sources ->
               In doc (load_facts split_text facts_path content)
               \/ In doc (load_external cfg split_text external_path file)) ->
  (exists cs, extract_citations sources = ([], Some cs)
              /\ length cs = length sources)
  /\ forall llm_invoke question,
       exists prompt,
         generate_llm_response llm_invoke question sources
         = ([Generate prompt], llm_invoke prompt).
Proof.
  intros Hsrc.
  assert (Hcit : forall doc, In doc sources -> citable doc).
  { intros doc Hin. destruct (Hsrc doc Hin) as [H | H].
    - apply load_facts_keys in H as [Hs [i [Hd Hc]]].
      unfold citable. rewrite Hs, Hd, Hc. repeat split; discriminate.
    - destruct file as [| |data]; try destruct H.
      unfold load_external in H. apply in_flat_map in H as [[i item] [_ H]].
      apply load_external_item_keys in H as [_ [Hs [Hd [j Hc]]]].
      unfold citable. rewrite Hs, Hd, Hc. repeat split; discriminate. }
  split.
  - destruct (all_some_total citation_of sources) as [cs [Hcs Hlen]].
    { intros doc Hin. apply citable_citation. now apply Hcit. }
    exists cs. unfold extract_citations, lift. now rewrite Hcs.
  - intros llm_invoke question.
    destruct (all_some_total context_entry sources) as [entries [He _]].
    { intros doc Hin. apply citable_context. now apply Hcit. }
    exists (prompt_format (String.concat (nl ++ nl) entries) question).
    unfold generate_llm_response. rewrite He.
    rewrite PipelineFacts.bind_lift_some. reflexivity.
Qed.

End CitationExtras.

(** ** More on index construction *)

Module BuilderMore.
Import Processing Vocabulary BuilderFacts CacheFacts.
Local Open Scope list_scope.

Section Loop.
Variable cfg : Config.t.
Variable embed_ok : nat -> bool.
Variable remaining_docs : list Document.
Variable batch_size : nat.

(** Whatever the embedding service does, the batch loop sends one request
    for each batch, adds documents of the list it walks only, each at most
    once and in order, and pauses at most once for each batch, for one
    retry delay or two. *)
Lemma loop_general (fuel i : nat) (vs vs' : VectorStore) (w w' : World) :
  let batches := range_from fuel i (length remaining_docs) batch_size in
  fold_left (add_batch cfg embed_ok remaining_docs batch_size) batches (vs, w)
  = (vs', w') ->
  exists kept ds,
    vs' = vs ++ kept
    /\ w' = advance (length batches) ds w
    /\ subseq kept (skipn i remaining_docs)
    /\ length ds <= length batches
    /\ Forall (fun d => d = Config.retry_delay cfg
                        \/ d = (Config.retry_delay cfg * 2)%Q) ds.
Proof.
  revert i vs w; induction fuel as [|fuel IH]; intros i vs w; cbn zeta;
    cbn [range_from].
  - cbn. intros [= <- <-]. exists [], []. rewrite app_nil_r, advance_nothing.
    repeat split; [apply subseq_nil_l | cbn; lia | constructor].
  - destruct (i <? length remaining_docs).
    + cbn [fold_left length].
      destruct (embed_ok (embed_calls w)) eqn:E.
      * rewrite (add_batch_ok cfg embed_ok remaining_docs batch_size i vs w E).
        intros H. apply IH in H as [kept [ds [-> [-> [Hs [Hl Hf]]]]]].
        exists (firstn batch_size (skipn i remaining_docs) ++ kept).
        eexists. rewrite advance_advance, <- app_assoc.
        split; [reflexivity|]. split; [reflexivity|]. split; [|split].
        -- rewrite (skipn_split i batch_size remaining_docs) at 2.
           apply subseq_app; [apply subseq_refl | exact Hs].
        -- rewrite length_app.
           destruct (i + batch_size <? length remaining_docs); cbn [length]; lia.
        -- apply Forall_app. split; [|exact Hf].
           destruct (i + batch_size <? length remaining_docs); repeat constructor.
      * rewrite (add_batch_failed cfg embed_ok remaining_docs batch_size i vs w E).
        intros H. apply IH in H as [kept [ds [-> [-> [Hs [Hl Hf]]]]]].
        exists kept. eexists. rewrite advance_advance.
        split; [reflexivity|]. split; [reflexivity|]. split; [|split].
        -- rewrite (skipn_split i batch_size remaining_docs).
           change kept with ([] ++ kept).
           apply subseq_app; [apply subseq_nil_l | exact Hs].
        -- cbn [length app]. lia.
        -- constructor; [now right | exact Hf].
    + cbn. intros [= <- <-]. exists [], []. rewrite app_nil_r, advance_nothing.
      repeat split; [apply subseq_nil_l | cbn; lia | constructor].
Qed.

End Loop.

End BuilderMore.

Section BuilderExtras.
Import Processing Vocabulary BuilderFacts CacheFacts BuilderMore.
Local Open Scope list_scope.

Variable cfg : Config.t.
Variable embed_ok : nat -> bool.

(** X11.  Once the index is constructed from the first batch, the build
    returns an index whatever happens to the inserts.  The index holds
    the first batch followed by documents of the rest of the list, none
    twice and in their order; every batch was sent to the embedding
    service exactly once, so that no batch is retried; and there is at
    most one pause for each insert, of one retry delay or of two. *)
Theorem batched_build_sends_each_batch_once (documents : list Document) (w : World) :
  let batch_size := Nat.min (Config.batch_size cfg) (length documents) in
  let batches := py_range 0 (length (skipn batch_size documents)) batch_size in
  documents <> [] ->
  0 < Config.batch_size cfg ->
  embed_ok (embed_calls w) = true ->
  exists kept pauses,
    create_vectorstore_batched cfg embed_ok documents w
    = (Some (firstn batch_size documents ++ kept),
       advance (S (length batches)) pauses w)
    /\ subseq kept (skipn batch_size documents)
    /\ subseq (firstn batch_size documents ++ kept) documents
    /\ length pauses <= length batches
    /\ Forall (fun d => d = Config.retry_delay cfg
                        \/ d = (Config.retry_delay cfg * 2)%Q) pauses.
Proof.
  intros batch_size batches Hne Hpos Hinit.
  assert (Hbs : 0 < batch_size).
  { subst batch_size. destruct documents; [congruence | cbn [length]; lia]. }
  rewrite (create_vectorstore_batched_nonempty _ _ _ _ Hne). cbn zeta.
  fold batch_size. unfold from_documents. rewrite Hinit.
  replace (batch_size =? 0) with false by (symmetry; apply Nat.eqb_neq; lia).
  unfold py_range.
  destruct (fold_left _ _ _) as [vs' w'] eqn:Hfold.
  apply loop_general in Hfold as [kept [ds [-> [-> [Hs [Hl Hf]]]]]].
  fold (py_range 0 (length (skipn batch_size documents)) batch_size) in *.
  fold batches in Hl |- *.
  exists kept, ds. rewrite count_embed_advance, advance_advance.
  unfold slice. rewrite Nat.sub_0_r. cbn [skipn app Nat.add] in *.
  split; [reflexivity|]. split; [exact Hs|]. split; [|split; assumption].
  now apply subseq_firstn_app.
Qed.

End BuilderExtras.

(** ** More on the orchestrator *)

Module PipelineMore.
Import PyStr PyStrFacts Processing Pipeline Vocabulary MoreVocabulary PipelineFacts.

Section WithCollaborators.
Variable cfg : Config.t.
Variable similarity_search : VectorStore -> string -> nat -> option (list Document).
Variable llm_invoke : string -> option string.
Variable dp : DocumentProcessor.

Lemma retrieve_facts_run (st : RAGState) :
  retrieve_facts cfg similarity_search dp st
  = match facts_vectorstore dp with
    | Some vs =>
        match similarity_search vs (st_question st) (Config.top_k_retrieval cfg) with
        | Some docs =>
            ([SearchFacts (st_question st) (Config.top_k_retrieval cfg)],
             Some (set_facts_result docs (needs_external_for docs) st))
        | None => ([SearchFacts (st_question st) (Config.top_k_retrieval cfg)], None)
        end
    | None => ([], Some (set_facts_result [] true st))
    end.
Proof.
  unfold retrieve_facts, needs_external_for.
  destruct (facts_vectorstore dp) as [vs|]; [|reflexivity].
  destruct (similarity_search vs _ _) as [docs|]; [|reflexivity].
  rewrite bind_call_some. destruct docs as [|d ds]; [reflexivity|].
  cbn [length Nat.eqb negb andb].
  now destruct (existsb _ (d :: ds)).
Qed.

Lemma retrieve_external_run (st : RAGState) :
  retrieve_external cfg similarity_search dp st
  = if st_needs_external st && negb (st_is_sensitive st) then
      match external_vectorstore dp with
      | Some vs =>
          match similarity_search vs (st_question st) (Config.top_k_retrieval cfg) with
          | Some docs =>
              ([SearchExternal (st_question st) (Config.top_k_retrieval cfg)],
               Some (set_retrieved_external docs st))
          | None =>
              ([SearchExternal (st_question st) (Config.top_k_retrieval cfg)], None)
          end
      | None => ([], Some (set_retrieved_external [] st))
      end
    else ([], Some (set_retrieved_external [] st)).
Proof.
  unfold retrieve_external.
  destruct (st_needs_external st && negb (st_is_sensitive st)); [|reflexivity].
  destruct (external_vectorstore dp) as [vs|]; [|reflexivity].
  destruct (similarity_search vs _ _) as [docs|]; [|reflexivity].
  now rewrite bind_call_some.
Qed.

Lemma attempt_run (st : RAGState) (srcs : list Document) :
  attempt llm_invoke st srcs
  = match all_some (map context_entry srcs) with
    | None => ([], Some (error_state st))
    | Some entries =>
        let prompt := prompt_format (String.concat (nl ++ nl) entries) (st_question st) in
        ([Generate prompt],
         Some match llm_invoke prompt with
              | None => error_state st
              | Some a =>
                  if Guardrails.validate_answer a srcs then
                    match all_some (map citation_of srcs) with
                    | Some cs => set_result a "answered" cs st
                    | None => error_state st
                    end
                  else set_result (Guardrails.get_refusal_message "validation_failed")
                                  "validation_failed" [] st
              end)
    end.
Proof.
  unfold attempt, generate_llm_response, extract_citations.
  destruct (all_some (map context_entry srcs)) as [entries|];
    [|rewrite bind_lift_none; reflexivity].
  rewrite bind_lift_some. cbn zeta.
  destruct (llm_invoke _) as [a|]; [|rewrite bind_call_none; reflexivity].
  rewrite bind_call_some.
  destruct (Guardrails.validate_answer a srcs); [|reflexivity].
  destruct (all_some (map citation_of srcs)) as [cs|].
  - rewrite bind_lift_some. reflexivity.
  - rewrite bind_lift_none. reflexivity.
Qed.

Lemma generate_answer_run (st : RAGState) :
  generate_answer llm_invoke st
  = match (st_retrieved_facts st ++ st_retrieved_external st)%list with
    | [] => ([], Some (set_result (Guardrails.get_refusal_message "insufficient_info")
                                  "insufficient_info" [] st))
    | _ :: _ =>
        if st_is_sensitive st && negb (negb (length (st_retrieved_facts st) =? 0))
        then ([], Some (set_result (Guardrails.get_refusal_message "sensitive")
                                   "refused_sensitive" [] st))
        else attempt llm_invoke st
                     (st_retrieved_facts st ++ st_retrieved_external st)%list
    end.
Proof.
  unfold generate_answer.
  fold (attempt llm_invoke st (st_retrieved_facts st ++ st_retrieved_external st)%list).
  destruct (st_retrieved_facts st ++ st_retrieved_external st)%list; reflexivity.
Qed.

(** The calls of [_generate_answer]: none, or one to the generation
    service; and it always returns. *)
Lemma generate_answer_total (st : RAGState) :
  exists r, outcome (generate_answer llm_invoke st) = Some r
            /\ (calls (generate_answer llm_invoke st) = []
                \/ exists p, calls (generate_answer llm_invoke st) = [Generate p]).
Proof.
  rewrite generate_answer_run.
  destruct (st_retrieved_facts st ++ st_retrieved_external st)%list as [|d ds].
  - eexists. split; [reflexivity | now left].
  - destruct (st_is_sensitive st && _).
    + eexists. split; [reflexivity | now left].
    + rewrite attempt_run.
      destruct (all_some (map context_entry (d :: ds))) as [entries|]; cbn zeta.
      * eexists. split; [reflexivity|]. right. eexists. reflexivity.
      * eexists. split; [reflexivity | now left].
Qed.

(** The stages after the facts stage, entered with the calls [l] made so
    far and the facts found. *)
Lemma later_stages_cases (question : string) (l : list Call) (facts : list Document) :
  let sensitive :=
    Guardrails.is_sensitive_question (Config.sensitive_topics cfg) question in
  let run :=
    bind (l, Some (set_facts_result facts (needs_external_for facts)
                                    (initial_state question)))
         (fun s1 => s2 <- check_sensitivity cfg s1 ;;
                    s3 <- retrieve_external cfg similarity_search dp s2 ;;
                    generate_answer llm_invoke s3) in
  (exists vs,
      needs_external_for facts && negb sensitive = true
      /\ external_vectorstore dp = Some vs
      /\ similarity_search vs question (Config.top_k_retrieval cfg) = None
      /\ run = ((l ++ [SearchExternal question (Config.top_k_retrieval cfg)])%list,
                None))
  \/ (exists external,
         external_found cfg similarity_search dp question
                        (needs_external_for facts) sensitive external
         /\ run = ((l ++ external_calls cfg dp question (needs_external_for facts)
                                        sensitive
                      ++ calls (generate_answer llm_invoke
                                  (state_after_retrieval cfg question facts external)))%list,
                   outcome (generate_answer llm_invoke
                              (state_after_retrieval cfg question facts external)))).
Proof.
  cbn zeta. unfold external_found, external_calls, state_after_retrieval.
  rewrite bind_some. unfold check_sensitivity. rewrite bind_ret.
  rewrite retrieve_external_run.
  cbn [st_needs_external st_is_sensitive st_question set_is_sensitive
       set_facts_result initial_state].
  destruct (needs_external_for facts && negb _) eqn:Egate.
  - destruct (external_vectorstore dp) as [vs|] eqn:Eext.
    + destruct (similarity_search vs question _) as [external|] eqn:Es.
      * right. exists external. split; [reflexivity|]. now rewrite bind_some.
      * left. exists vs. split; [reflexivity|]. split; [reflexivity|].
        split; [assumption | reflexivity].
    + right. exists []. split; [reflexivity|].
      fold (@ret RAGState
              (set_retrieved_external []
                 (set_is_sensitive
                    (Guardrails.is_sensitive_question (Config.sensitive_topics cfg)
                                                      question)
                    (set_facts_result facts (needs_external_for facts)
                                      (initial_state question))))).
      rewrite bind_ret. cbn [app]. now destruct (generate_answer _ _).
  - right. exists []. split; [reflexivity|].
    fold (@ret RAGState
            (set_retrieved_external []
               (set_is_sensitive
                  (Guardrails.is_sensitive_question (Config.sensitive_topics cfg)
                                                    question)
                  (set_facts_result facts (needs_external_for facts)
                                    (initial_state question))))).
    rewrite bind_ret. cbn [app]. now destruct (generate_answer _ _).
Qed.

(** The run of the graph: a search raises, or both retrievals end and
    [_generate_answer] runs on what they found. *)
Lemma graph_invoke_cases (question : string) :
  let sensitive :=
    Guardrails.is_sensitive_question (Config.sensitive_topics cfg) question in
  let run := graph_invoke cfg similarity_search llm_invoke dp (initial_state question) in
  (exists vs,
      facts_vectorstore dp = Some vs
      /\ similarity_search vs question (Config.top_k_retrieval cfg) = None
      /\ run = ([SearchFacts question (Config.top_k_retrieval cfg)], None))
  \/ (exists facts vs,
         facts_found cfg similarity_search dp question facts
         /\ needs_external_for facts && negb sensitive = true
         /\ external_vectorstore dp = Some vs
         /\ similarity_search vs question (Config.top_k_retrieval cfg) = None
         /\ run = ((facts_calls cfg dp question
                    ++ [SearchExternal question (Config.top_k_retrieval cfg)])%list,
                   None))
  \/ (exists facts external,
         facts_found cfg similarity_search dp question facts
         /\ external_found cfg similarity_search dp question
                           (needs_external_for facts) sensitive external
         /\ run = ((facts_calls cfg dp question
                    ++ external_calls cfg dp question (needs_external_for facts)
                                      sensitive
                    ++ calls (generate_answer llm_invoke
                                (state_after_retrieval cfg question facts external)))%list,
                   outcome (generate_answer llm_invoke
                              (state_after_retrieval cfg question facts external)))).
Proof.
  cbn zeta. unfold graph_invoke, facts_found, facts_calls.
  rewrite retrieve_facts_run. cbn [st_question initial_state].
  destruct (facts_vectorstore dp) as [fvs|] eqn:Efv.
  - destruct (similarity_search fvs question _) as [facts|] eqn:Ef.
    + destruct (later_stages_cases
                  question [SearchFacts question (Config.top_k_retrieval cfg)] facts)
        as [[vs [H1 [H2 [H3 H4]]]] | [ext [H1 H2]]].
      * right. left. exists facts, vs. repeat split; assumption.
      * right. right. exists facts, ext. repeat split; assumption.
    + left. exists fvs. repeat split; assumption.
  - change true with (needs_external_for []).
    destruct (later_stages_cases question [] [])
      as [[vs [H1 [H2 [H3 H4]]]] | [ext [H1 H2]]].
    + right. left. exists [], vs. repeat split; assumption.
    + right. right. exists [], ext. repeat split; assumption.
Qed.

Lemma all_some_length {A : Type} (l : list (option A)) (r : list A) :
  all_some l = Some r -> length r = length l.
Proof.
  revert r; induction l as [|[a|] l IH]; intros r; cbn [all_some].
  - now intros [= <-].
  - destruct (all_some l) as [r'|]; [|discriminate].
    intros [= <-]. cbn. now rewrite (IH r' eq_refl).
  - discriminate.
Qed.

(** What stands behind a final state with status [answered]. *)
Lemma generate_answer_answered (st r : RAGState) :
  outcome (generate_answer llm_invoke st) = Some r ->
  st_status r = "answered" ->
  exists entries,
    all_some (map context_entry
                  (st_retrieved_facts st ++ st_retrieved_external st)%list)
    = Some entries
    /\ llm_invoke (prompt_format (String.concat (nl ++ nl) entries) (st_question st))
       = Some (st_answer r)
    /\ Guardrails.validate_answer
         (st_answer r) (st_retrieved_facts st ++ st_retrieved_external st)%list = true
    /\ all_some (map citation_of
                     (st_retrieved_facts st ++ st_retrieved_external st)%list)
       = Some (st_citations r).
Proof.
  rewrite generate_answer_run.
  destruct (st_retrieved_facts st ++ st_retrieved_external st)%list as [|d ds];
    [cbn; intros [= <-]; discriminate|].
  destruct (st_is_sensitive st && _); [cbn; intros [= <-]; discriminate|].
  rewrite attempt_run.
  destruct (all_some (map context_entry (d :: ds))) as [entries|];
    [|cbn; intros [= <-]; discriminate].
  cbn zeta. cbn [outcome snd].
  destruct (llm_invoke _) as [a|] eqn:El; [|intros [= <-]; discriminate].
  destruct (Guardrails.validate_answer a (d :: ds)) eqn:Ev;
    [|intros [= <-]; discriminate].
  destruct (all_some (map citation_of (d :: ds))) as [cs|];
    [|intros [= <-]; discriminate].
  intros [= <-] _. exists entries. cbn [st_answer st_citations set_result].
  repeat split; assumption.
Qed.

(** The final states besides [answered] carry a fixed text and no
    citation. *)
Lemma generate_answer_not_answered (st r : RAGState) :
  outcome (generate_answer llm_invoke st) = Some r ->
  st_status r <> "answered" ->
  st_citations r = []
  /\ (st_status r = "insufficient_info"
      /\ (st_retrieved_facts st ++ st_retrieved_external st)%list = []
      /\ calls (generate_answer llm_invoke st) = []
      \/ st_status r = "refused_sensitive"
      \/ st_status r = "validation_failed"
      \/ r = error_state st).
Proof.
  rewrite generate_answer_run.
  destruct (st_retrieved_facts st ++ st_retrieved_external st)%list as [|d ds];
    [cbn; intros [= <-] _; auto|].
  destruct (st_is_sensitive st && _); [cbn; intros [= <-] _; auto|].
  rewrite attempt_run.
  destruct (all_some (map context_entry (d :: ds))) as [entries|];
    [|cbn; intros [= <-] _; auto 6].
  cbn zeta. cbn [outcome snd].
  destruct (llm_invoke _) as [a|]; [|intros [= <-] _; cbn; auto 6].
  destruct (Guardrails.validate_answer a (d :: ds));
    [|intros [= <-] _; cbn; auto 6].
  destruct (all_some (map citation_of (d :: ds))) as [cs|];
    [|intros [= <-] _; cbn; auto 6].
  intros [= <-] H. now elim H.
Qed.

End WithCollaborators.

End PipelineMore.

Section PipelineExtras.
Import PyStr PyStrFacts Processing Pipeline Vocabulary MoreVocabulary.
Import PipelineFacts PipelineMore.
Local Open Scope list_scope.

Variable cfg : Config.t.
Variable similarity_search : VectorStore -> string -> nat -> option (list Document).
Variable llm_invoke : string -> option string.
Variable doc_processor : DocumentProcessor.

Lemma ask_ready (question : string) :
  ask cfg similarity_search llm_invoke doc_processor true question
  = (calls (graph_invoke cfg similarity_search llm_invoke doc_processor
                         (initial_state question)),
     option_map response_of
                (outcome (graph_invoke cfg similarity_search llm_invoke doc_processor
                                       (initial_state question)))).
Proof.
  unfold ask. cbn [negb].
  destruct (graph_invoke _ _ _ _ _) as [l [final|]]; cbn; [|reflexivity].
  now rewrite app_nil_r.
Qed.

(** X12.  The calls of a run of [ask] follow the order of the stages: at
    most one search of the facts index, then at most one search of the
    external index, then at most one call of the generation service,
    the searches being made with the question as it was asked and the
    configured number of results. *)
Theorem ask_makes_its_calls_in_stage_order (vectorstores_ready : bool) (question : string) :
  exists fs es gs,
    calls (ask cfg similarity_search llm_invoke doc_processor
               vectorstores_ready question) = fs ++ es ++ gs
    /\ (fs = [] \/ fs = [SearchFacts question (Config.top_k_retrieval cfg)])
    /\ (es = [] \/ es = [SearchExternal question (Config.top_k_retrieval cfg)])
    /\ (gs = [] \/ exists prompt, gs = [Generate prompt]).
Proof.
  destruct vectorstores_ready.
  2: { exists [], [], []. cbn. auto. }
  rewrite ask_ready. cbn [calls fst].
  assert (Hf : facts_calls cfg doc_processor question = []
               \/ facts_calls cfg doc_processor question
                  = [SearchFacts question (Config.top_k_retrieval cfg)])
    by (unfold facts_calls; destruct (facts_vectorstore doc_processor); auto).
  destruct (graph_invoke_cases cfg similarity_search llm_invoke doc_processor question)
    as [[vs [_ [_ ->]]] | [[facts [vs [_ [_ [_ [_ ->]]]]]] | [facts [ext [_ [_ ->]]]]]];
    cbn [fst].
  - exists [SearchFacts question (Config.top_k_retrieval cfg)], [], []. cbn. auto.
  - exists (facts_calls cfg doc_processor question),
      [SearchExternal question (Config.top_k_retrieval cfg)], [].
    rewrite app_nil_r. auto.
  - eexists _, _, _. split; [reflexivity|]. split; [exact Hf|]. split.
    + unfold external_calls. destruct (_ && _); [|now left].
      destruct (external_vectorstore doc_processor); auto.
    + destruct (generate_answer_total llm_invoke
                  (state_after_retrieval cfg question facts ext)) as [r [_ H]].
      exact H.
Qed.

(** X13.  Nothing but a search can make [ask] fail: when neither index
    raises on the question, [ask] returns a response, whatever the
    generation service does.  And when the facts index raises, [ask]
    lets the exception through after that one call. *)
Theorem ask_returns_unless_a_search_raises (vectorstores_ready : bool) (question : string) :
  ((forall vs, facts_vectorstore doc_processor = Some vs ->
               similarity_search vs question (Config.top_k_retrieval cfg) <> None) ->
   (forall vs, external_vectorstore doc_processor = Some vs ->
               similarity_search vs question (Config.top_k_retrieval cfg) <> None) ->
   exists response,
     outcome (ask cfg similarity_search llm_invoke doc_processor
                  vectorstores_ready question) = Some response)
  /\ (forall vs,
         facts_vectorstore doc_processor = Some vs ->
         similarity_search vs question (Config.top_k_retrieval cfg) = None ->
         ask cfg similarity_search llm_invoke doc_processor true question
         = ([SearchFacts question (Config.top_k_retrieval cfg)], None)).
Proof.
  split.
  - intros Hf He. destruct vectorstores_ready; [|eexists; reflexivity].
    rewrite ask_ready. cbn [outcome snd].
    destruct (graph_invoke_cases cfg similarity_search llm_invoke doc_processor question)
      as [[vs [H1 [H2 _]]] | [[facts [vs [_ [_ [H1 [H2 _]]]]]] | [facts [ext [_ [_ ->]]]]]].
    + elim (Hf vs H1 H2).
    + elim (He vs H1 H2).
    + cbn [outcome snd].
      destruct (generate_answer_total llm_invoke
                  (state_after_retrieval cfg question facts ext)) as [r [-> _]].
      eexists. reflexivity.
  - intros vs Hv Hs. rewrite ask_ready.
    destruct (graph_invoke_cases cfg similarity_search llm_invoke doc_processor question)
      as [[vs' [_ [_ ->]]] | [[facts [vs' [Hff _]]] | [facts [ext [Hff _]]]]];
      [reflexivity | |];
      unfold facts_found in Hff; rewrite Hv, Hs in Hff; discriminate.
Qed.

(** X14.  A response with status [answered] carries the text the
    generation service gave for the prompt, unchanged; that text passed
    [validate_answer] against the passages retrieved; and the citations
    are those of all these passages, one for each, facts first. *)
Theorem answered_response_is_validated_and_cites_every_passage
  (vectorstores_ready : bool) (question : string) (response : AnswerResponse) :
  outcome (ask cfg similarity_search llm_invoke doc_processor
               vectorstores_ready question) = Some response ->
  status response = "answered" ->
  exists facts external prompt,
    facts_found cfg similarity_search doc_processor question facts
    /\ external_found cfg similarity_search doc_processor question
                      (needs_external_for facts)
                      (Guardrails.is_sensitive_question (Config.sensitive_topics cfg)
                                                        question)
                      external
    /\ llm_invoke prompt = Some (answer response)
    /\ Guardrails.validate_answer (answer response) (facts ++ external) = true
    /\ all_some (map citation_of (facts ++ external)) = Some (citations response)
    /\ length (citations response) = length facts + length external.
Proof.
  destruct vectorstores_ready; [|cbn; intros [= <-]; discriminate].
  rewrite ask_ready. cbn [outcome snd].
  destruct (graph_invoke_cases cfg similarity_search llm_invoke doc_processor question)
    as [[vs [_ [_ ->]]] | [[facts [vs [_ [_ [_ [_ ->]]]]]] | [facts [ext [Hf [He ->]]]]]];
    cbn [outcome snd option_map]; try discriminate.
  destruct (outcome (generate_answer llm_invoke
                       (state_after_retrieval cfg question facts ext)))
    as [final|] eqn:Eg; [|discriminate].
  cbn [option_map]. intros [= <-]. cbn [status answer citations response_of].
  intros Hst.
  destruct (generate_answer_answered llm_invoke _ _ Eg Hst)
    as [entries [_ [Hl [Hv Hc]]]].
  cbn [st_retrieved_facts st_retrieved_external state_after_retrieval
       set_retrieved_external set_is_sensitive set_facts_result] in Hv, Hc.
  exists facts, ext. eexists. repeat split; try eassumption.
  apply all_some_length in Hc. now rewrite Hc, length_map, length_app.
Qed.

(** X15.  For a question that is sensitive, no run of [ask] searches the
    external index, and an answer cites facts passages only: the
    citations are those of the passages the facts index returned. *)
Theorem sensitive_question_is_answered_from_facts_only
  (vectorstores_ready : bool) (question : string) :
  Guardrails.is_sensitive_question (Config.sensitive_topics cfg) question = true ->
  (forall query k,
      ~ In (SearchExternal query k)
           (calls (ask cfg similarity_search llm_invoke doc_processor
                       vectorstores_ready question)))
  /\ forall response,
       outcome (ask cfg similarity_search llm_invoke doc_processor
                    vectorstores_ready question) = Some response ->
       status response = "answered" ->
       exists facts,
         facts_found cfg similarity_search doc_processor question facts
         /\ all_some (map citation_of facts) = Some (citations response).
Proof.
  intros Hs. destruct vectorstores_ready.
  2: { split; [intros query k []|]. cbn. intros r [= <-]. discriminate. }
  rewrite ask_ready. cbn [calls outcome fst snd].
  assert (Hfc : forall query k,
             ~ In (SearchExternal query k) (facts_calls cfg doc_processor question)).
  { intros query k. unfold facts_calls.
    destruct (facts_vectorstore doc_processor); [intros [H | []]; discriminate | intros []]. }
  destruct (graph_invoke_cases cfg similarity_search llm_invoke doc_processor question)
    as [[vs [_ [_ ->]]] | [[facts [vs [_ [Hg _]]]] | [facts [ext [Hf [He ->]]]]]];
    cbn [fst snd outcome].
  - split; [intros query k [H | []]; discriminate | discriminate].
  - rewrite Hs, andb_false_r in Hg. discriminate.
  - unfold external_found in He. rewrite Hs, andb_false_r in He. subst ext.
    split.
    + intros query k Hin. apply in_app_or in Hin as [Hin | Hin]; [now apply Hfc in Hin|].
      unfold external_calls in Hin. rewrite Hs, andb_false_r in Hin.
      cbn [app] in Hin.
      destruct (generate_answer_total llm_invoke
                  (state_after_retrieval cfg question facts [])) as [r [_ [H | [p H]]]];
        rewrite H in Hin; [destruct Hin | destruct Hin as [Hin | []]; discriminate].
    + intros response.
      destruct (outcome (generate_answer llm_invoke
                           (state_after_retrieval cfg question facts [])))
        as [final|] eqn:Eg; [|discriminate].
      cbn [option_map]. intros [= <-]. cbn [status citations response_of]. intros Hst.
      destruct (generate_answer_answered llm_invoke _ _ Eg Hst)
        as [entries [_ [_ [_ Hc]]]].
      cbn [st_retrieved_facts st_retrieved_external state_after_retrieval
           set_retrieved_external set_is_sensitive set_facts_result] in Hc.
      rewrite app_nil_r in Hc. now exists facts.
Qed.

(** X16.  A response has status [insufficient_info] exactly when the two
    retrievals found nothing, and the generation service is then not
    called. *)
Theorem insufficient_info_exactly_when_nothing_is_retrieved
  (question : string) (response : AnswerResponse) :
  outcome (ask cfg similarity_search llm_invoke doc_processor true question)
  = Some response ->
  exists facts external,
    facts_found cfg similarity_search doc_processor question facts
    /\ external_found cfg similarity_search doc_processor question
                      (needs_external_for facts)
                      (Guardrails.is_sensitive_question (Config.sensitive_topics cfg)
                                                        question)
                      external
    /\ (status response = "insufficient_info" <-> facts = [] /\ external = [])
    /\ (status response = "insufficient_info" ->
        forall prompt,
          ~ In (Generate prompt)
               (calls (ask cfg similarity_search llm_invoke doc_processor
                           true question))).
Proof.
  rewrite ask_ready. cbn [calls outcome fst snd].
  destruct (graph_invoke_cases cfg similarity_search llm_invoke doc_processor question)
    as [[vs [_ [_ ->]]] | [[facts [vs [_ [_ [_ [_ ->]]]]]] | [facts [ext [Hf [He ->]]]]]];
    cbn [fst snd outcome option_map]; try discriminate.
  destruct (outcome (generate_answer llm_invoke
                       (state_after_retrieval cfg question facts ext)))
    as [final|] eqn:Eg; [|discriminate].
  cbn [option_map]. intros [= <-]. cbn [status response_of].
  exists facts, ext. split; [exact Hf|]. split; [exact He|].
  assert (Hcalls : forall prompt,
             ~ In (Generate prompt)
                  (facts_calls cfg doc_processor question
                   ++ external_calls cfg doc_processor question
                        (needs_external_for facts)
                        (Guardrails.is_sensitive_question
                           (Config.sensitive_topics cfg) question))).
  { intros prompt Hin. apply in_app_or in Hin as [Hin | Hin].
    - unfold facts_calls in Hin.
      destruct (facts_vectorstore doc_processor);
        [destruct Hin as [Hin | []]; discriminate | destruct Hin].
    - unfold external_calls in Hin. destruct (_ && _); [|destruct Hin].
      destruct (external_vectorstore doc_processor);
        [destruct Hin as [Hin | []]; discriminate | destruct Hin]. }
  assert (Hrun := Eg). rewrite generate_answer_run in Hrun.
  cbn [st_retrieved_facts st_retrieved_external state_after_retrieval
       set_retrieved_external set_is_sensitive set_facts_result] in Hrun.
  destruct (facts ++ ext) as [|d ds] eqn:Eall.
  - apply app_eq_nil in Eall as [-> ->].
    cbn in Hrun. injection Hrun as <-. cbn [st_status set_result].
    split; [tauto|]. intros _ prompt Hin.
    rewrite generate_answer_run in Hin. cbn in Hin.
    rewrite app_assoc, app_nil_r in Hin. now apply (Hcalls prompt).
  - assert (Hne : st_status final <> "insufficient_info").
    { destruct (_ && _); [cbn in Hrun; injection Hrun as <-; discriminate|].
      rewrite attempt_run in Hrun.
      destruct (all_some (map context_entry (d :: ds))) as [entries|];
        [|cbn in Hrun; injection Hrun as <-; discriminate].
      cbn zeta in Hrun. cbn [outcome snd] in Hrun.
      destruct (llm_invoke _); [|injection Hrun as <-; discriminate].
      destruct (Guardrails.validate_answer _ _); [|injection Hrun as <-; discriminate].
      destruct (all_some (map citation_of _)); injection Hrun as <-; discriminate. }
    split; [|intros H; now elim Hne].
    split; [intros H; now elim Hne|].
    intros [-> ->]. discriminate.
Qed.

(** X17.  While the generation service raises on every prompt, a
    response that is not [insufficient_info] is the error response: the
    fixed apology, status [error], no citation. *)
Theorem generation_failure_gives_the_error_response
  (question : string) (response : AnswerResponse) :
  (forall prompt, llm_invoke prompt = None) ->
  outcome (ask cfg similarity_search llm_invoke doc_processor true question)
  = Some response ->
  status response = "insufficient_info"
  \/ response = {| answer := "I encountered an error while processing your question.";
                   status := "error";
                   citations := [] |}.
Proof.
  intros Hdown. rewrite ask_ready. cbn [outcome snd].
  destruct (graph_invoke_cases cfg similarity_search llm_invoke doc_processor question)
    as [[vs [_ [_ ->]]] | [[facts [vs [_ [Hg [_ [_ ->]]]]]] | [facts [ext [Hf [He ->]]]]]];
    cbn [snd outcome option_map]; try discriminate.
  rewrite generate_answer_run.
  cbn [st_retrieved_facts st_retrieved_external state_after_retrieval
       set_retrieved_external set_is_sensitive set_facts_result st_is_sensitive].
  destruct (facts ++ ext) as [|d ds] eqn:Eall.
  - cbn. intros [= <-]. now left.
  - destruct (Guardrails.is_sensitive_question _ _ && _) eqn:Eref.
    + exfalso. apply andb_true_iff in Eref as [Es Efacts].
      unfold external_found in He. rewrite Es, andb_false_r in He. subst ext.
      rewrite app_nil_r in Eall. subst facts. discriminate.
    + rewrite attempt_run.
      destruct (all_some (map context_entry (d :: ds))) as [entries|];
        [|cbn; intros [= <-]; now right].
      cbn zeta. cbn [outcome snd option_map]. rewrite Hdown.
      intros [= <-]. now right.
Qed.

End PipelineExtras.

(** ** More on the build and its cache *)

Section BuildExtras.
Import Processing Pipeline Vocabulary BuilderFacts CacheFacts.
Local Open Scope list_scope.

Variable cfg : Config.t.
Variable split_text : string -> list string.
Variable embed_ok : nat -> bool.
Variable save_outcome : nat -> SaveOutcome.

(** The two ways the step between loading and saving can end. *)
Lemma build_step_cases (dp1 : DocumentProcessor) (w : World)
      (c : completion) (dp2 : DocumentProcessor) (w2 : World) :
  (if is_none (facts_vectorstore dp1) then
     create_vectorstores_from_scratch cfg split_text embed_ok dp1 w
   else if is_none (external_vectorstore dp1) && file_exists (external_source w) then
     match load_external cfg split_text (Config.external_file cfg) (external_source w) with
     | [] => (Returned, dp1, w)
     | _ :: _ =>
         let '(r, w') :=
           create_vectorstore_batched
             cfg embed_ok
             (load_external cfg split_text (Config.external_file cfg) (external_source w))
             w in
         (Returned, set_external r dp1, w')
     end
   else (Returned, dp1, w)) = (c, dp2, w2) ->
  (c = Returned /\ facts_vectorstore dp2 <> None)
  \/ (c = Raised /\ dp2 = dp1 /\ facts_vectorstore dp1 = None
      /\ facts_cache w2 = facts_cache w /\ external_cache w2 = external_cache w
      /\ save_calls w2 = save_calls w
      /\ (load_facts split_text (Config.facts_file cfg) (facts_source w) = []
          -> w2 = w)).
Proof.
  destruct (facts_vectorstore dp1) as [fvs|] eqn:Ef; cbn [is_none].
  - destruct (is_none (external_vectorstore dp1) && file_exists (external_source w)).
    + destruct (load_external _ _ _ _) as [|d ds] eqn:El.
      * intros [= <- <- <-]. left. rewrite Ef. split; [reflexivity | discriminate].
      * rewrite <- El.
        destruct (create_vectorstore_batched _ _ _ _) as [r w'].
        intros [= <- <- <-]. left. cbn. rewrite Ef.
        split; [reflexivity | discriminate].
    + intros [= <- <- <-]. left. rewrite Ef. split; [reflexivity | discriminate].
  - unfold create_vectorstores_from_scratch.
    destruct (load_facts _ _ _) as [|fd fds] eqn:Elf.
    + intros [= <- <- <-]. right. repeat split; auto.
    + rewrite <- Elf. unfold from_documents.
      destruct (embed_ok (embed_calls w)).
      * destruct (load_external _ _ _ _) as [|d ds] eqn:El.
        -- intros [= <- <- <-]. left. cbn. split; [reflexivity | discriminate].
        -- rewrite <- El.
           destruct (create_vectorstore_batched _ _ _ _) as [r w'].
           intros [= <- <- <-]. left. cbn. split; [reflexivity | discriminate].
      * intros [= <- <- <-]. right. repeat split; auto.
        rewrite Elf. discriminate.
Qed.

Lemma create_vectorstores_unfold (dp : DocumentProcessor) (w : World) :
  create_vectorstores cfg split_text embed_ok save_outcome dp w
  = let dp1 := load_from_cache dp w in
    let '(c, dp2, w2) :=
      if is_none (facts_vectorstore dp1) then
        create_vectorstores_from_scratch cfg split_text embed_ok dp1 w
      else if is_none (external_vectorstore dp1) && file_exists (external_source w) then
        match load_external cfg split_text (Config.external_file cfg)
                            (external_source w) with
        | [] => (Returned, dp1, w)
        | _ :: _ =>
            let '(r, w') :=
              create_vectorstore_batched
                cfg embed_ok
                (load_external cfg split_text (Config.external_file cfg)
                               (external_source w))
                w in
            (Returned, set_external r dp1, w')
        end
      else (Returned, dp1, w) in
    match c with
    | Raised => (Raised, dp2, w2)
    | Returned => (Returned, dp2, save_to_cache save_outcome dp2 w2)
    end.
Proof.
  unfold create_vectorstores. cbn zeta.
  destruct (is_none (facts_vectorstore (load_from_cache dp w))); [reflexivity|].
  destruct (_ && _); [|reflexivity].
  now destruct (load_external _ _ _ _).
Qed.

Lemma build_returns_facts (dp dp' : DocumentProcessor) (w w' : World) (c : completion) :
  create_vectorstores cfg split_text embed_ok save_outcome dp w = (c, dp', w') ->
  c = Returned -> facts_vectorstore dp' <> None.
Proof.
  rewrite create_vectorstores_unfold. cbn zeta.
  destruct (if is_none _ then _ else _) as [[c2 dp2] w2] eqn:E.
  apply build_step_cases in E as [[-> Hf] | [-> _]].
  - now intros [= <- <- <-].
  - intros [= <- <- <-]. discriminate.
Qed.

(** X18.  The build returns exactly when it ends with a facts index in
    place.  When it raises there is no facts index, nothing was saved and
    the cache locations are as they were. *)
Theorem build_returns_exactly_with_a_facts_index
  (dp dp' : DocumentProcessor) (w w' : World) (c : completion) :
  create_vectorstores cfg split_text embed_ok save_outcome dp w = (c, dp', w') ->
  (c = Returned -> facts_vectorstore dp' <> None)
  /\ (c = Raised ->
      facts_vectorstore dp' = None
      /\ facts_cache w' = facts_cache w
      /\ external_cache w' = external_cache w
      /\ save_calls w' = save_calls w).
Proof.
  rewrite create_vectorstores_unfold. cbn zeta.
  destruct (if is_none _ then _ else _) as [[c2 dp2] w2] eqn:E.
  apply build_step_cases in E
    as [[-> Hf] | [-> [-> [Hf [Hc1 [Hc2 [Hs _]]]]]]].
  - intros [= <- <- <-]. split; [intros _; exact Hf | discriminate].
  - intros [= <- <- <-]. split; [discriminate|]. intros _. auto.
Qed.

(** X19.  A build that finds no usable facts cache and no facts document
    is fatal: it raises before any request to the embedding service,
    leaves the world as it was, and [initialize_vectorstores] does not
    touch the readiness flag. *)
Theorem build_without_facts_documents_raises (p : RAGPipeline) (w : World) :
  facts_vectorstore (load_from_cache (pl_doc_processor p) w) = None ->
  load_facts split_text (Config.facts_file cfg) (facts_source w) = [] ->
  initialize_vectorstores cfg split_text embed_ok save_outcome p w
  = (Raised,
     {| pl_doc_processor := load_from_cache (pl_doc_processor p) w;
        vectorstores_ready := vectorstores_ready p |},
     w).
Proof.
  intros Hf Hl. unfold initialize_vectorstores.
  rewrite create_vectorstores_unfold. cbn zeta.
  rewrite Hf. cbn [is_none]. unfold create_vectorstores_from_scratch.
  now rewrite Hl.
Qed.

Lemma save_to_cache_done (dp : DocumentProcessor) (w : World) :
  (forall n, save_outcome n = SaveDone) ->
  facts_cache (save_to_cache save_outcome dp w)
  = match facts_vectorstore dp with Some vs => CacheSaved vs | None => facts_cache w end
  /\ external_cache (save_to_cache save_outcome dp w)
     = match external_vectorstore dp with
       | Some vs => CacheSaved vs
       | None => external_cache w
       end.
Proof.
  intros Hdone. unfold save_to_cache, save_local.
  destruct (facts_vectorstore dp) as [fvs|];
    destruct (external_vectorstore dp) as [evs|];
    rewrite ?Hdone; cbn; rewrite ?Hdone; cbn; now split.
Qed.

(** X20.  When the build returns and every [save_local] succeeds, each
    index in place is what [load_local] reads back from its cache
    location; with both indexes in place, a processor that starts on
    that cache, whatever it held, loads exactly these two indexes. *)
Theorem build_persists_the_indexes_in_place
  (dp dp' : DocumentProcessor) (w w' : World) :
  (forall n, save_outcome n = SaveDone) ->
  create_vectorstores cfg split_text embed_ok save_outcome dp w = (Returned, dp', w') ->
  (forall vs, facts_vectorstore dp' = Some vs -> load_local (facts_cache w') = Some vs)
  /\ (forall vs, external_vectorstore dp' = Some vs ->
                 load_local (external_cache w') = Some vs)
  /\ (external_vectorstore dp' <> None ->
      forall dp0, load_from_cache dp0 w' = dp').
Proof.
  intros Hdone. rewrite create_vectorstores_unfold. cbn zeta.
  destruct (if is_none _ then _ else _) as [[c2 dp2] w2] eqn:E.
  apply build_step_cases in E as [[-> Hf] | [-> _]]; [|discriminate].
  intros [= <- <-].
  destruct (save_to_cache_done dp2 w2 Hdone) as [H1 H2].
  split; [|split].
  - intros vs Hvs. rewrite H1, Hvs. reflexivity.
  - intros vs Hvs. rewrite H2, Hvs. reflexivity.
  - intros He dp0. rewrite load_from_cache_spec, H1, H2.
    destruct dp2 as [[f|] [e|]]; cbn in *; congruence.
Qed.

End BuildExtras.

(** ** The provider factory *)

Section FactoryExtras.
Import Factory.

Variable cfg : Config.t.
Variable getenv : Env.

(** The provider a chat model and an embedding model belong to. *)
Lemma get_llm_provider_cases :
  (get_llm_provider getenv = AZURE
   /\ truthy (getenv "GOOGLE_API_KEY") = false
   /\ truthy (getenv "AZURE_OPENAI_API_KEY") = true)
  \/ (get_llm_provider getenv = GOOGLE
      /\ (truthy (getenv "GOOGLE_API_KEY") = true
          \/ truthy (getenv "AZURE_OPENAI_API_KEY") = false)).
Proof.
  unfold get_llm_provider.
  destruct (truthy (getenv "GOOGLE_API_KEY"));
    destruct (truthy (getenv "AZURE_OPENAI_API_KEY")); auto.
Qed.



End FactoryExtras.

(** ** The routes *)

Section RouteExtras.
Import Processing Pipeline Vocabulary MoreVocabulary PipelineFacts PipelineMore.

Variable cfg : Config.t.
Variable split_text : string -> list string.
Variable embed_ok : nat -> bool.
Variable save_outcome : nat -> SaveOutcome.
Variable similarity_search : VectorStore -> string -> nat -> option (list Document).
Variable llm_invoke : string -> option string.

(** X23.  [POST /ask] never hands out the [not_ready] response of [ask]:
    a pipeline whose indexes are not built is answered with the HTTP
    error 400 before anything is called, a missing pipeline with 500, and
    a body that is handed out comes from a ready pipeline and has a
    status other than [not_ready]. *)
Theorem ask_route_answers_400_instead_of_not_ready
  (pipeline : option RAGPipeline) (question : string) :
  (pipeline = None ->
   Main.ask_question cfg similarity_search llm_invoke pipeline question
   = ([], Main.HTTPException 500 "Pipeline not initialized"))
  /\ (forall p,
         pipeline = Some p -> vectorstores_ready p = false ->
         Main.ask_question cfg similarity_search llm_invoke pipeline question
         = ([], Main.HTTPException
                  400 "Vectorstores not ready. Please call /embed first."))
  /\ (forall l response,
         Main.ask_question cfg similarity_search llm_invoke pipeline question
         = (l, Main.Ok response) ->
         status response <> "not_ready"
         /\ exists p, pipeline = Some p /\ vectorstores_ready p = true).
Proof.
  unfold Main.ask_question. split; [|split].
  - now intros ->.
  - intros p -> Hr. now rewrite Hr.
  - intros l response. destruct pipeline as [p|]; [|discriminate].
    destruct (vectorstores_ready p) eqn:Hr; [|discriminate]. cbn [negb].
    destruct (ask _ _ _ _ _ _) as [l' [r|]] eqn:Ea; [|discriminate].
    intros [= <- <-]. split; [|now exists p].
    assert (Ho : outcome (ask cfg similarity_search llm_invoke (pl_doc_processor p)
                              true question) = Some r) by now rewrite Ea.
    unfold ask in Ho. cbn [negb] in Ho.
    apply outcome_bind in Ho as [final [Hg Ho]]. cbn in Ho. injection Ho as <-.
    cbn [status].
    apply graph_invoke_spec in Hg as [facts [needs [external [Hcase _]]]].
    cbn zeta in Hcase. inversion Hcase; cbn; discriminate.
Qed.

(** X24.  [POST /embed] succeeds exactly when the build returns.  After a
    success the pipeline is ready and has a facts index, so that
    [GET /health] and [GET /status] report it and [POST /ask] no longer
    answers 400; after a failure the readiness flag is as it was. *)
Theorem embed_route_makes_the_pipeline_ready
  (p : RAGPipeline) (w : World) :
  let '(result, pipeline', w') :=
    Main.embed_documents cfg split_text embed_ok save_outcome (Some p) w in
  exists p',
    pipeline' = Some p'
    /\ ((exists body, result = Main.Ok body) <->
        fst (fst (create_vectorstores cfg split_text embed_ok save_outcome
                                      (pl_doc_processor p) w)) = Returned)
    /\ ((exists body, result = Main.Ok body) ->
        vectorstores_ready p' = true
        /\ Main.health_check pipeline'
           = {| Main.health_status := "healthy";
                Main.health_pipeline_ready := true;
                Main.health_vectorstores_ready := true |}
        /\ (exists e, Main.status pipeline' = Main.StatusOf true true true e)
        /\ forall question,
             snd (Main.ask_question cfg similarity_search llm_invoke pipeline' question)
             <> Main.HTTPException
                  400 "Vectorstores not ready. Please call /embed first.")
    /\ ((exists code detail, result = Main.HTTPException code detail) ->
        vectorstores_ready p' = vectorstores_ready p).
Proof.
  unfold Main.embed_documents, initialize_vectorstores.
  destruct (create_vectorstores cfg split_text embed_ok save_outcome
                                (pl_doc_processor p) w) as [[c dp'] w'] eqn:Eb.
  pose proof (build_returns_facts cfg split_text embed_ok save_outcome _ _ _ _ _ Eb)
    as Hfacts.
  destruct c; cbn [fst snd].
  - eexists. split; [reflexivity|]. split; [|split].
    + split; [reflexivity | intros _; eexists; reflexivity].
    + intros _. cbn [vectorstores_ready]. split; [reflexivity|].
      split; [reflexivity|]. split.
      * cbn. destruct (facts_vectorstore dp') eqn:Ef; [|now elim (Hfacts eq_refl)].
        cbn. eexists. reflexivity.
      * intros question. unfold Main.ask_question.
        cbn [vectorstores_ready pl_doc_processor negb].
        destruct (ask _ _ _ _ _ _) as [l [r|]]; cbn; discriminate.
    + intros [code [detail H]]. discriminate.
  - eexists. split; [reflexivity|]. split; [|split].
    + split; [intros [body H]; discriminate | discriminate].
    + intros [body H]. discriminate.
    + intros _. reflexivity.
Qed.

End RouteExtras.

(** ** When the batched build gives no index *)

Section BuilderOutcome.
Import Processing Vocabulary BuilderFacts.
Local Open Scope list_scope.

Variable cfg : Config.t.
Variable embed_ok : nat -> bool.

(** X9.  With a positive batch size, [_create_vectorstore_batched] gives
    no index exactly when the list is empty or the construction from the
    first batch fails.  For an empty list nothing is requested; after a
    failed construction the one request was made and there is neither a
    pause nor an insert. *)
Theorem batched_build_gives_no_index_only_without_first_batch
  (documents : list Document) (w : World) :
  0 < Config.batch_size cfg ->
  (fst (create_vectorstore_batched cfg embed_ok documents w) = None
   <-> documents = [] \/ embed_ok (embed_calls w) = false)
  /\ (documents = [] ->
      create_vectorstore_batched cfg embed_ok documents w = (None, w))
  /\ (documents <> [] -> embed_ok (embed_calls w) = false ->
      create_vectorstore_batched cfg embed_ok documents w = (None, count_embed w)).
Proof.
  intros Hpos. split; [|split].
  - destruct documents as [|d ds] eqn:Ed.
    + split; [now left | reflexivity].
    + rewrite <- Ed.
      assert (Hne : documents <> []) by (subst; discriminate).
      destruct (embed_ok (embed_calls w)) eqn:Hinit.
      * split; [|intros [H | H]; [congruence | discriminate]].
        rewrite (create_vectorstore_batched_nonempty cfg embed_ok _ _ Hne).
        cbn zeta. unfold from_documents. rewrite Hinit.
        replace (Nat.min (Config.batch_size cfg) (length documents) =? 0) with false.
        -- destruct (fold_left _ _ _). discriminate.
        -- symmetry. apply Nat.eqb_neq. subst documents. cbn [length]. lia.
      * split; [now right|]. intros _.
        now rewrite (batched_build_without_initial_batch cfg embed_ok _ _ Hne Hinit).
  - intros ->. reflexivity.
  - apply batched_build_without_initial_batch.
Qed.

End BuilderOutcome.

(** ** The text of a response *)

Section ResponseTexts.
Import PyStr Processing Pipeline Vocabulary PipelineFacts.

Variable cfg : Config.t.
Variable similarity_search : VectorStore -> string -> nat -> option (list Document).
Variable llm_invoke : string -> option string.
Variable doc_processor : DocumentProcessor.

(** X25.  Only an [answered] response carries text of the generation
    service.  Every other response of [ask] has the fixed text of its
    status, one of four; the refusal text for sensitive questions and the
    fallback text of [get_refusal_message] are never given. *)
Theorem unanswered_response_carries_the_text_of_its_status
  (vectorstores_ready : bool) (question : string) (response : AnswerResponse) :
  outcome (ask cfg similarity_search llm_invoke doc_processor
               vectorstores_ready question) = Some response ->
  status response <> "answered" ->
  In (status response, answer response)
     [ ("not_ready",
        "Vectorstores not initialized. Please call /embed endpoint first.");
       ("insufficient_info",
        "I don't have enough information to answer this question safely.");
       ("validation_failed",
        "I cannot provide a reliable answer based on the available sources. Please try rephrasing your question or ask about topics covered in the reliable documentation.");
       ("error",
        "I encountered an error while processing your question.") ].
Proof.
  destruct vectorstores_ready.
  2: { cbn. intros [= <-] _. now left. }
  intros Ho Hst. unfold ask in Ho. cbn [negb] in Ho.
  apply outcome_bind in Ho as [final [Hg Ho]]. cbn in Ho. injection Ho as <-.
  cbn [status answer] in *.
  apply graph_invoke_spec in Hg as [facts [needs [external [Hcase Hgate]]]].
  cbn zeta in Hcase.
  inversion Hcase as [Hall Hr | Hall Hs Hf Hr | a cs Hv Hr | Hr | Hr];
    subst final; cbn [st_status st_answer set_result] in *.
  - right. left. reflexivity.
  - exfalso. cbn in Hall, Hs, Hf. rewrite Hs, andb_false_r in Hgate.
    rewrite Hf, (Hgate eq_refl) in Hall. now apply Hall.
  - now elim Hst.
  - right. right. left. reflexivity.
  - right. right. right. left. reflexivity.
Qed.

End ResponseTexts.

(** ** Runs of the further properties *)

Section IngestionMoreRuns.
Import PyStr Processing Pipeline Vocabulary MoreVocabulary.
Local Open Scope list_scope.

Lemma load_facts_numbers_the_chunks_witness :
  let docs := load_facts SampleRecord.split_paragraphs "data/byd_seal_facts.md"
                         (Some SampleMore.two_paragraphs) in
  exists doc,
    nth_error docs 1 = Some doc
    /\ page_content doc = "It is built by BYD."
    /\ citation_of doc
       = Some {| source := "facts"; doc_id := "F2"; chunk_id := "c2" |}.
Proof.
  cbn zeta.
  destruct (load_facts_numbers_the_chunks
              SampleRecord.split_paragraphs "data/byd_seal_facts.md"
              SampleMore.two_paragraphs) as [_ [Hcit _]].
  eexists. split; [reflexivity|]. split; [reflexivity|].
  exact (Hcit 1 _ eq_refl).
Defined.


Lemma ingested_passages_are_always_citable_witness :
  let sources :=
    load_facts SampleBuild.split_whole "data/byd_seal_facts.md"
               (facts_source SampleBuild.world)
    ++ load_external Config.config SampleBuild.split_whole
                     "data/byd_seal_external.json"
                     (external_source SampleBuild.world) in
  length sources = 2
  /\ exists cs, extract_citations sources = ([], Some cs)
                /\ length cs = length sources.
Proof.
  cbn zeta. split; [reflexivity|].
  refine (proj1 (ingested_passages_are_always_citable
                   Config.config SampleBuild.split_whole
                   "data/byd_seal_facts.md" "data/byd_seal_external.json"
                   (facts_source SampleBuild.world)
                   (external_source SampleBuild.world) _ _)).
  intros doc Hin. apply in_app_or in Hin. exact Hin.
Defined.

End IngestionMoreRuns.

Section BuilderMoreRuns.
Import Processing Vocabulary BuilderFacts.
Local Open Scope list_scope.

Lemma batched_build_gives_no_index_only_without_first_batch_witness :
  0 < Config.batch_size Config.config
  /\ SampleMore.embed_never (embed_calls SampleBatches.world) = false
  /\ create_vectorstore_batched Config.config SampleMore.embed_never
                                SampleBatches.documents SampleBatches.world
     = (None, count_embed SampleBatches.world).
Proof.
  assert (Hpos : 0 < Config.batch_size Config.config) by (cbn; lia).
  assert (Hne : SampleBatches.documents <> []) by discriminate.
  assert (Hinit : SampleMore.embed_never (embed_calls SampleBatches.world) = false)
    by reflexivity.
  split; [exact Hpos|]. split; [exact Hinit|].
  exact (proj2 (proj2 (batched_build_gives_no_index_only_without_first_batch
                         Config.config SampleMore.embed_never
                         SampleBatches.documents SampleBatches.world Hpos))
               Hne Hinit).
Defined.

Lemma batched_build_all_inserted_witness :
  SampleBatches.documents <> []
  /\ 0 < Config.batch_size Config.config
  /\ create_vectorstore_batched Config.config SampleBuild.embed_always
                                SampleBatches.documents SampleBatches.world
     = (Some SampleBatches.documents,
        advance 4 [(2 # 1)%Q; (2 # 1)%Q] SampleBatches.world).
Proof.
  assert (Hne : SampleBatches.documents <> []) by discriminate.
  assert (Hpos : 0 < Config.batch_size Config.config) by (cbn; lia).
  split; [exact Hne|]. split; [exact Hpos|].
  exact (batched_build_all_inserted
           Config.config SampleBuild.embed_always
           SampleBatches.documents SampleBatches.world Hne Hpos
           (fun j _ => eq_refl)).
Defined.

Lemma batched_build_sends_each_batch_once_witness :
  SampleBatches.documents <> []
  /\ 0 < Config.batch_size Config.config
  /\ SampleBatches.third_request_fails (embed_calls SampleBatches.world) = true
  /\ exists kept pauses,
       create_vectorstore_batched Config.config SampleBatches.third_request_fails
                                  SampleBatches.documents SampleBatches.world
       = (Some (firstn 20 SampleBatches.documents ++ kept),
          advance 4 pauses SampleBatches.world)
       /\ subseq kept (skipn 20 SampleBatches.documents)
       /\ length pauses <= 3.
Proof.
  assert (Hne : SampleBatches.documents <> []) by discriminate.
  assert (Hpos : 0 < Config.batch_size Config.config) by (cbn; lia).
  assert (Hinit : SampleBatches.third_request_fails
                    (embed_calls SampleBatches.world) = true) by reflexivity.
  split; [exact Hne|]. split; [exact Hpos|]. split; [exact Hinit|].
  destruct (batched_build_sends_each_batch_once
              Config.config SampleBatches.third_request_fails
              SampleBatches.documents SampleBatches.world Hne Hpos Hinit)
    as [kept [pauses [Hrun [Hsub [_ [Hlen _]]]]]].
  exists kept, pauses. split; [exact Hrun|]. split; [exact Hsub | exact Hlen].
Defined.

End BuilderMoreRuns.

Section PipelineMoreRuns.
Import PyStr Processing Pipeline Vocabulary MoreVocabulary.
Local Open Scope list_scope.

Lemma ask_returns_unless_a_search_raises_witness :
  (exists response,
      outcome (ask Config.config Sample.search_all SampleMore.llm_down
                   Sample.with_facts true "What kind of car is the BYD Seal?")
      = Some response)
  /\ ask Config.config SampleMore.search_raises Sample.llm Sample.with_facts true
         "What kind of car is the BYD Seal?"
     = ([SearchFacts "What kind of car is the BYD Seal?" 3], None).
Proof.
  split.
  - apply (proj1 (ask_returns_unless_a_search_raises
                    Config.config Sample.search_all SampleMore.llm_down
                    Sample.with_facts true "What kind of car is the BYD Seal?"));
      intros vs _; discriminate.
  - exact (proj2 (ask_returns_unless_a_search_raises
                    Config.config SampleMore.search_raises Sample.llm
                    Sample.with_facts true "What kind of car is the BYD Seal?")
                 [Sample.fact] eq_refl eq_refl).
Defined.

Lemma answered_response_is_validated_and_cites_every_passage_witness :
  let response :=
    {| answer := "The BYD Seal is a battery electric sedan [facts:F1:c1].";
       status := "answered";
       citations := [ {| source := "facts"; doc_id := "F1"; chunk_id := "c1" |} ] |} in
  outcome (ask Config.config Sample.search_all Sample.llm Sample.with_facts
               true "What kind of car is the BYD Seal?") = Some response
  /\ exists facts external,
       Guardrails.validate_answer (answer response) (facts ++ external) = true
       /\ length (citations response) = length facts + length external.
Proof.
  cbn zeta.
  assert (H : outcome (ask Config.config Sample.search_all Sample.llm
                           Sample.with_facts true
                           "What kind of car is the BYD Seal?")
              = Some {| answer := "The BYD Seal is a battery electric sedan [facts:F1:c1].";
                        status := "answered";
                        citations := [ {| source := "facts"; doc_id := "F1";
                                          chunk_id := "c1" |} ] |})
    by reflexivity.
  split; [exact H|].
  destruct (answered_response_is_validated_and_cites_every_passage
              Config.config Sample.search_all Sample.llm Sample.with_facts
              true _ _ H eq_refl)
    as [facts [external [prompt [_ [_ [_ [Hv [_ Hlen]]]]]]]].
  exists facts, external. split; [exact Hv | exact Hlen].
Defined.

Lemma sensitive_question_is_answered_from_facts_only_witness :
  Guardrails.is_sensitive_question (Config.sensitive_topics Config.config)
                                   "What is the price of the BYD Seal?" = true
  /\ forall query k,
       ~ In (SearchExternal query k)
            (calls (ask Config.config Sample.search_all Sample.llm Sample.empty_facts
                        true "What is the price of the BYD Seal?")).
Proof.
  assert (H : Guardrails.is_sensitive_question
                (Config.sensitive_topics Config.config)
                "What is the price of the BYD Seal?" = true) by reflexivity.
  split; [exact H|].
  exact (proj1 (sensitive_question_is_answered_from_facts_only
                  Config.config Sample.search_all Sample.llm Sample.empty_facts
                  true _ H)).
Defined.

Lemma insufficient_info_exactly_when_nothing_is_retrieved_witness :
  let response :=
    {| answer := "I don't have enough information to answer this question safely.";
       status := "insufficient_info"; citations := [] |} in
  outcome (ask Config.config Sample.search_all Sample.llm SampleMore.nothing_indexed
               true "What kind of car is the BYD Seal?") = Some response
  /\ forall prompt,
       ~ In (Generate prompt)
            (calls (ask Config.config Sample.search_all Sample.llm
                        SampleMore.nothing_indexed true
                        "What kind of car is the BYD Seal?")).
Proof.
  cbn zeta.
  assert (H : outcome (ask Config.config Sample.search_all Sample.llm
                           SampleMore.nothing_indexed true
                           "What kind of car is the BYD Seal?")
              = Some {| answer := "I don't have enough information to answer this question safely.";
                        status := "insufficient_info"; citations := [] |})
    by reflexivity.
  split; [exact H|].
  destruct (insufficient_info_exactly_when_nothing_is_retrieved
              Config.config Sample.search_all Sample.llm SampleMore.nothing_indexed
              _ _ H) as [facts [external [_ [_ [_ Hcalls]]]]].
  exact (Hcalls eq_refl).
Defined.

Lemma generation_failure_gives_the_error_response_witness :
  let response :=
    {| answer := "I encountered an error while processing your question.";
       status := "error"; citations := [] |} in
  (forall prompt, SampleMore.llm_down prompt = None)
  /\ outcome (ask Config.config Sample.search_all SampleMore.llm_down
                  Sample.with_facts true "What kind of car is the BYD Seal?")
     = Some response
  /\ (status response = "insufficient_info"
      \/ response = {| answer := "I encountered an error while processing your question.";
                       status := "error";
                       citations := [] |}).
Proof.
  cbn zeta.
  assert (Hdown : forall prompt, SampleMore.llm_down prompt = None)
    by (intros prompt; reflexivity).
  assert (H : outcome (ask Config.config Sample.search_all SampleMore.llm_down
                           Sample.with_facts true
                           "What kind of car is the BYD Seal?")
              = Some {| answer := "I encountered an error while processing your question.";
                        status := "error"; citations := [] |})
    by reflexivity.
  split; [exact Hdown|]. split; [exact H|].
  exact (generation_failure_gives_the_error_response
           Config.config Sample.search_all SampleMore.llm_down Sample.with_facts
           _ _ Hdown H).
Defined.

Lemma unanswered_response_carries_the_text_of_its_status_witness :
  let response :=
    {| answer := "I don't have enough information to answer this question safely.";
       status := "insufficient_info"; citations := [] |} in
  outcome (ask Config.config Sample.search_all Sample.llm SampleMore.nothing_indexed
               true "What kind of car is the BYD Seal?") = Some response
  /\ status response <> "answered"
  /\ In (status response, answer response)
        [ ("not_ready",
           "Vectorstores not initialized. Please call /embed endpoint first.");
          ("insufficient_info",
           "I don't have enough information to answer this question safely.");
          ("validation_failed",
           "I cannot provide a reliable answer based on the available sources. Please try rephrasing your question or ask about topics covered in the reliable documentation.");
          ("error",
           "I encountered an error while processing your question.") ].
Proof.
  cbn zeta.
  assert (H : outcome (ask Config.config Sample.search_all Sample.llm
                           SampleMore.nothing_indexed true
                           "What kind of car is the BYD Seal?")
              = Some {| answer := "I don't have enough information to answer this question safely.";
                        status := "insufficient_info"; citations := [] |})
    by reflexivity.
  assert (Hst : "insufficient_info" <> "answered") by discriminate.
  split; [exact H|]. split; [exact Hst|].
  exact (unanswered_response_carries_the_text_of_its_status
           Config.config Sample.search_all Sample.llm SampleMore.nothing_indexed
           true _ _ H Hst).
Defined.

End PipelineMoreRuns.

Section BuildMoreRuns.
Import Processing Pipeline Vocabulary.
Local Open Scope list_scope.

Lemma build_returns_exactly_with_a_facts_index_witness :
  let run := create_vectorstores Config.config SampleBuild.split_whole
                                 SampleBuild.embed_always SampleBuild.save_always
                                 (pl_doc_processor new_pipeline) SampleBuild.world in
  fst (fst run) = Returned
  /\ facts_vectorstore (snd (fst run)) <> None.
Proof.
  cbn zeta.
  set (run := create_vectorstores Config.config SampleBuild.split_whole
                                  SampleBuild.embed_always SampleBuild.save_always
                                  (pl_doc_processor new_pipeline) SampleBuild.world).
  assert (H : run = (Returned, snd (fst run), snd run)) by reflexivity.
  split; [reflexivity|].
  exact (proj1 (build_returns_exactly_with_a_facts_index
                  Config.config SampleBuild.split_whole SampleBuild.embed_always
                  SampleBuild.save_always _ _ _ _ _ H) eq_refl).
Defined.

Lemma build_without_facts_documents_raises_witness :
  facts_vectorstore (load_from_cache (pl_doc_processor new_pipeline)
                                     SampleBatches.world) = None
  /\ load_facts SampleBuild.split_whole (Config.facts_file Config.config)
                (facts_source SampleBatches.world) = []
  /\ initialize_vectorstores Config.config SampleBuild.split_whole
                             SampleBuild.embed_always SampleBuild.save_always
                             new_pipeline SampleBatches.world
     = (Raised, new_pipeline, SampleBatches.world).
Proof.
  split; [reflexivity|]. split; [reflexivity|].
  exact (build_without_facts_documents_raises
           Config.config SampleBuild.split_whole SampleBuild.embed_always
           SampleBuild.save_always new_pipeline SampleBatches.world
           eq_refl eq_refl).
Defined.

Lemma build_persists_the_indexes_in_place_witness :
  let run := create_vectorstores Config.config SampleBuild.split_whole
                                 SampleBuild.embed_always SampleBuild.save_always
                                 (pl_doc_processor new_pipeline) SampleBuild.world in
  (forall n, SampleBuild.save_always n = SaveDone)
  /\ fst (fst run) = Returned
  /\ external_vectorstore (snd (fst run)) <> None
  /\ forall dp0, load_from_cache dp0 (snd run) = snd (fst run).
Proof.
  cbn zeta.
  set (run := create_vectorstores Config.config SampleBuild.split_whole
                                  SampleBuild.embed_always SampleBuild.save_always
                                  (pl_doc_processor new_pipeline) SampleBuild.world).
  assert (Hdone : forall n, SampleBuild.save_always n = SaveDone)
    by (intros n; reflexivity).
  assert (H : run = (Returned, snd (fst run), snd run)) by reflexivity.
  assert (He : external_vectorstore (snd (fst run)) <> None) by discriminate.
  split; [exact Hdone|]. split; [reflexivity|]. split; [exact He|].
  exact (proj2 (proj2 (build_persists_the_indexes_in_place
                         Config.config SampleBuild.split_whole
                         SampleBuild.embed_always SampleBuild.save_always
                         _ _ _ _ Hdone H)) He).
Defined.

End BuildMoreRuns.

Section ServiceRuns.
Import Processing Pipeline.


Lemma ask_route_answers_400_instead_of_not_ready_witness :
  vectorstores_ready new_pipeline = false
  /\ Main.ask_question Config.config Sample.search_all Sample.llm
                       (Some new_pipeline) "What kind of car is the BYD Seal?"
     = ([], Main.HTTPException 400 "Vectorstores not ready. Please call /embed first.").
Proof.
  split; [reflexivity|].
  exact (proj1 (proj2 (ask_route_answers_400_instead_of_not_ready
                         Config.config Sample.search_all Sample.llm
                         (Some new_pipeline) "What kind of car is the BYD Seal?"))
               new_pipeline eq_refl eq_refl).
Defined.

Lemma embed_route_makes_the_pipeline_ready_witness :
  let run := Main.embed_documents Config.config SampleBuild.split_whole
                                  SampleBuild.embed_always SampleBuild.save_always
                                  (Some new_pipeline) SampleBuild.world in
  (exists body, fst (fst run) = Main.Ok body)
  /\ exists p', snd (fst run) = Some p' /\ vectorstores_ready p' = true.
Proof.
  cbn zeta.
  pose proof (embed_route_makes_the_pipeline_ready
                Config.config SampleBuild.split_whole SampleBuild.embed_always
                SampleBuild.save_always Sample.search_all Sample.llm
                new_pipeline SampleBuild.world) as H.
  destruct (Main.embed_documents Config.config SampleBuild.split_whole
                                 SampleBuild.embed_always SampleBuild.save_always
                                 (Some new_pipeline) SampleBuild.world)
    as [[result pipeline'] w'] eqn:E.
  assert (Hok : exists body, result = Main.Ok body).
  { vm_compute in E. injection E as <- _ _. eexists. reflexivity. }
  destruct H as [p' [Hp [_ [Hready _]]]].
  cbn [fst snd]. split; [exact Hok|].
  exists p'. split; [exact Hp|]. exact (proj1 (Hready Hok)).
Defined.

End ServiceRuns.
